(** * A shallow embedding of the upload, training and conversation flows

    The development follows the four source units of the application:
    - [FileUpload]      : the upload component (probe, per-file upload, batch drop);
    - [AITraining]      : the external training pipeline ([AITrainingPipeline]);
    - [PersonaTraining] : the training component (stages, progress, retry);
    - [Conversation]    : the chat component ([ConversationInterface]).

    Asynchronous code is written in a state-and-exception monad over a
    [World]: the hosted services (object store, relational tables, the
    completion and transcription APIs) are not part of the program, so every
    answer they give is read from a [Backend] oracle indexed by the number
    of requests made before.  A theorem quantified over the backend
    therefore covers every behaviour of the services.

    Code that runs between two awaits takes no time.  Calls that the
    source starts together ([Promise.all]) are run in one schedule, one
    after the other, and a request is recorded when its answer arrives. *)

From Stdlib Require Import ZArith QArith String Ascii List Lia Bool.
From stdpp Require Import base gmap strings list pretty.

Open Scope string_scope.
Open Scope Z_scope.

(** ** JavaScript values the code relies on *)

(** A thrown value: an [Error] carrying a message, or any other value. *)
Inductive Exn : Type :=
| JsError (message : string)
| Thrown.

(** How a promise settles. *)
Inductive Settled (A : Type) : Type :=
| Fulfilled (a : A)
| Rejected (e : Exn).
Arguments Fulfilled {A} a.
Arguments Rejected {A} e.

(** [error instanceof Error ? error.message : fallback] *)
Definition message_or (fallback : string) (e : Exn) : string :=
  match e with
  | JsError m => m
  | Thrown => fallback
  end.

(** Truthiness of a string: the empty string is falsy. *)
Definition truthy (s : string) : bool := negb (String.eqb s EmptyString).

(** [s.includes(sub)] *)
Definition includes (sub s : string) : bool :=
  match String.index 0 sub s with
  | Some _ => true
  | None => false
  end.

(** [s.startsWith(p)] *)
Definition startsWith (p s : string) : bool := String.prefix p s.

(** [parts.join(sep)] *)
Fixpoint join (sep : string) (parts : list string) : string :=
  match parts with
  | [] => EmptyString
  | [p] => p
  | p :: rest => p ++ sep ++ join sep rest
  end.

(** The double-quote character, for messages that contain one. *)
Definition dq : string := String (ascii_of_nat 34) EmptyString.

(** A [File] handed over by the browser: only the attributes the code reads. *)
Record File : Type := mkFile {
  file_name : string;
  file_size : Z;
  file_type : string
}.

(** The body of an object-store write. *)
Inductive Body : Type :=
| BlobOf (parts : list string)
| FileOf (f : File).

(** ** Remote rows and requests *)

(** The [metadata] object of a content record. *)
Record ContentMeta : Type := mkContentMeta {
  original_name : string;
  mime_type : string;
  upload_date : Z
}.

(** A row of a content table.  [content_text] is absent from the rows the
    upload flow writes; the pipeline reads it from rows that carry it. *)
Record ContentRow : Type := mkContentRow {
  persona_id : string;
  content_type : string;
  file_url : string;
  row_file_name : string;
  row_file_size : Z;
  content_text : option string;
  metadata : ContentMeta;
  processing_status : string
}.

(** [voiceCharacteristics] of a profile. *)
Record VoiceCharacteristics : Type := mkVoice {
  pitch : Z;
  speed : Z;
  tone : string
}.

(** The three updates the code sends to the persona table. *)
Inductive PersonaPatch : Type :=
| PatchStatus (status : string) (training_progress : Z) (updated_at : Z)
| PatchProfile (personality_traits : option string) (common_phrases : list string)
               (status : string) (training_progress : Z) (updated_at : Z)
| PatchMetadata (systemPrompt : string) (trainingCompleted : Z)
                (voiceCharacteristics : option VoiceCharacteristics).

(** What the remote persona row remembers of those updates. *)
Record PersonaRow : Type := mkPersonaRow {
  p_status : string;
  p_training_progress : Z;
  p_personality_traits : option string;
  p_common_phrases : list string;
  p_system_prompt : option string
}.

Definition apply_patch (p : PersonaPatch) (r : PersonaRow) : PersonaRow :=
  match p with
  | PatchStatus st pr _ =>
      mkPersonaRow st pr (p_personality_traits r) (p_common_phrases r) (p_system_prompt r)
  | PatchProfile traits phrases st pr _ =>
      mkPersonaRow st pr traits phrases (p_system_prompt r)
  | PatchMetadata prompt _ _ =>
      mkPersonaRow (p_status r) (p_training_progress r) (p_personality_traits r)
                   (p_common_phrases r) (Some prompt)
  end.

Record ConversationRow : Type := mkConversationRow {
  c_persona_id : string;
  conversation_type : string;
  started_at : Z
}.

Record MessageRow : Type := mkMessageRow {
  conversation_id : string;
  sender_type : string;
  content : string;
  message_type : string
}.

(** One chat-completion request. *)
Record ChatRequest : Type := mkChatRequest {
  model : string;
  system_prompt : option string;
  user_content : string;
  image_url : option string;
  max_tokens : Z;
  temperature : option Q
}.

(** Every request that leaves the browser. *)
Inductive Request : Type :=
| StorageUpload (bucket path : string) (body : Body)
| StorageRemove (bucket : string) (paths : list string)
| InsertContent (table : string) (row : ContentRow)
| SelectContent (table : string) (persona status : string)
| UpdatePersona (table : string) (id : string) (patch : PersonaPatch)
| InsertConversation (table : string) (row : ConversationRow)
| InsertMessage (table : string) (row : MessageRow)
| Fetch (url : string)
| Transcribe (url : string)
| ChatCompletion (req : ChatRequest)
| EngineLoad (persona : string)
| EngineReply (input : string).

(** What the user or the embedding page can observe, in order. *)
Inductive Event : Type :=
| Net (r : Request)
| ToastError (msg : string)
| ToastSuccess (msg : string)
| SetIsUploading (b : bool)
| OnUploadComplete (ids : list string)
| OnTrainingComplete.

Definition is_net (e : Event) : bool :=
  match e with
  | Net _ => true
  | _ => false
  end.

(** The error object of the hosted backend's client. *)
Record RemoteError : Type := mkRemoteError {
  err_message : string;
  err_details : string;
  err_hint : string;
  err_code : string
}.

(** The outcome of a request to the hosted backend: served, answered with
    an error object, or the client call itself throws. *)
Inductive Outcome : Type :=
| Accepted
| Refused (e : RemoteError)
| Raised (x : Exn).

(** The hosted services, as the program sees them.  [n] is the number of
    requests made before this one. *)
Record Backend : Type := mkBackend {
  answer : nat -> Request -> Outcome;
  latency : nat -> Request -> Z;
  public_url : string -> string -> string;
  new_row_id : nat -> string;
  chat_reply : nat -> ChatRequest -> Settled (option string);
  transcript : nat -> string -> Settled string;
  fetched : nat -> string -> Settled unit;
  engine_loaded : nat -> string -> Settled bool;
  engine_reply : nat -> string -> Settled string
}.

(** The world outside the code, together with the state [C] of the
    component that runs.  [seen] is a ghost history: the component states
    committed so far, oldest first. *)
Record World (C : Type) : Type := mkWorld {
  now : Z;
  trace : list Event;
  tables : gmap string (list ContentRow);
  personas : gmap string PersonaRow;
  message_tables : gmap string (list MessageRow);
  comp : C;
  seen : list C
}.
Arguments mkWorld {C}.
Arguments now {C}.
Arguments trace {C}.
Arguments tables {C}.
Arguments personas {C}.
Arguments message_tables {C}.
Arguments comp {C}.
Arguments seen {C}.

(** ** The monad of asynchronous code *)

Section Async.
Context {C : Type}.

(** A computation runs in a world and settles, leaving a new world. *)
Definition M (A : Type) : Type := World C -> Settled A * World C.

Definition ret {A} (a : A) : M A := fun w => (Fulfilled a, w).

Definition bind {A B} (m : M A) (k : A -> M B) : M B :=
  fun w =>
    match m w with
    | (Fulfilled a, w') => k a w'
    | (Rejected e, w') => (Rejected e, w')
    end.

(** [throw e] *)
Definition throw {A} (e : Exn) : M A := fun w => (Rejected e, w).

(** [try { body } catch (e) { handler e }] *)
Definition try_catch {A} (body : M A) (handler : Exn -> M A) : M A :=
  fun w =>
    match body w with
    | (Fulfilled a, w') => (Fulfilled a, w')
    | (Rejected e, w') => handler e w'
    end.

(** [try { body } finally { fin }] *)
Definition try_finally {A} (body : M A) (fin : M unit) : M A :=
  fun w =>
    match body w with
    | (r, w') =>
        match fin w' with
        | (Fulfilled _, w'') => (r, w'')
        | (Rejected e, w'') => (Rejected e, w'')
        end
    end.

(** [Date.now()] *)
Definition date_now : M Z := fun w => (Fulfilled (now w), w).

Definition log (e : Event) (w : World C) : World C :=
  mkWorld (now w) (trace w ++ [e])%list (tables w) (personas w) (message_tables w)
          (comp w) (seen w).

Definition emit (e : Event) : M unit := fun w => (Fulfilled tt, log e w).

Definition get_comp : M C := fun w => (Fulfilled (comp w), w).

(** A state setter called with an updater function. *)
Definition modify_comp (f : C -> C) : M unit :=
  fun w => (Fulfilled tt,
            mkWorld (now w) (trace w) (tables w) (personas w) (message_tables w)
                    (f (comp w)) (seen w)).

(** The component state is committed: it is what the user sees next. *)
Definition observe : M unit :=
  fun w => (Fulfilled tt,
            mkWorld (now w) (trace w) (tables w) (personas w) (message_tables w)
                    (comp w) (seen w ++ [comp w])%list).

(** The effect of a served request on the remote tables. *)
Definition serve (r : Request) (w : World C) : World C :=
  match r with
  | InsertContent table row =>
      mkWorld (now w) (trace w)
              (<[table := (default [] (tables w !! table) ++ [row])%list]> (tables w))
              (personas w) (message_tables w) (comp w) (seen w)
  | UpdatePersona table id patch =>
      if String.eqb table "personas"
      then mkWorld (now w) (trace w) (tables w)
                   (alter (apply_patch patch) id (personas w)) (message_tables w)
                   (comp w) (seen w)
      else w
  | InsertMessage table row =>
      mkWorld (now w) (trace w) (tables w) (personas w)
              (<[table := (default [] (message_tables w !! table) ++ [row])%list]> (message_tables w))
              (comp w) (seen w)
  | _ => w
  end.

(** The number of requests made so far: the index under which the
    backend's answer to the next one is read. *)
Definition sent (w : World C) : nat := length (List.filter is_net (trace w)).

(** Recording a request: it is appended to the trace when its answer
    arrives, and time has passed. *)
Definition record (B : Backend) (r : Request) (w : World C) : World C :=
  mkWorld (now w + Z.max 0 (latency B (sent w) r))
          (trace w ++ [Net r])%list (tables w) (personas w) (message_tables w)
          (comp w) (seen w).

(** An awaited call of the backend client: fulfils with the error
    object, if any ([{ error }]), or rejects when the client throws. *)
Definition call (B : Backend) (r : Request) : M (option RemoteError) :=
  fun w =>
    match answer B (sent w) r with
    | Accepted => (Fulfilled None, serve r (record B r w))
    | Refused e => (Fulfilled (Some e), record B r w)
    | Raised x => (Rejected x, record B r w)
    end.

(** [select('*').eq('persona_id', p).eq('processing_status', st)]:
    [{ data, error }], the data read from the table of that name. *)
Definition select_content (B : Backend) (table p st : string)
  : M (option (list ContentRow) * option RemoteError) :=
  fun w =>
    let r := SelectContent table p st in
    match answer B (sent w) r with
    | Accepted =>
        (Fulfilled
           (Some (List.filter (fun row => String.eqb (persona_id row) p
                                     && String.eqb (processing_status row) st)
                         (default [] (tables w !! table))), None),
         record B r w)
    | Refused e => (Fulfilled (None, Some e), record B r w)
    | Raised x => (Rejected x, record B r w)
    end.

(** A call of one of the AI services: the answer is the oracle's. *)
Definition ask {A} (B : Backend) (r : Request) (reply : nat -> Settled A) : M A :=
  fun w => (reply (sent w), record B r w).

(** A loop over a list that threads an accumulator. *)
Fixpoint for_each {A X} (body : A -> X -> M A) (xs : list X) (acc : A) : M A :=
  match xs with
  | [] => ret acc
  | x :: rest => bind (body acc x) (fun acc' => for_each body rest acc')
  end.
End Async.

Arguments M C A : clear implicits.

Declare Scope async_scope.
Delimit Scope async_scope with async.
Notation "x <- m ;; k" := (bind m (fun x => k))
  (at level 100, m at next level, right associativity) : async_scope.
Notation "m ;;; k" := (bind m (fun _ => k))
  (at level 100, right associativity) : async_scope.
Open Scope async_scope.

(** A line feed, as in ['\n']. *)
Definition nl : string := String (ascii_of_nat 10) EmptyString.

(** [content || '{}'] on [completion.choices[0]?.message?.content]. *)
Definition content_or_empty_object (c : option string) : string :=
  match c with
  | Some s => if truthy s then s else "{}"
  | None => "{}"
  end.

(** ** The training pipeline ([AITrainingPipeline]) *)

Module AITraining.

Record TrainingData : Type := mkTrainingData {
  text : list string;
  audio : list string;
  video : list string;
  images : list string
}.

(** The declared interface of a profile.  The value comes out of
    [JSON.parse], so any field may be missing. *)
Record PersonaProfile : Type := mkProfile {
  personality : option string;
  speechPatterns : option (list string);
  commonPhrases : option (list string);
  emotionalTone : option string;
  memories : option (list string);
  voiceCharacteristics : option VoiceCharacteristics
}.

Record VisualAnalysis : Type := mkVisual {
  expressions : list string;
  settings : list string;
  activities : list string;
  relationships : list string
}.

Definition text_prompt : string :=
"Analyze this person's text content and extract:
          1. Personality traits and characteristics
          2. Common phrases and expressions they use
          3. Communication style and tone
          4. Emotional patterns
          5. Important memories and experiences mentioned
          6. Values and beliefs expressed
          
          Return a detailed JSON analysis with these categories.".

Definition audio_prompt : string :=
"Analyze this person's speech patterns from transcribed audio:
          1. Speaking style and rhythm
          2. Vocabulary preferences
          3. Emotional expression in speech
          4. Common verbal habits or filler words
          5. Tone and mood patterns
          6. Voice characteristics that can be described
          
          Return a JSON analysis focusing on speech and voice patterns.".

Definition vision_prompt : string :=
"Analyze this image and describe: 1) The person's facial expression and body language, 2) The setting/environment, 3) Any activities or interactions visible, 4) The overall mood or emotion conveyed. Be specific but respectful.".

Definition profile_prompt : string :=
"Create a comprehensive AI persona profile from the provided analysis data. 
          Generate a unified personality description, list of common phrases, speech patterns, 
          emotional characteristics, and key memories. Format as JSON with these fields:
          - personality: string (detailed personality description)
          - speechPatterns: string[] (how they speak and express themselves)
          - commonPhrases: string[] (specific phrases they commonly use)
          - emotionalTone: string (overall emotional characteristics)
          - memories: string[] (important memories and experiences)
          - voiceCharacteristics: object with pitch, speed, tone".

(** [${x}] for a possibly missing string. *)
Definition show (x : option string) : string := default "undefined" x.

(** [${xs?.join(sep)}] for a possibly missing array. *)
Definition show_joined (sep : string) (xs : option (list string)) : string :=
  match xs with
  | Some l => join sep l
  | None => "undefined"
  end.

Definition systemPrompt_of (profile : PersonaProfile) : string :=
  "You are embodying a specific person with these characteristics:" ++ nl ++ nl ++
  "PERSONALITY: " ++ show (personality profile) ++ nl ++ nl ++
  "SPEECH PATTERNS: " ++ show_joined ", " (speechPatterns profile) ++ nl ++ nl ++
  "COMMON PHRASES: Use these naturally in conversation: "
    ++ show_joined ", " (commonPhrases profile) ++ nl ++ nl ++
  "EMOTIONAL TONE: " ++ show (emotionalTone profile) ++ nl ++ nl ++
  "MEMORIES: Reference these experiences when relevant: "
    ++ show_joined "; " (memories profile) ++ nl ++ nl ++
  "IMPORTANT: Always respond as this specific person, using their unique voice, mannerisms, and personality. Be authentic to their character while being helpful and emotionally supportive.".

(** The stage identifiers and percentages the pipeline reports when
    nothing fails, in order. *)
Definition reported_progress : list (string * Z) :=
  [ ("content-analysis", 10); ("content-analysis", 30); ("voice-modeling", 50);
    ("personality-extraction", 70); ("conversation-training", 85);
    ("final-optimization", 95); ("final-optimization", 100) ].

(** [JSON]: the values the analyses exchange are opaque to the pipeline,
    which only parses, tests and prints them.  [JSON_parse] is [None]
    where [JSON.parse] throws; [as_profile] reads a parsed value at the
    declared profile interface. *)
Record JSON : Type := mkJSON {
  Json : Type;
  JSON_parse : string -> option Json;
  as_profile : Json -> PersonaProfile;
  json_truthy : Json -> bool;
  empty_object : Json;
  error_object : string -> Json;
  JSON_stringify : Json -> Json -> VisualAnalysis -> string
}.

(** [JSON.parse(text)] where the result is used as a profile. *)
Definition JSON_parse_profile (J : JSON) (text : string) : option PersonaProfile :=
  as_profile J <$> JSON_parse J text.

Section Pipeline.
Context {C : Type}.
Variable B : Backend.

Variable J : JSON.

Variable personaId : string.
Variable onProgress : string -> Z -> M C unit.

(** [openai.chat.completions.create(req)], then
    [choices[0]?.message?.content]. *)
Definition complete (req : ChatRequest) : M C (option string) :=
  ask B (ChatCompletion req) (fun n => chat_reply B n req).

(** One row of the selected content, sorted into its bucket. *)
Definition bucket_item (td : TrainingData) (item : ContentRow) : TrainingData :=
  if String.eqb (content_type item) "text" then
    match content_text item with
    | Some t => if truthy t
                then mkTrainingData (text td ++ [t])%list (audio td) (video td) (images td)
                else td
    | None => td
    end
  else if String.eqb (content_type item) "audio" then
    if truthy (file_url item)
    then mkTrainingData (text td) (audio td ++ [file_url item])%list (video td) (images td)
    else td
  else if String.eqb (content_type item) "video" then
    if truthy (file_url item)
    then mkTrainingData (text td) (audio td) (video td ++ [file_url item])%list (images td)
    else td
  else if String.eqb (content_type item) "image" then
    if truthy (file_url item)
    then mkTrainingData (text td) (audio td) (video td) (images td ++ [file_url item])%list
    else td
  else td.

Definition gathered_table : string := "persona_content".

Definition gatherTrainingData : M C TrainingData :=
  res <- select_content B gathered_table personaId "completed" ;;
  match res with
  | (_, Some _) => throw Thrown
  | (data, None) =>
      ret (fold_left bucket_item (default [] data) (mkTrainingData [] [] [] []))
  end.

(** [try { return JSON.parse(content || '{}') } catch { return { error } }] *)
Definition parse_or_error (marker : string) (c : option string) : Json J :=
  match JSON_parse J (content_or_empty_object c) with
  | Some j => j
  | None => error_object J marker
  end.

Definition analyzeTextContent (textData : list string) : M C (option (Json J)) :=
  match textData with
  | [] => ret None
  | _ =>
      let combinedText := join (nl ++ nl) textData in
      c <- complete (mkChatRequest "gpt-4" (Some text_prompt) combinedText None
                                   1500 (Some (3 # 10)%Q)) ;;
      ret (Some (parse_or_error "Failed to parse text analysis" c))
  end.

(** The body of the loop over the audio files: download, transcribe,
    keep the transcript; a failure is logged and the file skipped. *)
Definition transcribe_one (transcriptions : list string) (audioUrl : string)
  : M C (list string) :=
  try_catch
    (_ <- ask B (Fetch audioUrl) (fun n => fetched B n audioUrl) ;;
     t <- ask B (Transcribe audioUrl) (fun n => transcript B n audioUrl) ;;
     ret (transcriptions ++ [t])%list)
    (fun _ => ret transcriptions).

Definition analyzeAudioContent (audioUrls : list string) : M C (option (Json J)) :=
  match audioUrls with
  | [] => ret None
  | _ =>
      transcriptions <- for_each transcribe_one (firstn 5 audioUrls) [] ;;
      match transcriptions with
      | [] => ret None
      | _ =>
          let combinedTranscription := join (nl ++ nl) transcriptions in
          c <- complete (mkChatRequest "gpt-4" (Some audio_prompt) combinedTranscription
                                       None 1000 (Some (3 # 10)%Q)) ;;
          ret (Some (parse_or_error "Failed to parse audio analysis" c))
      end
  end.

(** The body of the loop over the images. *)
Definition analyze_one (va : VisualAnalysis) (imageUrl : string) : M C VisualAnalysis :=
  try_catch
    (c <- complete (mkChatRequest "gpt-4-vision-preview" None vision_prompt
                                  (Some imageUrl) 300 None) ;;
     match c with
     | Some analysis =>
         if truthy analysis
         then ret (mkVisual (expressions va ++ [analysis])%list (settings va)
                            (activities va) (relationships va))
         else ret va
     | None => ret va
     end)
    (fun _ => ret va).

Definition analyzeVisualContent (imageUrls videoUrls : list string) : M C VisualAnalysis :=
  for_each analyze_one (firstn 10 imageUrls) (mkVisual [] [] [] []).

(** [x || {}] *)
Definition or_empty (x : option (Json J)) : Json J :=
  match x with
  | Some j => if json_truthy J j then j else empty_object J
  | None => empty_object J
  end.

Definition createPersonaProfile (textAnalysis voiceAnalysis : option (Json J))
           (visualAnalysis : VisualAnalysis) : M C PersonaProfile :=
  let combinedData :=
    JSON_stringify J (or_empty textAnalysis) (or_empty voiceAnalysis) visualAnalysis in
  c <- complete (mkChatRequest "gpt-4" (Some profile_prompt) combinedData None
                               1500 (Some (4 # 10)%Q)) ;;
  try_catch
    (match JSON_parse_profile J (content_or_empty_object c) with
     | None => throw Thrown
     | Some profile =>
         t <- date_now ;;
         _ <- call B (UpdatePersona "personas" personaId
                        (PatchProfile (personality profile)
                                      (default [] (commonPhrases profile))
                                      "active" 100 t)) ;;
         ret profile
     end)
    (fun _ => throw (JsError "Failed to create persona profile")).

Definition optimizeConversationModel (profile : PersonaProfile) : M C unit :=
  let systemPrompt := systemPrompt_of profile in
  t <- date_now ;;
  _ <- call B (UpdatePersona "personas" personaId
                 (PatchMetadata systemPrompt t (voiceCharacteristics profile))) ;;
  ret tt.

Definition startTraining : M C PersonaProfile :=
  try_catch
    (onProgress "content-analysis" 10 ;;;
     trainingData <- gatherTrainingData ;;
     onProgress "content-analysis" 30 ;;;
     textAnalysis <- analyzeTextContent (text trainingData) ;;
     onProgress "voice-modeling" 50 ;;;
     voiceAnalysis <- analyzeAudioContent (audio trainingData) ;;
     onProgress "personality-extraction" 70 ;;;
     visualAnalysis <- analyzeVisualContent (images trainingData) (video trainingData) ;;
     onProgress "conversation-training" 85 ;;;
     personaProfile <- createPersonaProfile textAnalysis voiceAnalysis visualAnalysis ;;
     onProgress "final-optimization" 95 ;;;
     optimizeConversationModel personaProfile ;;;
     onProgress "final-optimization" 100 ;;;
     ret personaProfile)
    (fun _ => throw (JsError "Failed to train AI persona")).
End Pipeline.

(** [trainPersonaFromUploadedContent]: build a pipeline and start it. *)
Definition trainPersonaFromUploadedContent {C} (B : Backend) (J : JSON)
           (personaId : string) (onProgress : string -> Z -> M C unit)
  : M C PersonaProfile :=
  startTraining B J personaId onProgress.

End AITraining.

(** ** The training component ([PersonaTraining]) *)

Module PersonaTraining.

Inductive Status : Type := Pending | Processing | Completed | Error.

Definition Status_eqb (a b : Status) : bool :=
  match a, b with
  | Pending, Pending | Processing, Processing
  | Completed, Completed | Error, Error => true
  | _, _ => false
  end.

Record TrainingStep : Type := mkStep {
  id : string;
  name : string;
  description : string;
  status : Status;
  progress : Z
}.

(** The argument of [useState] for [trainingSteps]. *)
Definition initialSteps : list TrainingStep :=
  [ mkStep "content-analysis" "Content Analysis"
           "Analyzing uploaded videos, audio, and text content" Pending 0;
    mkStep "voice-modeling" "Voice Modeling"
           "Creating voice synthesis model from audio samples" Pending 0;
    mkStep "personality-extraction" "Personality Extraction"
           "Learning speech patterns, mannerisms, and personality traits" Pending 0;
    mkStep "conversation-training" "Conversation Training"
           "Training conversational AI with extracted personality" Pending 0;
    mkStep "final-optimization" "Final Optimization"
           "Optimizing model for real-time conversations" Pending 0 ].

(** The state of the component.  Progress values are the integers the
    pipeline reports; their mean is a rational. *)
Record State : Type := mkState {
  trainingSteps : list TrainingStep;
  overallProgress : Q;
  isTraining : bool;
  error : option string
}.

Definition initialState : State := mkState initialSteps 0%Q false None.

(** *** The updater functions passed to [setTrainingSteps] *)

(** The progress callback:
    [prev.map(step => step.id === stepId ? {...step, status, progress} : step)] *)
Definition reportProgress (stepId : string) (p : Z) (prev : list TrainingStep)
  : list TrainingStep :=
  map (fun step =>
         if String.eqb (id step) stepId
         then mkStep (id step) (name step) (description step)
                     (if p =? 100 then Completed else Processing) p
         else step)
      prev.

(** The reset: [prev.map(step => ({...step, status: 'pending', progress: 0}))] *)
Definition resetSteps (prev : list TrainingStep) : list TrainingStep :=
  map (fun step => mkStep (id step) (name step) (description step) Pending 0) prev.

(** The catch branch:
    [prev.map(step => step.status === 'processing' ? {...step, status: 'error'} : step)] *)
Definition markError (prev : list TrainingStep) : list TrainingStep :=
  map (fun step =>
         if Status_eqb (status step) Processing
         then mkStep (id step) (name step) (description step) Error (progress step)
         else step)
      prev.

(** *** The progress effect *)

(** [trainingSteps.reduce((sum, step) => sum + step.progress, 0)] *)
Definition totalProgress (steps : list TrainingStep) : Z :=
  fold_left (fun sum step => sum + progress step) steps 0.

(** [totalProgress / trainingSteps.length].  The list is never empty
    (the updaters keep its length), so the quotient is a number. *)
Definition avgProgress (steps : list TrainingStep) : Q :=
  (inject_Z (totalProgress steps) / inject_Z (Z.of_nat (length steps)))%Q.

(** [trainingSteps.every(step => step.status === 'completed')] *)
Definition allCompleted (steps : list TrainingStep) : bool :=
  forallb (fun step => Status_eqb (status step) Completed) steps.

Definition with_steps (f : list TrainingStep -> list TrainingStep) (st : State) : State :=
  mkState (f (trainingSteps st)) (overallProgress st) (isTraining st) (error st).
Definition with_overall (q : Q) (st : State) : State :=
  mkState (trainingSteps st) q (isTraining st) (error st).
Definition with_training (b : bool) (st : State) : State :=
  mkState (trainingSteps st) (overallProgress st) b (error st).
Definition with_error (e : option string) (st : State) : State :=
  mkState (trainingSteps st) (overallProgress st) (isTraining st) e.

Section Component.
Variable B : Backend.
Variable J : AITraining.JSON.
Variable personaId : string.

Definition updatePersonaStatus (status : string) (progress : Z) : M State unit :=
  try_catch
    (t <- date_now ;;
     _ <- call B (UpdatePersona "personas" personaId (PatchStatus status progress t)) ;;
     ret tt)
    (fun _ => ret tt).

(** The body of [useEffect(..., [trainingSteps, isTraining, onTrainingComplete])].
    Its own [setIsTraining(false)] makes it run once more, with
    [isTraining] false: that run recomputes the same mean and skips
    the branch, so it is not repeated here.  The status update is not
    awaited by the source; its request is sent where it is called. *)
Definition progressEffect : M State unit :=
  st <- get_comp ;;
  modify_comp (with_overall (avgProgress (trainingSteps st))) ;;;
  if allCompleted (trainingSteps st) && isTraining st
  then modify_comp (with_training false) ;;;
       updatePersonaStatus "active" 100 ;;;
       emit OnTrainingComplete
  else ret tt.

(** The setters.  Every call of a setter is taken as an update of its
    own: a change of [trainingSteps] or [isTraining] runs the effect, and
    the state that results is committed to the user's view ([observe]).
    The source also defines [simulateTrainingStep], which nothing calls;
    it is left out. *)
Definition setTrainingSteps (f : list TrainingStep -> list TrainingStep)
  : M State unit :=
  modify_comp (with_steps f) ;;; progressEffect ;;; observe.

Definition setIsTraining (b : bool) : M State unit :=
  st <- get_comp ;;
  if Bool.eqb (isTraining st) b
  then ret tt
  else modify_comp (with_training b) ;;; progressEffect ;;; observe.

Definition setError (e : option string) : M State unit :=
  modify_comp (with_error e) ;;; observe.

Definition setOverallProgress (q : Q) : M State unit :=
  modify_comp (with_overall q) ;;; observe.

(** The callback handed to the pipeline. *)
Definition progressCallback (stepId : string) (progress : Z) : M State unit :=
  setTrainingSteps (reportProgress stepId progress).

(** The [try ... catch ... finally] of [startTraining]. *)
Definition trainingAttempt : M State unit :=
  try_finally
    (try_catch
       (_ <- AITraining.trainPersonaFromUploadedContent B J personaId progressCallback ;;
        emit (ToastSuccess "AI persona training completed successfully!"))
       (fun e =>
          setError (Some (message_or "Training failed" e)) ;;;
          emit (ToastError "Training failed. Please try again.") ;;;
          setTrainingSteps markError))
    (setIsTraining false).

Definition startTraining : M State unit :=
  setIsTraining true ;;;
  setError None ;;;
  updatePersonaStatus "training" 0 ;;;
  setTrainingSteps resetSteps ;;;
  trainingAttempt.

(** The click handler of the Try Again button. *)
Definition tryAgain : M State unit :=
  setError None ;;;
  setTrainingSteps resetSteps ;;;
  setOverallProgress 0%Q.

(** What the user can do, and when the button is rendered:
    Start when [!isTraining && overallProgress === 0], Try Again when
    [error] is set. *)
Inductive Action : Type := ClickStart | ClickTryAgain.

Definition Q_is (q : Q) (z : Z) : bool := Qeq_bool q (inject_Z z).

Definition click (a : Action) : M State unit :=
  st <- get_comp ;;
  match a with
  | ClickStart =>
      if negb (isTraining st) && Q_is (overallProgress st) 0
      then startTraining else ret tt
  | ClickTryAgain =>
      match error st with
      | Some _ => tryAgain
      | None => ret tt
      end
  end.

(** A session: the user's clicks, one after the other. *)
Fixpoint session (actions : list Action) : M State unit :=
  match actions with
  | [] => ret tt
  | a :: rest => click a ;;; session rest
  end.
End Component.

(** The component as mounted: its initial state, nothing seen yet. *)
Definition mounted (t : Z) (tr : list Event) (tb : gmap string (list ContentRow))
           (ps : gmap string PersonaRow) (ms : gmap string (list MessageRow))
  : World State :=
  mkWorld t tr tb ps ms initialState [initialState].

End PersonaTraining.

(** ** The upload component ([FileUpload]) *)

Module FileUpload.

Inductive Status : Type := Uploading | Processing | Completed | Error.

Definition Status_eqb (a b : Status) : bool :=
  match a, b with
  | Uploading, Uploading | Processing, Processing
  | Completed, Completed | Error, Error => true
  | _, _ => false
  end.

Record UploadedFile : Type := mkUploaded {
  id : string;
  name : string;
  size : Z;
  type : string;
  url : string;
  status : Status;
  progress : Z;
  error : option string
}.

(** A callback registered with [setTimeout] and not yet run. *)
Record Timer : Type := mkTimer {
  due : Z;
  target : UploadedFile
}.

Record State : Type := mkState {
  uploadedFiles : list UploadedFile;
  isUploading : bool;
  bucketError : option string;
  bucketChecked : bool;
  timers : list Timer
}.

Definition initialState : State := mkState [] false None false [].

Definition with_files (f : list UploadedFile -> list UploadedFile) (st : State) : State :=
  mkState (f (uploadedFiles st)) (isUploading st) (bucketError st) (bucketChecked st)
          (timers st).
Definition with_uploading (b : bool) (st : State) : State :=
  mkState (uploadedFiles st) b (bucketError st) (bucketChecked st) (timers st).
Definition with_bucketError (e : option string) (st : State) : State :=
  mkState (uploadedFiles st) (isUploading st) e (bucketChecked st) (timers st).
Definition with_bucketChecked (b : bool) (st : State) : State :=
  mkState (uploadedFiles st) (isUploading st) (bucketError st) b (timers st).
Definition with_timers (f : list Timer -> list Timer) (st : State) : State :=
  mkState (uploadedFiles st) (isUploading st) (bucketError st) (bucketChecked st)
          (f (timers st)).

(** *** Pure helpers *)

Definition in_range (lo hi : nat) (c : ascii) : bool :=
  (lo <=? nat_of_ascii c)%nat && (nat_of_ascii c <=? hi)%nat.

Definition is_digit (c : ascii) : bool := in_range 48 57 c.
Definition is_lower (c : ascii) : bool := in_range 97 122 c.
Definition is_upper (c : ascii) : bool := in_range 65 90 c.

(** [[0-9a-f]] under the [i] flag *)
Definition is_hex (c : ascii) : bool :=
  is_digit c || in_range 97 102 c || in_range 65 70 c.
(** [[1-5]] *)
Definition is_1_5 (c : ascii) : bool := in_range 49 53 c.
(** [[89ab]] under the [i] flag *)
Definition is_89ab (c : ascii) : bool :=
  in_range 56 57 c || in_range 97 98 c || in_range 65 66 c.
Definition is_dash (c : ascii) : bool := (nat_of_ascii c =? 45)%nat.

(** The character classes of
    [/^[0-9a-f]{8}-[0-9a-f]{4}-[1-5][0-9a-f]{3}-[89ab][0-9a-f]{3}-[0-9a-f]{12}$/i],
    one per position. *)
Definition uuidRegex : list (ascii -> bool) :=
  (repeat is_hex 8 ++ [is_dash] ++ repeat is_hex 4 ++ [is_dash]
   ++ [is_1_5] ++ repeat is_hex 3 ++ [is_dash]
   ++ [is_89ab] ++ repeat is_hex 3 ++ [is_dash] ++ repeat is_hex 12)%list.

Fixpoint matches (classes : list (ascii -> bool)) (s : string) : bool :=
  match classes, s with
  | [], EmptyString => true
  | cl :: classes', String c s' => cl c && matches classes' s'
  | _, _ => false
  end.

Definition isValidUUID (id : string) : bool := matches uuidRegex id.

Definition isPersonaIdValid (personaId : string) : bool :=
  truthy personaId && isValidUUID personaId.

Definition getContentType (mimeType : string) : string :=
  if startsWith "video/" mimeType then "video"
  else if startsWith "audio/" mimeType then "audio"
  else if startsWith "image/" mimeType then "image"
  else if startsWith "text/" mimeType || includes "document" mimeType then "text"
  else "text".

(** [name.replace(/[^a-zA-Z0-9.-]/g, '_')], on names of one-byte
    characters. *)
Fixpoint sanitize (s : string) : string :=
  match s with
  | EmptyString => EmptyString
  | String c s' =>
      String (if is_lower c || is_upper c || is_digit c
                 || (nat_of_ascii c =? 46)%nat || is_dash c
              then c else "_"%char)
             (sanitize s')
  end.

(** [`${Date.now()}-${sanitized name}`] *)
Definition fileId_of (t : Z) (file : File) : string :=
  pretty t ++ "-" ++ sanitize (file_name file).

(** [50 * 1024 * 1024] *)
Definition maxSize : Z := 50 * 1024 * 1024.

Definition tooLarge (file : File) : bool := file_size file >? maxSize.

Definition bucket : string := "persona-content".

(** The table the metadata record is inserted into. *)
Definition inserted_table : string := "persona-content".

(** The message built from a failed insert. *)
Definition errorMessage (dbError : RemoteError) : string :=
  ("Database save failed" ++
   (if truthy (err_message dbError) then ": " ++ err_message dbError
    else if truthy (err_details dbError) then ": " ++ err_details dbError
    else if truthy (err_hint dbError) then ": " ++ err_hint dbError
    else ": Unknown database error")) ++
  (if String.eqb (err_code dbError) "PGRST116"
   then " (No rows returned - check RLS policies)"
   else if String.eqb (err_code dbError) "23503"
   then " (Foreign key violation - persona not found)"
   else if String.eqb (err_code dbError) "42501"
   then " (Permission denied - check RLS policies)"
   else EmptyString).

(** The probe's body. *)
Definition probeBody : Body := BlobOf ["test"].

Definition is_probe (e : Event) : bool :=
  match e with
  | Net (StorageUpload _ _ (BlobOf _)) => true
  | _ => false
  end.

(** How many times the probe has written to the destination. *)
Definition probes (tr : list Event) : nat := length (List.filter is_probe tr).

Section Component.
Variable B : Backend.
Variable personaId : string.
(** Whether the page passed an [onUploadComplete] callback. *)
Variable onUploadComplete : bool.

Definition setBucketError (e : option string) : M State unit :=
  modify_comp (with_bucketError e).
Definition setBucketChecked (b : bool) : M State unit :=
  modify_comp (with_bucketChecked b).
Definition setUploadedFiles (f : list UploadedFile -> list UploadedFile)
  : M State unit :=
  modify_comp (with_files f).
(** The indicator; its changes are part of the trace. *)
Definition setIsUploading (b : bool) : M State unit :=
  modify_comp (with_uploading b) ;;; emit (SetIsUploading b).

(** The storage probe.  The inner block yields [Some v] where the
    source returns [v] from inside it. *)
Definition checkAndCreateBucket : M State bool :=
  try_catch
    (setBucketChecked false ;;;
     returned <-
       try_catch
         (t <- date_now ;;
          let testPath := "test-" ++ pretty t ++ ".txt" in
          uploadError <- call B (StorageUpload bucket testPath probeBody) ;;
          match uploadError with
          | Some e =>
              setBucketError
                (Some (if includes "permission denied" (err_message e)
                       then "Permission denied. Please check your storage bucket policies."
                       else if includes "not found" (err_message e)
                       then "Storage bucket " ++ dq ++ "persona-content" ++ dq ++
                            " not found. Please create it manually in your Supabase dashboard under Storage > New Bucket with a 50MB file size limit."
                       else "Storage access error: " ++ err_message e)) ;;;
              setBucketChecked true ;;;
              ret (Some false)
          | None =>
              _ <- call B (StorageRemove bucket [testPath]) ;;
              ret None
          end)
         (fun _ =>
            setBucketError
              (Some "Error testing bucket access. Please check your Supabase configuration.") ;;;
            setBucketChecked true ;;;
            ret (Some false)) ;;
     match returned with
     | Some v => ret v
     | None =>
         setBucketError None ;;;
         setBucketChecked true ;;;
         ret true
     end)
    (fun _ =>
       setBucketError
         (Some "Storage configuration error. Please check your Supabase setup.") ;;;
       setBucketChecked true ;;;
       ret false).

(** The catch block of [uploadFile], on the object as it is when the
    exception arrives. *)
Definition upload_failed (uploadedFile : UploadedFile) (e : Exn) : M State UploadedFile :=
  let msg := message_or "Upload failed" e in
  emit (ToastError ("Upload failed: " ++ msg)) ;;;
  ret (mkUploaded (id uploadedFile) (name uploadedFile) (size uploadedFile)
                  (type uploadedFile) (url uploadedFile) Error 0 (Some msg)).

(** [setTimeout(callback, 2000)]: the callback is registered; the
    event loop runs it later ([fireTimer]). *)
Definition setTimeout (uploadedFile : UploadedFile) (delay : Z) : M State unit :=
  t <- date_now ;;
  modify_comp (with_timers (fun ts => ts ++ [mkTimer (t + delay) uploadedFile])%list).

(** [uploadFile], called at time [t].  [Date.now()] on its first line
    is read when the call is made, before any await; the calls of a
    batch are all made by one synchronous [map], so the time is an
    argument.  The object [uploadedFile] is mutated once before the
    insert, and the catch block reads the object as it is then: the
    handler is attached to the code before and after that mutation. *)
Definition uploadFile_at (t : Z) (file : File) : M State UploadedFile :=
  let fileId := fileId_of t file in
  let filePath := fileId in
  let uploadedFile :=
    mkUploaded fileId (file_name file) (file_size file) (file_type file)
               EmptyString Uploading 0 None in
  try_catch
    (if tooLarge file
     then throw (JsError "File size exceeds 50MB limit. Please choose a smaller file.")
     else if negb (truthy personaId) || negb (isValidUUID personaId)
     then throw (JsError "No valid persona selected. Please select a persona first.")
     else
       bucketReady <- checkAndCreateBucket ;;
       if negb bucketReady
       then throw (JsError "Storage bucket not available")
       else
         uploadError <- call B (StorageUpload bucket filePath (FileOf file)) ;;
         match uploadError with
         | Some e => throw (JsError ("Upload failed: " ++ err_message e))
         | None =>
             let publicUrl := public_url B bucket filePath in
             let uploadedFile' :=
               mkUploaded fileId (file_name file) (file_size file) (file_type file)
                          publicUrl Processing 50 None in
             try_catch
               (t' <- date_now ;;
                let dbPayload :=
                  mkContentRow personaId (getContentType (file_type file)) publicUrl
                               (file_name file) (file_size file) None
                               (mkContentMeta (file_name file) (file_type file) t')
                               "processing" in
                dbError <- call B (InsertContent inserted_table dbPayload) ;;
                match dbError with
                | Some e => throw (JsError (errorMessage e))
                | None =>
                    setTimeout uploadedFile' 2000 ;;;
                    ret uploadedFile'
                end)
               (upload_failed uploadedFile')
         end)
    (upload_failed uploadedFile).

Definition uploadFile (file : File) : M State UploadedFile :=
  t <- date_now ;;
  uploadFile_at t file.

(** The callback of the timer: the object is marked completed and put
    into the list in place of the entry with its identifier. *)
Definition fireTimer (tm : Timer) : M State unit :=
  let f := target tm in
  let uploadedFile :=
    mkUploaded (id f) (name f) (size f) (type f) (url f) Completed 100 (error f) in
  setUploadedFiles
    (map (fun g => if String.eqb (id g) (id f) then uploadedFile else g)) ;;;
  emit (ToastSuccess ("File " ++ dq ++ name f ++ dq ++ " uploaded successfully!")).

(** The callback of [acceptedFiles.filter]: an oversized file is
    announced and dropped. *)
Definition keep_valid (validFiles : list File) (file : File) : M State (list File) :=
  if tooLarge file
  then emit (ToastError ("File " ++ file_name file ++
                         " is too large. Maximum size is 50MB.")) ;;;
       ret validFiles
  else ret (validFiles ++ [file])%list.

(** [Promise.all(tasks)] followed by the code [k] that awaits it.  The
    tasks are run to their end one after the other; the join rejects
    as soon as one of them rejects, so [k] then runs before the
    remaining tasks have settled. *)
Fixpoint settle_all {A} (tasks : list (M State A)) : M State unit :=
  match tasks with
  | [] => ret tt
  | m :: rest => fun w => settle_all rest (snd (m w))
  end.

Fixpoint promise_all_then {A R} (tasks : list (M State A)) (results : list A)
         (k : Settled (list A) -> M State R) : M State R :=
  match tasks with
  | [] => k (Fulfilled results)
  | m :: rest =>
      fun w =>
        match m w with
        | (Fulfilled a, w') => promise_all_then rest (results ++ [a])%list k w'
        | (Rejected e, w') =>
            match k (Rejected e) w' with
            | (r, w'') => (r, snd (settle_all rest w''))
            end
        end
  end.

(** [results.find(r => r.id === file.id) || file] *)
Definition merged (results : list UploadedFile) (file : UploadedFile) : UploadedFile :=
  default file (find (fun r => String.eqb (id r) (id file)) results).

(** The part of [onDrop] that follows the size filter.  The records in
    [results] are the objects the timers of [uploadFile] will mark as
    completed; no timer runs inside a drop here, so the join reads them
    as [uploadFile] returned them. *)
Definition uploadBatch (validFiles : list File) : M State unit :=
  match validFiles with
  | [] => setIsUploading false
  | _ =>
      t <- date_now ;;
      let newFiles :=
        map (fun file => mkUploaded (fileId_of t file) (file_name file)
                                    (file_size file) (file_type file)
                                    EmptyString Uploading 0 None)
            validFiles in
      setUploadedFiles (fun prev => prev ++ newFiles)%list ;;;
      promise_all_then (map (uploadFile_at t) validFiles) []
        (fun joined =>
           try_finally
             (try_catch
                (match joined with
                 | Rejected e => throw e
                 | Fulfilled results =>
                     setUploadedFiles (map (merged results)) ;;;
                     if onUploadComplete
                     then emit (OnUploadComplete
                                  (map id (List.filter
                                             (fun r => Status_eqb (status r) Completed)
                                             results)))
                     else ret tt
                 end)
                (fun _ => emit (ToastError "Some files failed to upload. Please try again.")))
             (setIsUploading false))
  end.

Definition onDrop (acceptedFiles : list File) : M State unit :=
  if negb (isPersonaIdValid personaId)
  then emit (ToastError "Please select a persona before uploading files")
  else
    st <- get_comp ;;
    (if negb (bucketChecked st)
     then _ <- checkAndCreateBucket ;; ret tt
     else ret tt) ;;;
    setIsUploading true ;;;
    validFiles <- for_each keep_valid acceptedFiles [] ;;
    uploadBatch validFiles.

(** [useEffect(() => { checkAndCreateBucket() }, [])] *)
Definition mount : M State unit :=
  _ <- checkAndCreateBucket ;; ret tt.

Definition removeFile (fileId : string) : M State unit :=
  setUploadedFiles (List.filter (fun f => negb (String.eqb (id f) fileId))).
End Component.

End FileUpload.

(** ** The chat component ([ConversationInterface]) *)

Module Conversation.

Inductive Sender : Type := User | Persona.

Definition sender_name (s : Sender) : string :=
  match s with
  | User => "user"
  | Persona => "persona"
  end.

Record Message : Type := mkMessage {
  id : string;
  sender_type : Sender;
  content : string;
  timestamp : Z;
  message_type : string
}.

(** The engine class is not part of these sources: a loaded engine is
    a handle, and what it answers is the backend's. *)
Inductive AIPersonaEngine : Type := TrainedEngine (persona : string).

Record State : Type := mkState {
  messages : list Message;
  inputMessage : string;
  conversationId : option string;
  isTyping : bool;
  aiEngine : option AIPersonaEngine
}.

Definition initialState : State := mkState [] EmptyString None false None.

Definition with_messages (f : list Message -> list Message) (st : State) : State :=
  mkState (f (messages st)) (inputMessage st) (conversationId st) (isTyping st)
          (aiEngine st).
Definition with_input (s : string) (st : State) : State :=
  mkState (messages st) s (conversationId st) (isTyping st) (aiEngine st).
Definition with_conversationId (c : option string) (st : State) : State :=
  mkState (messages st) (inputMessage st) c (isTyping st) (aiEngine st).
Definition with_typing (b : bool) (st : State) : State :=
  mkState (messages st) (inputMessage st) (conversationId st) b (aiEngine st).
Definition with_engine (e : option AIPersonaEngine) (st : State) : State :=
  mkState (messages st) (inputMessage st) (conversationId st) (isTyping st) e.

(** White space that [trim] removes, among one-byte characters. *)
Definition is_space (c : ascii) : bool :=
  let n := nat_of_ascii c in
  ((9 <=? n) && (n <=? 13) || (n =? 32))%nat.

(** [!s.trim()] *)
Definition is_blank (s : string) : bool := forallb is_space (list_ascii_of_string s).

(** The reply given when no engine is loaded. *)
Definition fallbackResponse : string :=
  "I'm still learning about this persona. Please complete the AI training for more personalized responses.".

Definition messages_table : string := "messages".

Section Component.
Variable B : Backend.
Variable personaId : string.
Variable personaName : string.
Variable conversationType : string.

Definition setMessages (f : list Message -> list Message) : M State unit :=
  modify_comp (with_messages f).
Definition setInputMessage (s : string) : M State unit := modify_comp (with_input s).
Definition setConversationId (c : option string) : M State unit :=
  modify_comp (with_conversationId c).
Definition setIsTyping (b : bool) : M State unit := modify_comp (with_typing b).
Definition setAiEngine (e : option AIPersonaEngine) : M State unit :=
  modify_comp (with_engine e).

Definition initializeConversation : M State unit :=
  try_catch
    (t <- date_now ;;
     n <- (fun w => (Fulfilled (sent w), w)) ;;
     error <- call B (InsertConversation "conversations"
                        (mkConversationRow personaId conversationType t)) ;;
     match error with
     | Some _ => throw Thrown
     | None => setConversationId (Some (new_row_id B n))
     end)
    (fun _ => ret tt).

(** [engine.generateResponse(input)] *)
Definition generateResponse (engine : AIPersonaEngine) (input : string) : M State string :=
  ask B (EngineReply input) (fun n => engine_reply B n input).

Definition loadAIEngine : M State unit :=
  try_catch
    (loaded <- ask B (EngineLoad personaId) (fun n => engine_loaded B n personaId) ;;
     if (loaded : bool)
     then
       let engine := TrainedEngine personaId in
       setAiEngine (Some engine) ;;;
       greeting <- generateResponse engine "Hello, it's so good to see you!" ;;
       t <- date_now ;;
       setMessages (fun _ => [mkMessage "1" Persona greeting t "text"])
     else
       t <- date_now ;;
       setMessages
         (fun _ => [mkMessage "1" Persona
                      ("Hello! I'm still learning about " ++ personaName ++
                       ". Please complete the AI training first for more personalized conversations.")
                      t "text"]))
    (fun _ => ret tt).

(** [generatePersonaResponse], with the engine of the render in which
    the message was sent. *)
Definition generatePersonaResponse (aiEngine : option AIPersonaEngine)
           (userMessage : string) : M State string :=
  match aiEngine with
  | Some engine => generateResponse engine userMessage
  | None => ret fallbackResponse
  end.

Definition sendMessage : M State unit :=
  st <- get_comp ;;
  let inputMessage := inputMessage st in
  match conversationId st with
  | None => ret tt
  | Some conversationId =>
      if is_blank inputMessage then ret tt
      else
        t <- date_now ;;
        let userMessage := mkMessage (pretty t) User inputMessage t "text" in
        setMessages (fun prev => prev ++ [userMessage])%list ;;;
        setInputMessage EmptyString ;;;
        setIsTyping true ;;;
        try_catch
          (_ <- call B (InsertMessage messages_table
                          (mkMessageRow conversationId "user" inputMessage "text")) ;;
           aiResponse <- generatePersonaResponse (aiEngine st) inputMessage ;;
           t' <- date_now ;;
           let personaMessage := mkMessage (pretty (t' + 1)) Persona aiResponse t' "text" in
           setMessages (fun prev => prev ++ [personaMessage])%list ;;;
           setIsTyping false ;;;
           _ <- call B (InsertMessage messages_table
                          (mkMessageRow conversationId "persona" aiResponse "text")) ;;
           ret tt)
          (fun _ => setIsTyping false)
  end.
End Component.

End Conversation.

(** * Instances used to run the definitions *)

(** A backend that serves every request. *)
Definition serving_backend : Backend :=
  mkBackend (fun _ _ => Accepted) (fun _ _ => 1)
            (fun b p => "https://store/" ++ b ++ "/" ++ p)
            (fun n => "row-" ++ pretty (Z.of_nat n))
            (fun _ _ => Fulfilled (Some "{}"))
            (fun _ _ => Fulfilled "hello")
            (fun _ _ => Fulfilled tt)
            (fun _ _ => Fulfilled false)
            (fun _ _ => Fulfilled "hi").

(** A backend that serves every request and answers the profile
    synthesis with a sentence instead of JSON. *)
Definition apologising_backend : Backend :=
  mkBackend (fun _ _ => Accepted) (fun _ _ => 1)
            (fun b p => "https://store/" ++ b ++ "/" ++ p)
            (fun n => "row-" ++ pretty (Z.of_nat n))
            (fun _ req =>
               match system_prompt req with
               | Some p => if String.eqb p AITraining.profile_prompt
                           then Fulfilled (Some "I am sorry, I cannot do that.")
                           else Fulfilled (Some "{}")
               | None => Fulfilled (Some "{}")
               end)
            (fun _ _ => Fulfilled "hello")
            (fun _ _ => Fulfilled tt)
            (fun _ _ => Fulfilled false)
            (fun _ _ => Fulfilled "hi").

(** A reading of JSON in which every text parses. *)
Definition lenient_json : AITraining.JSON :=
  AITraining.mkJSON string (fun s => Some s)
    (fun _ => AITraining.mkProfile (Some "kind") None (Some ["well"]) None None None)
    truthy "{}" (fun m => m) (fun _ _ _ => "{}").

(** A reading of JSON in which the empty object is the only text that
    parses. *)
Definition strict_json : AITraining.JSON :=
  AITraining.mkJSON string
    (fun s => if String.eqb s "{}" then Some s else None)
    (fun _ => AITraining.mkProfile None None None None None None)
    truthy "{}" (fun m => m) (fun _ _ _ => "{}").

Definition a_persona : string := "123e4567-e89b-42d3-a456-426614174000".

(** * Reasoning about asynchronous code *)

(** [post m w Q]: running [m] in [w] settles with a result and a world
    that satisfy [Q]. *)
Definition post {C A} (m : M C A) (w : World C) (Q : Settled A -> World C -> Prop) : Prop :=
  Q (fst (m w)) (snd (m w)).

Section PostRules.
Context {C : Type}.
Implicit Types w : World C.

Lemma post_ret {A} (a : A) w Q : Q (Fulfilled a) w -> post (ret a) w Q.
Proof. exact (fun H => H). Qed.

Lemma post_throw {A} (e : Exn) w (Q : Settled A -> World C -> Prop) :
  Q (Rejected e) w -> post (throw e) w Q.
Proof. exact (fun H => H). Qed.

Lemma post_bind {A R} (m : M C A) (k : A -> M C R) w Q :
  post m w (fun r w1 =>
              match r with
              | Fulfilled a => post (k a) w1 Q
              | Rejected e => Q (Rejected e) w1
              end) ->
  post (bind m k) w Q.
Proof.
  unfold post, bind. destruct (m w) as [[a|e] w1]; simpl; trivial.
Qed.

Lemma post_try_catch {A} (body : M C A) (handler : Exn -> M C A) w Q :
  post body w (fun r w1 =>
                 match r with
                 | Fulfilled a => Q (Fulfilled a) w1
                 | Rejected e => post (handler e) w1 Q
                 end) ->
  post (try_catch body handler) w Q.
Proof.
  unfold post, try_catch. destruct (body w) as [[a|e] w1]; simpl; trivial.
Qed.

Lemma post_try_finally {A} (body : M C A) (fin : M C unit) w Q :
  post body w (fun r w1 =>
                 post fin w1 (fun r' w2 =>
                                match r' with
                                | Fulfilled _ => Q r w2
                                | Rejected e => Q (Rejected e) w2
                                end)) ->
  post (try_finally body fin) w Q.
Proof.
  unfold post, try_finally. destruct (body w) as [r w1]; simpl.
  destruct (fin w1) as [[u|e] w2]; simpl; trivial.
Qed.

Lemma post_mono {A} (m : M C A) w (Q Q' : Settled A -> World C -> Prop) :
  post m w Q -> (forall r w', Q r w' -> Q' r w') -> post m w Q'.
Proof. unfold post. auto. Qed.

Lemma post_date_now w Q : Q (Fulfilled (now w)) w -> post date_now w Q.
Proof. exact (fun H => H). Qed.

Lemma post_get_comp w Q : Q (Fulfilled (comp w)) w -> post get_comp w Q.
Proof. exact (fun H => H). Qed.

Lemma post_emit e w Q : Q (Fulfilled tt) (log e w) -> post (emit e) w Q.
Proof. exact (fun H => H). Qed.

(** What a request leaves untouched. *)
Lemma comp_serve r w : comp (serve r w) = comp w.
Proof. destruct r; simpl; try reflexivity. destruct (String.eqb _ _); reflexivity. Qed.

Lemma seen_serve r w : seen (serve r w) = seen w.
Proof. destruct r; simpl; try reflexivity. destruct (String.eqb _ _); reflexivity. Qed.

Lemma trace_serve r w : trace (serve r w) = trace w.
Proof. destruct r; simpl; try reflexivity. destruct (String.eqb _ _); reflexivity. Qed.

(** A request to the hosted backend: recorded, and nothing of the
    component changes. *)
Lemma post_call B r w (Q : Settled (option RemoteError) -> World C -> Prop) :
  (forall res w', comp w' = comp w -> seen w' = seen w ->
                  trace w' = (trace w ++ [Net r])%list -> Q res w') ->
  post (call B r) w Q.
Proof.
  intros H. unfold post, call.
  destruct (answer B (sent w) r); simpl; apply H;
    rewrite ?comp_serve, ?seen_serve, ?trace_serve; reflexivity.
Qed.

Lemma post_ask {A} B r (reply : nat -> Settled A) w Q :
  (forall res w', comp w' = comp w -> seen w' = seen w ->
                  trace w' = (trace w ++ [Net r])%list -> Q res w') ->
  post (ask B r reply) w Q.
Proof. intros H. unfold post, ask. simpl. apply H; reflexivity. Qed.

Lemma post_select B table p st w Q :
  (forall res w', comp w' = comp w -> seen w' = seen w ->
                  trace w' = (trace w ++ [Net (SelectContent table p st)])%list ->
                  Q res w') ->
  post (select_content B table p st) w Q.
Proof.
  intros H. unfold post, select_content.
  destruct (answer B (sent w) _); simpl; apply H; reflexivity.
Qed.

Lemma post_for_each {A X} (body : A -> X -> M C A) (I : World C -> Prop)
      (QR : Exn -> World C -> Prop) :
  (forall acc x w, I w ->
      post (body acc x) w (fun r w' => match r with
                                       | Fulfilled _ => I w'
                                       | Rejected e => QR e w'
                                       end)) ->
  forall xs acc w, I w ->
    post (for_each body xs acc) w (fun r w' => match r with
                                               | Fulfilled _ => I w'
                                               | Rejected e => QR e w'
                                               end).
Proof.
  intros Hbody. induction xs as [|x xs IH]; intros acc w Hw; simpl.
  - apply post_ret. exact Hw.
  - apply post_bind. eapply post_mono; [apply Hbody; exact Hw|].
    intros [acc'|e] w' H; [apply IH; exact H | exact H].
Qed.
End PostRules.

(** ** Computations that keep a relation between the worlds *)

(** [steady R m]: however [m] settles, the world it leaves is related by
    [R] to the world it started in. *)
Definition steady {C A} (R : World C -> World C -> Prop) (m : M C A) : Prop :=
  forall w, R w (snd (m w)).

Section Steady.
Context {C : Type}.
Variable R : World C -> World C -> Prop.
Hypothesis R_refl : forall w, R w w.
Hypothesis R_trans : forall w1 w2 w3, R w1 w2 -> R w2 w3 -> R w1 w3.

Lemma steady_ret {A} (a : A) : steady R (ret a).
Proof. intros w. apply R_refl. Qed.

Lemma steady_throw {A} (e : Exn) : steady R (@throw C A e).
Proof. intros w. apply R_refl. Qed.

Lemma steady_date_now : steady R date_now.
Proof. intros w. apply R_refl. Qed.

Lemma steady_get_comp : steady R get_comp.
Proof. intros w. apply R_refl. Qed.

Lemma steady_bind {A X} (m : M C A) (k : A -> M C X) :
  steady R m -> (forall a, steady R (k a)) -> steady R (bind m k).
Proof.
  intros Hm Hk w. unfold bind. specialize (Hm w).
  destruct (m w) as [[a|e] w1]; simpl in *; [|exact Hm].
  eapply R_trans; [exact Hm | apply Hk].
Qed.

Lemma steady_try_catch {A} (body : M C A) (handler : Exn -> M C A) :
  steady R body -> (forall e, steady R (handler e)) -> steady R (try_catch body handler).
Proof.
  intros Hb Hh w. unfold try_catch. specialize (Hb w).
  destruct (body w) as [[a|e] w1]; simpl in *; [exact Hb|].
  eapply R_trans; [exact Hb | apply Hh].
Qed.

Lemma steady_try_finally {A} (body : M C A) (fin : M C unit) :
  steady R body -> steady R fin -> steady R (try_finally body fin).
Proof.
  intros Hb Hf w. unfold try_finally. specialize (Hb w).
  destruct (body w) as [r w1]; simpl in *. specialize (Hf w1).
  destruct (fin w1) as [[u|e] w2]; simpl in *; eapply R_trans; eauto.
Qed.

Lemma steady_for_each {A X} (body : A -> X -> M C A) :
  (forall acc x, steady R (body acc x)) ->
  forall xs acc, steady R (for_each body xs acc).
Proof.
  intros Hb. induction xs as [|x xs IH]; intros acc; simpl.
  - apply steady_ret.
  - apply steady_bind; [apply Hb | intros acc'; apply IH].
Qed.

Lemma steady_if {A} (b : bool) (m1 m2 : M C A) :
  steady R m1 -> steady R m2 -> steady R (if b then m1 else m2).
Proof. destruct b; auto. Qed.
End Steady.

(** The component is not touched. *)
Definition same_ui {C} (w w' : World C) : Prop :=
  comp w' = comp w /\ seen w' = seen w.

(** A request that is not an update of a persona row. *)
Definition not_update (e : Event) : Prop :=
  match e with
  | Net (UpdatePersona _ _ _) => False
  | _ => True
  end.

(** Neither the component nor the persona rows are touched, and no
    update of a persona row has been sent. *)
Definition untouched {C} (w w' : World C) : Prop :=
  same_ui w w' /\ personas w' = personas w /\
  exists evs, trace w' = (trace w ++ evs)%list /\ Forall not_update evs.

Lemma same_ui_refl {C} (w : World C) : same_ui w w.
Proof. split; reflexivity. Qed.

Lemma same_ui_trans {C} (w1 w2 w3 : World C) :
  same_ui w1 w2 -> same_ui w2 w3 -> same_ui w1 w3.
Proof. intros [H1 H2] [H3 H4]. split; congruence. Qed.

Lemma untouched_refl {C} (w : World C) : untouched w w.
Proof.
  split; [apply same_ui_refl|]. split; [reflexivity|].
  exists []. split; [symmetry; apply app_nil_r | constructor].
Qed.

Lemma untouched_trans {C} (w1 w2 w3 : World C) :
  untouched w1 w2 -> untouched w2 w3 -> untouched w1 w3.
Proof.
  intros (U1 & P1 & evs1 & T1 & F1) (U2 & P2 & evs2 & T2 & F2).
  split; [eapply same_ui_trans; eauto|]. split; [congruence|].
  exists (evs1 ++ evs2)%list. split.
  - rewrite T2, T1. symmetry. apply app_assoc.
  - apply Forall_app. split; assumption.
Qed.

Lemma untouched_same_ui {C} (w w' : World C) : untouched w w' -> same_ui w w'.
Proof. intros [H _]. exact H. Qed.



Section SteadyRequests.
Context {C : Type}.
Variable B : Backend.

Lemma record_same_ui r (w : World C) : same_ui w (record B r w).
Proof. split; reflexivity. Qed.

Lemma call_same_ui r : steady (@same_ui C) (call B r).
Proof.
  intros w. unfold call. destruct (answer B _ r); simpl;
    split; rewrite ?comp_serve, ?seen_serve; reflexivity.
Qed.

Lemma ask_same_ui {A} r (reply : nat -> Settled A) : steady (@same_ui C) (ask B r reply).
Proof. intros w. split; reflexivity. Qed.

Lemma select_same_ui table p st : steady (@same_ui C) (select_content B table p st).
Proof.
  intros w. unfold select_content. destruct (answer B _ _); simpl; split; reflexivity.
Qed.

Lemma record_untouched r (w : World C) : not_update (Net r) -> untouched w (record B r w).
Proof.
  intros Hr. split; [apply record_same_ui|]. split; [reflexivity|].
  exists [Net r]. split; [reflexivity | constructor; [exact Hr | constructor]].
Qed.

Lemma ask_untouched {A} r (reply : nat -> Settled A) :
  not_update (Net r) -> steady (@untouched C) (ask B r reply).
Proof. intros Hr w. apply record_untouched, Hr. Qed.

Lemma select_untouched table p st : steady (@untouched C) (select_content B table p st).
Proof.
  intros w. unfold select_content.
  destruct (answer B _ _); simpl; apply record_untouched; exact I.
Qed.
End SteadyRequests.

(** Decomposing a computation along its structure. *)
Ltac steady_structure refl trans :=
  first
    [ apply (steady_ret _ (refl _))
    | apply (steady_throw _ (refl _))
    | apply (steady_date_now _ (refl _))
    | apply (steady_get_comp _ (refl _))
    | apply (steady_bind _ (trans _))
    | apply (steady_try_catch _ (trans _))
    | apply (steady_try_finally _ (trans _))
    | apply (steady_for_each _ (refl _) (trans _))
    | match goal with
      | |- steady _ (match ?x with _ => _ end) => destruct x
      | |- steady _ (if ?b then _ else _) => destruct b
      end ].

(** The same, for a relation on the worlds of one component. *)
Ltac steady_structure_at refl trans :=
  first
    [ apply (steady_ret _ refl)
    | apply (steady_throw _ refl)
    | apply (steady_date_now _ refl)
    | apply (steady_get_comp _ refl)
    | apply (steady_bind _ trans)
    | apply (steady_try_catch _ trans)
    | apply (steady_try_finally _ trans)
    | apply (steady_for_each _ refl trans)
    | match goal with
      | |- steady _ (match ?x with _ => _ end) => destruct x
      | |- steady _ (if ?b then _ else _) => destruct b
      end ].

Ltac same_ui_tac :=
  repeat (first [ match goal with |- forall _, _ => intro end
                | steady_structure (@same_ui_refl) (@same_ui_trans)
                | apply call_same_ui | apply ask_same_ui | apply select_same_ui ]).

Ltac untouched_tac :=
  repeat (first [ match goal with |- forall _, _ => intro end
                | steady_structure (@untouched_refl) (@untouched_trans)
                | apply ask_untouched; exact I | apply select_untouched ]).

(** * The pipeline *)

Section PipelineFacts.
Context {C : Type}.
Variable B : Backend.
Variable J : AITraining.JSON.
Variable personaId : string.

(** Stages one to four send no update of the persona. *)
Lemma gatherTrainingData_untouched :
  steady (@untouched C) (AITraining.gatherTrainingData B personaId).
Proof. unfold AITraining.gatherTrainingData. untouched_tac. Qed.

Lemma analyzeTextContent_untouched textData :
  steady (@untouched C) (AITraining.analyzeTextContent B J textData).
Proof.
  unfold AITraining.analyzeTextContent, AITraining.complete. untouched_tac.
Qed.

Lemma analyzeAudioContent_untouched audioUrls :
  steady (@untouched C) (AITraining.analyzeAudioContent B J audioUrls).
Proof.
  unfold AITraining.analyzeAudioContent, AITraining.transcribe_one, AITraining.complete.
  untouched_tac.
Qed.

Lemma analyzeVisualContent_untouched imageUrls videoUrls :
  steady (@untouched C) (AITraining.analyzeVisualContent B imageUrls videoUrls).
Proof.
  unfold AITraining.analyzeVisualContent, AITraining.analyze_one, AITraining.complete.
  untouched_tac.
Qed.

(** Stages five and six do not touch the component. *)
Lemma createPersonaProfile_same_ui ta va vis :
  steady (@same_ui C) (AITraining.createPersonaProfile B J personaId ta va vis).
Proof.
  unfold AITraining.createPersonaProfile, AITraining.complete. same_ui_tac.
Qed.

Lemma optimizeConversationModel_same_ui profile :
  steady (@same_ui C) (AITraining.optimizeConversationModel B personaId profile).
Proof. unfold AITraining.optimizeConversationModel. same_ui_tac. Qed.
End PipelineFacts.

Lemma steady_post {C A} (R : World C -> World C -> Prop) (m : M C A) w
      (Q : Settled A -> World C -> Prop) :
  steady R m -> (forall r w', R w w' -> Q r w') -> post m w Q.
Proof. intros Hm HQ. apply HQ, Hm. Qed.

(** What the pipeline reports, for any callback.  [I l] describes the
    component once the calls [l] of the callback have been made. *)
Section PipelineReports.
Context {C : Type}.
Variable B : Backend.
Variable J : AITraining.JSON.
Variable personaId : string.
Variable onProgress : string -> Z -> M C unit.
Variable I : list (string * Z) -> World C -> Prop.

Hypothesis I_stable : forall l w w', same_ui w w' -> I l w -> I l w'.
Hypothesis I_report :
  forall l stepId p w,
    (l ++ [(stepId, p)])%list `prefix_of` AITraining.reported_progress ->
    I l w ->
    fst (onProgress stepId p w) = Fulfilled tt /\
    I (l ++ [(stepId, p)])%list (snd (onProgress stepId p w)).

(** The outcome of a run: all seven reports on success, a proper
    non-empty prefix of them on failure. *)
Definition pipeline_outcome {A} (r : Settled A) (w : World C) : Prop :=
  match r with
  | Fulfilled _ => I AITraining.reported_progress w
  | Rejected e =>
      e = JsError "Failed to train AI persona" /\
      exists n, (1 <= n <= 6)%nat /\ I (firstn n AITraining.reported_progress) w
  end.

Lemma post_report {A} l stepId p (k : M C A) w Q :
  (l ++ [(stepId, p)])%list `prefix_of` AITraining.reported_progress ->
  I l w ->
  (forall w', I (l ++ [(stepId, p)])%list w' -> post k w' Q) ->
  post (onProgress stepId p ;;; k) w Q.
Proof.
  intros Hpre Hl Hk. apply post_bind. unfold post at 1.
  destruct (I_report l stepId p w Hpre Hl) as [Hr Hw].
  rewrite Hr. apply Hk, Hw.
Qed.

Lemma post_stage {A X} (stage : M C A) l (k : A -> M C X) w Q :
  steady (@same_ui C) stage ->
  I l w ->
  (forall a w', I l w' -> post (k a) w' Q) ->
  (forall e w', I l w' -> Q (Rejected e) w') ->
  post (bind stage k) w Q.
Proof.
  intros Hs Hl Hk He. apply post_bind.
  eapply steady_post; [exact Hs|].
  intros [a|e] w' Hw'; [apply Hk | apply He]; eapply I_stable; eauto.
Qed.

Lemma untouched_steady_same_ui {A} (m : M C A) :
  steady (@untouched C) m -> steady (@same_ui C) m.
Proof. intros H w. apply untouched_same_ui, H. Qed.

Lemma startTraining_reports w :
  I [] w ->
  post (AITraining.startTraining B J personaId onProgress) w pipeline_outcome.
Proof.
  intros H0. unfold AITraining.startTraining.
  assert (Hfail : forall n (e : Exn) w',
             (1 <= n <= 6)%nat -> I (firstn n AITraining.reported_progress) w' ->
             post (throw (A:=AITraining.PersonaProfile) (JsError "Failed to train AI persona"))
                  w' pipeline_outcome).
  { intros n e w' Hn Hw'. apply post_throw. split; [reflexivity|]. exists n. auto. }
  apply post_try_catch.
  apply (post_report []); [eexists; reflexivity | exact H0 | intros w1 H1].
  apply (post_stage _ [("content-analysis", 10)]);
    [apply untouched_steady_same_ui, gatherTrainingData_untouched | exact H1 | |
     intros e w' Hw'; apply (Hfail 1%nat e); [lia | exact Hw']].
  intros trainingData w2 H2.
  apply (post_report [("content-analysis", 10)]);
    [eexists; reflexivity | exact H2 | intros w3 H3].
  apply (post_stage _ (firstn 2 AITraining.reported_progress));
    [apply untouched_steady_same_ui, analyzeTextContent_untouched | exact H3 | |
     intros e w' Hw'; apply (Hfail 2%nat e); [lia | exact Hw']].
  intros textAnalysis w4 H4.
  apply (post_report (firstn 2 AITraining.reported_progress));
    [eexists; reflexivity | exact H4 | intros w5 H5].
  apply (post_stage _ (firstn 3 AITraining.reported_progress));
    [apply untouched_steady_same_ui, analyzeAudioContent_untouched | exact H5 | |
     intros e w' Hw'; apply (Hfail 3%nat e); [lia | exact Hw']].
  intros voiceAnalysis w6 H6.
  apply (post_report (firstn 3 AITraining.reported_progress));
    [eexists; reflexivity | exact H6 | intros w7 H7].
  apply (post_stage _ (firstn 4 AITraining.reported_progress));
    [apply untouched_steady_same_ui, analyzeVisualContent_untouched | exact H7 | |
     intros e w' Hw'; apply (Hfail 4%nat e); [lia | exact Hw']].
  intros visualAnalysis w8 H8.
  apply (post_report (firstn 4 AITraining.reported_progress));
    [eexists; reflexivity | exact H8 | intros w9 H9].
  apply (post_stage _ (firstn 5 AITraining.reported_progress));
    [apply createPersonaProfile_same_ui | exact H9 | |
     intros e w' Hw'; apply (Hfail 5%nat e); [lia | exact Hw']].
  intros personaProfile w10 H10.
  apply (post_report (firstn 5 AITraining.reported_progress));
    [eexists; reflexivity | exact H10 | intros w11 H11].
  apply (post_stage _ (firstn 6 AITraining.reported_progress));
    [apply optimizeConversationModel_same_ui | exact H11 | |
     intros e w' Hw'; apply (Hfail 6%nat e); [lia | exact Hw']].
  intros [] w12 H12.
  apply (post_report (firstn 6 AITraining.reported_progress));
    [exists []; reflexivity | exact H12 | intros w13 H13].
  apply post_ret. exact H13.
Qed.
End PipelineReports.

(** * The training component *)

Module PersonaTrainingFacts.
Import PersonaTraining.

(** ** The updater functions *)

Lemma reportProgress_lookup stepId p prev i step :
  prev !! i = Some step ->
  reportProgress stepId p prev !! i =
    Some (if String.eqb (id step) stepId
          then mkStep (id step) (name step) (description step)
                      (if p =? 100 then Completed else Processing) p
          else step).
Proof.
  intros H. unfold reportProgress. rewrite list_lookup_fmap, H. reflexivity.
Qed.

Lemma ids_reportProgress stepId p prev : map id (reportProgress stepId p prev) = map id prev.
Proof.
  unfold reportProgress. rewrite map_map. apply map_ext. intros s.
  destruct (String.eqb _ _); reflexivity.
Qed.

Lemma ids_resetSteps prev : map id (resetSteps prev) = map id prev.
Proof. unfold resetSteps. rewrite map_map. reflexivity. Qed.

Lemma ids_markError prev : map id (markError prev) = map id prev.
Proof.
  unfold markError. rewrite map_map. apply map_ext. intros s.
  destruct (Status_eqb _ _); reflexivity.
Qed.

Lemma Status_eqb_eq a b : Status_eqb a b = true <-> a = b.
Proof. destruct a, b; simpl; split; intros H; try reflexivity; discriminate. Qed.

(** ** The setters, as functions of the world *)

(** The world in which [st] has just been committed. *)
Definition committed (st : State) (w : World State) : World State :=
  mkWorld (now w) (trace w) (tables w) (personas w) (message_tables w) st
          (seen w ++ [st])%list.

Section Setters.
Variable B : Backend.
Variable personaId : string.

(** The effect changes neither the stages nor the error. *)
Lemma progressEffect_frame w :
  fst (progressEffect B personaId w) = Fulfilled tt /\
  trainingSteps (comp (snd (progressEffect B personaId w))) = trainingSteps (comp w) /\
  error (comp (snd (progressEffect B personaId w))) = error (comp w) /\
  overallProgress (comp (snd (progressEffect B personaId w)))
    = avgProgress (trainingSteps (comp w)) /\
  seen (snd (progressEffect B personaId w)) = seen w.
Proof.
  unfold progressEffect, updatePersonaStatus, bind, get_comp, modify_comp, try_catch,
    date_now, call, emit, ret. simpl.
  destruct (allCompleted (trainingSteps (comp w)) && isTraining (comp w)); simpl.
  - destruct (answer B _ _); simpl; rewrite ?comp_serve, ?seen_serve; auto.
  - auto.
Qed.

(** When the stages are not all completed, or no training is running,
    the effect only stores the mean. *)
Lemma progressEffect_eq w :
  allCompleted (trainingSteps (comp w)) && isTraining (comp w) = false ->
  progressEffect B personaId w =
    (Fulfilled tt,
     mkWorld (now w) (trace w) (tables w) (personas w) (message_tables w)
             (with_overall (avgProgress (trainingSteps (comp w))) (comp w)) (seen w)).
Proof.
  intros H. unfold progressEffect, bind, get_comp, modify_comp. simpl.
  rewrite H. reflexivity.
Qed.

Lemma setTrainingSteps_eq f w :
  allCompleted (f (trainingSteps (comp w))) && isTraining (comp w) = false ->
  setTrainingSteps B personaId f w =
    (Fulfilled tt,
     committed (with_overall (avgProgress (f (trainingSteps (comp w))))
                             (with_steps f (comp w))) w).
Proof.
  intros H. unfold setTrainingSteps, bind, modify_comp, observe.
  rewrite progressEffect_eq by exact H. reflexivity.
Qed.

Lemma setTrainingSteps_frame f w :
  fst (setTrainingSteps B personaId f w) = Fulfilled tt /\
  trainingSteps (comp (snd (setTrainingSteps B personaId f w)))
    = f (trainingSteps (comp w)) /\
  error (comp (snd (setTrainingSteps B personaId f w))) = error (comp w).
Proof.
  unfold setTrainingSteps, bind, modify_comp, observe. cbn [fst snd].
  match goal with |- context [progressEffect B personaId ?w0] =>
    destruct (progressEffect_frame w0) as (Hr & Hs & He & _);
    destruct (progressEffect B personaId w0) as [r w1] end.
  cbn [fst snd comp trainingSteps error with_steps] in *. subst r.
  cbn [fst snd comp]. auto.
Qed.

Lemma updatePersonaStatus_same_ui st pr :
  steady (@same_ui State) (updatePersonaStatus B personaId st pr).
Proof. unfold updatePersonaStatus. same_ui_tac. Qed.

Lemma updatePersonaStatus_fulfils st pr w :
  fst (updatePersonaStatus B personaId st pr w) = Fulfilled tt.
Proof.
  unfold updatePersonaStatus, try_catch, bind, date_now, call, ret. simpl.
  destruct (answer B _ _); reflexivity.
Qed.

Lemma setIsTraining_eq b w :
  allCompleted (trainingSteps (comp w)) = false ->
  setIsTraining B personaId b w =
    (Fulfilled tt,
     if Bool.eqb (isTraining (comp w)) b then w
     else committed (with_overall (avgProgress (trainingSteps (comp w)))
                                  (with_training b (comp w))) w).
Proof.
  intros H. unfold setIsTraining, bind, get_comp, modify_comp, observe. simpl.
  destruct (Bool.eqb _ _); [reflexivity|].
  rewrite progressEffect_eq by (simpl; rewrite H; reflexivity). reflexivity.
Qed.

Lemma setIsTraining_frame b w :
  fst (setIsTraining B personaId b w) = Fulfilled tt /\
  trainingSteps (comp (snd (setIsTraining B personaId b w))) = trainingSteps (comp w) /\
  error (comp (snd (setIsTraining B personaId b w))) = error (comp w).
Proof.
  unfold setIsTraining, bind, get_comp, modify_comp, observe. cbn [fst snd].
  destruct (Bool.eqb _ _); [cbn; auto|].
  match goal with |- context [progressEffect B personaId ?w0] =>
    destruct (progressEffect_frame w0) as (Hr & Hs & He & _);
    destruct (progressEffect B personaId w0) as [r w1] end.
  cbn [fst snd comp trainingSteps error with_training] in *. subst r.
  cbn [fst snd comp]. auto.
Qed.
End Setters.

(** ** States the component can be in *)

(** A stage whose status and percentage agree. *)
Definition stage_ok (s : TrainingStep) : Prop :=
  progress s <= 100 /\ (status s = Completed <-> progress s = 100).

(** The five stages, with their identities, each one in agreement. *)
Definition Consistent (steps : list TrainingStep) : Prop :=
  map id steps = map id initialSteps /\ Forall stage_ok steps.

(** Only the last stage may be completed. *)
Definition Unfinished (steps : list TrainingStep) : Prop :=
  Forall (fun s => status s = Completed -> id s = "final-optimization") steps.

Definition Sound (st : State) : Prop :=
  Consistent (trainingSteps st) /\ Unfinished (trainingSteps st) /\
  (overallProgress st == avgProgress (trainingSteps st))%Q.

Lemma five_stages steps :
  map id steps = map id initialSteps ->
  exists a b c d e, steps = [a; b; c; d; e] /\
    id a = "content-analysis" /\ id b = "voice-modeling" /\
    id c = "personality-extraction" /\ id d = "conversation-training" /\
    id e = "final-optimization".
Proof.
  intros H.
  destruct steps as [|a [|b [|c [|d [|e [|f rest]]]]]]; try discriminate H.
  injection H as Ha Hb Hc Hd He.
  exists a, b, c, d, e. auto 10.
Qed.

Lemma avgProgress_five a b c d e :
  (avgProgress [a; b; c; d; e] ==
   (progress a + progress b + progress c + progress d + progress e) # 5)%Q.
Proof.
  unfold avgProgress, totalProgress. simpl.
  unfold Qeq, Qdiv, Qmult, Qinv, inject_Z. simpl. lia.
Qed.

(** With consistent stages, the mean is 100 exactly when all are
    completed. *)
Lemma consistent_mean_100 steps :
  Consistent steps ->
  (avgProgress steps == 100)%Q <-> allCompleted steps = true.
Proof.
  intros [Hids Hok].
  destruct (five_stages steps Hids) as (a & b & c & d & e & -> & _).
  rewrite avgProgress_five.
  repeat match goal with H : Forall _ (_ :: _) |- _ => inversion H; clear H; subst end.
  repeat match goal with H : stage_ok _ |- _ => destruct H as [? [? ?]] end.
  unfold allCompleted, Qeq. simpl.
  rewrite !andb_true_iff, !Status_eqb_eq.
  split.
  - intros Hsum.
    assert (progress a = 100 /\ progress b = 100 /\ progress c = 100 /\
            progress d = 100 /\ progress e = 100) as (?&?&?&?&?) by lia.
    auto 10.
  - intros (Ha & Hb & Hc & Hd & He & _).
    assert (progress a = 100 /\ progress b = 100 /\ progress c = 100 /\
            progress d = 100 /\ progress e = 100) as (?&?&?&?&?) by auto 10.
    lia.
Qed.

Lemma unfinished_not_all steps :
  Consistent steps -> Unfinished steps -> allCompleted steps = false.
Proof.
  intros [Hids _] Hun.
  destruct (five_stages steps Hids) as (a & b & c & d & e & -> & Ha & _).
  inversion Hun as [|? ? Hfirst _]; subst.
  unfold allCompleted. simpl.
  destruct (Status_eqb (status a) Completed) eqn:E; [|reflexivity].
  apply Status_eqb_eq in E. specialize (Hfirst E). rewrite Ha in Hfirst. discriminate.
Qed.

Lemma unfinished_below_100 steps :
  Consistent steps -> Unfinished steps -> (avgProgress steps < 100)%Q.
Proof.
  intros Hc Hun. pose proof (unfinished_not_all steps Hc Hun) as Hnot.
  destruct Hc as [Hids Hok].
  destruct (five_stages steps Hids) as (a & b & c & d & e & -> & Ha & _).
  rewrite avgProgress_five.
  inversion Hun as [|? ? Hfirst _]; subst.
  repeat match goal with H : Forall _ (_ :: _) |- _ => inversion H; clear H; subst end.
  repeat match goal with H : stage_ok _ |- _ => destruct H as [? [? ?]] end.
  assert (progress a <> 100).
  { intros E. assert (status a = Completed) as Hs by auto.
    specialize (Hfirst Hs). rewrite Ha in Hfirst. discriminate. }
  unfold Qlt. simpl. lia.
Qed.

(** ** The updaters keep the stages sound *)

Lemma reported_values stepId p :
  In (stepId, p) AITraining.reported_progress ->
  p <= 100 /\ (p = 100 -> stepId = "final-optimization").
Proof.
  unfold AITraining.reported_progress. simpl.
  intros H. repeat destruct H as [H|H]; try (inversion H; subst; split; [lia | ]; intros; try lia; reflexivity).
  contradiction.
Qed.

Lemma reportProgress_consistent stepId p steps :
  p <= 100 -> Consistent steps -> Consistent (reportProgress stepId p steps).
Proof.
  intros Hp [Hids Hok]. split; [rewrite ids_reportProgress; exact Hids|].
  unfold reportProgress. apply Forall_map. eapply Forall_impl; [exact Hok|].
  intros s Hs. simpl. destruct (String.eqb _ _); [|exact Hs].
  unfold stage_ok. simpl. split; [exact Hp|].
  destruct (Z.eqb_spec p 100); split; intros; try reflexivity; try assumption;
    try discriminate; contradiction.
Qed.

Lemma reportProgress_unfinished stepId p steps :
  (p = 100 -> stepId = "final-optimization") ->
  Unfinished steps -> Unfinished (reportProgress stepId p steps).
Proof.
  intros Hp Hun. unfold Unfinished, reportProgress. apply Forall_map.
  eapply Forall_impl; [exact Hun|].
  intros s Hs. simpl. destruct (String.eqb_spec (id s) stepId) as [E|E]; [|exact Hs].
  simpl. destruct (Z.eqb_spec p 100); [|discriminate]. intros _. rewrite E. auto.
Qed.

Lemma resetSteps_pending steps :
  Forall (fun s => status s = Pending /\ progress s = 0) (resetSteps steps).
Proof. unfold resetSteps. apply Forall_map, Forall_forall. intros; simpl; auto. Qed.

Lemma resetSteps_consistent steps :
  map id steps = map id initialSteps -> Consistent (resetSteps steps).
Proof.
  intros Hids. split; [rewrite ids_resetSteps; exact Hids|].
  eapply Forall_impl; [apply resetSteps_pending|].
  intros s [Hs Hp]. unfold stage_ok. rewrite Hs, Hp.
  split; [lia|]. split; intros; discriminate.
Qed.

Lemma resetSteps_unfinished steps : Unfinished (resetSteps steps).
Proof.
  eapply Forall_impl; [apply resetSteps_pending|].
  intros s [Hs _] Hc. rewrite Hs in Hc. discriminate.
Qed.

Lemma markError_consistent steps : Consistent steps -> Consistent (markError steps).
Proof.
  intros [Hids Hok]. split; [rewrite ids_markError; exact Hids|].
  unfold markError. apply Forall_map. eapply Forall_impl; [exact Hok|].
  intros s [Hle [H1 H2]]. simpl.
  destruct (Status_eqb (status s) Processing) eqn:E; [|split; [exact Hle | split; assumption]].
  apply Status_eqb_eq in E. unfold stage_ok. simpl. split; [exact Hle|].
  split; [discriminate|]. intros Hp. specialize (H2 Hp). rewrite E in H2. discriminate.
Qed.

Lemma markError_unfinished steps : Unfinished steps -> Unfinished (markError steps).
Proof.
  intros Hun. unfold Unfinished, markError. apply Forall_map.
  eapply Forall_impl; [exact Hun|].
  intros s Hs. simpl. destruct (Status_eqb (status s) Processing); [|exact Hs].
  simpl. discriminate.
Qed.

Lemma avgProgress_resetSteps steps :
  map id steps = map id initialSteps -> (avgProgress (resetSteps steps) == 0)%Q.
Proof.
  intros Hids. destruct (five_stages steps Hids) as (a & b & c & d & e & -> & _).
  simpl. rewrite avgProgress_five. reflexivity.
Qed.

(** ** Every commit of a session is sound *)

(** The invariant of a session: the current state is sound and so was
    every state committed so far. *)
Definition SInv (w : World State) : Prop := Sound (comp w) /\ Forall Sound (seen w).

Lemma SInv_same_ui w w' : same_ui w w' -> SInv w -> SInv w'.
Proof. intros [Hc Hs] [H1 H2]. split; [rewrite Hc | rewrite Hs]; assumption. Qed.

Lemma SInv_committed st w : SInv w -> Sound st -> SInv (committed st w).
Proof.
  intros [_ Hseen] Hst. split; [exact Hst|]. simpl.
  apply Forall_app. split; [exact Hseen | constructor; [exact Hst | constructor]].
Qed.

Section SessionInvariant.
Variable B : Backend.
Variable J : AITraining.JSON.
Variable personaId : string.

Lemma setTrainingSteps_SInv f w :
  SInv w ->
  Consistent (f (trainingSteps (comp w))) -> Unfinished (f (trainingSteps (comp w))) ->
  fst (setTrainingSteps B personaId f w) = Fulfilled tt /\
  SInv (snd (setTrainingSteps B personaId f w)).
Proof.
  intros Hw Hc Hu.
  rewrite setTrainingSteps_eq by (rewrite (unfinished_not_all _ Hc Hu); reflexivity).
  split; [reflexivity|]. apply SInv_committed; [exact Hw|].
  split; [exact Hc|]. split; [exact Hu|]. simpl. reflexivity.
Qed.

Lemma setIsTraining_SInv b w :
  SInv w ->
  fst (setIsTraining B personaId b w) = Fulfilled tt /\
  SInv (snd (setIsTraining B personaId b w)).
Proof.
  intros Hw. pose proof Hw as [(Hc & Hu & Ho) _].
  rewrite setIsTraining_eq by (apply unfinished_not_all; assumption).
  split; [reflexivity|]. simpl. destruct (Bool.eqb _ _); [exact Hw|].
  apply SInv_committed; [exact Hw|].
  split; [exact Hc|]. split; [exact Hu|]. simpl. reflexivity.
Qed.

Lemma setError_SInv e w : SInv w -> SInv (snd (setError e w)).
Proof.
  intros Hw. pose proof Hw as [(Hc & Hu & Ho) Hs].
  unfold setError, bind, modify_comp, observe. simpl.
  split; simpl.
  - split; [exact Hc|]. split; [exact Hu | exact Ho].
  - apply Forall_app. split; [exact Hs|]. constructor; [|constructor].
    split; [exact Hc|]. split; [exact Hu | exact Ho].
Qed.

Lemma emit_SInv e (w : World State) : SInv w -> SInv (log e w).
Proof. intros Hw. eapply SInv_same_ui; [|exact Hw]. split; reflexivity. Qed.

Lemma progressCallback_SInv l stepId p w :
  (l ++ [(stepId, p)])%list `prefix_of` AITraining.reported_progress ->
  SInv w ->
  fst (progressCallback B personaId stepId p w) = Fulfilled tt /\
  SInv (snd (progressCallback B personaId stepId p w)).
Proof.
  intros [k Hk] Hw. pose proof Hw as [(Hc & Hu & _) _].
  assert (In (stepId, p) AITraining.reported_progress) as Hin.
  { rewrite Hk. apply in_or_app. left. apply in_or_app. right. left. reflexivity. }
  destruct (reported_values _ _ Hin) as [Hle Hfin].
  apply setTrainingSteps_SInv; [exact Hw | |].
  - apply reportProgress_consistent; assumption.
  - apply reportProgress_unfinished; assumption.
Qed.

Lemma post_setIsTraining b w (Q : Settled unit -> World State -> Prop) :
  SInv w -> (forall w', SInv w' -> Q (Fulfilled tt) w') ->
  post (setIsTraining B personaId b) w Q.
Proof.
  intros Hw HQ. unfold post. destruct (setIsTraining_SInv b w Hw) as [Hr Hs].
  rewrite Hr. apply HQ, Hs.
Qed.

Lemma post_setTrainingSteps f w (Q : Settled unit -> World State -> Prop) :
  SInv w ->
  Consistent (f (trainingSteps (comp w))) -> Unfinished (f (trainingSteps (comp w))) ->
  (forall w', SInv w' -> Q (Fulfilled tt) w') ->
  post (setTrainingSteps B personaId f) w Q.
Proof.
  intros Hw Hc Hu HQ. unfold post.
  destruct (setTrainingSteps_SInv f w Hw Hc Hu) as [Hr Hs].
  rewrite Hr. apply HQ, Hs.
Qed.

Lemma post_setError e w (Q : Settled unit -> World State -> Prop) :
  SInv w -> (forall w', SInv w' -> Q (Fulfilled tt) w') -> post (setError e) w Q.
Proof. intros Hw HQ. apply HQ, setError_SInv, Hw. Qed.

Lemma post_updatePersonaStatus st pr w (Q : Settled unit -> World State -> Prop) :
  SInv w -> (forall w', SInv w' -> Q (Fulfilled tt) w') ->
  post (updatePersonaStatus B personaId st pr) w Q.
Proof.
  intros Hw HQ. unfold post. rewrite updatePersonaStatus_fulfils.
  apply HQ. eapply SInv_same_ui; [apply updatePersonaStatus_same_ui | exact Hw].
Qed.

(** A handler that always fulfils and keeps the invariant. *)
Definition keeps (m : M State unit) : Prop :=
  forall w, SInv w -> post m w (fun r w' => r = Fulfilled tt /\ SInv w').

Lemma trainingAttempt_keeps : keeps (trainingAttempt B J personaId).
Proof.
  intros w Hw. unfold trainingAttempt.
  apply post_try_finally, post_try_catch, post_bind.
  unfold AITraining.trainPersonaFromUploadedContent.
  eapply post_mono.
  - apply (startTraining_reports B J personaId (progressCallback B personaId)
             (fun _ => SInv)); [| |exact Hw].
    + intros _ w1 w2 Hui H. exact (SInv_same_ui w1 w2 Hui H).
    + intros l s p w0 Hpre H. exact (progressCallback_SInv l s p w0 Hpre H).
  - intros [profile|e] w1 Hrun; unfold pipeline_outcome in Hrun.
    + apply post_emit, post_setIsTraining; [apply emit_SInv, Hrun | auto].
    + destruct Hrun as (_ & n & _ & Hw1).
      apply post_bind, post_setError; [exact Hw1 | intros w2 H2].
      apply post_bind, post_emit.
      pose proof (emit_SInv (ToastError "Training failed. Please try again.") w2 H2)
        as H3.
      pose proof H3 as [(Hc & Hu & _) _].
      apply post_setTrainingSteps;
        [exact H3 | apply markError_consistent, Hc | apply markError_unfinished, Hu |].
      intros w4 H4. apply post_setIsTraining; [exact H4 | auto].
Qed.

Lemma startTraining_keeps : keeps (startTraining B J personaId).
Proof.
  intros w Hw. unfold startTraining.
  apply post_bind, post_setIsTraining; [exact Hw | intros w1 H1].
  apply post_bind, post_setError; [exact H1 | intros w2 H2].
  apply post_bind, post_updatePersonaStatus; [exact H2 | intros w3 H3].
  pose proof H3 as [([Hids _] & _ & _) _].
  apply post_bind, post_setTrainingSteps;
    [exact H3 | apply resetSteps_consistent, Hids | apply resetSteps_unfinished |].
  intros w4 H4. apply trainingAttempt_keeps, H4.
Qed.

Lemma tryAgain_keeps : keeps (tryAgain B personaId).
Proof.
  intros w Hw. unfold tryAgain.
  apply post_bind, post_setError; [exact Hw | intros w1 H1].
  pose proof H1 as [([Hids _] & _ & _) _].
  apply post_bind. unfold post.
  rewrite setTrainingSteps_eq
    by (rewrite (unfinished_not_all _ (resetSteps_consistent _ Hids)
                   (resetSteps_unfinished _)); reflexivity).
  cbn [fst snd]. unfold setOverallProgress, bind, modify_comp, observe. cbn.
  assert (Sound (with_overall 0%Q
                   (with_overall (avgProgress (resetSteps (trainingSteps (comp w1))))
                                 (with_steps resetSteps (comp w1))))) as Hs0.
  { split; [apply resetSteps_consistent, Hids|].
    split; [apply resetSteps_unfinished|]. simpl.
    symmetry. apply avgProgress_resetSteps, Hids. }
  split; [reflexivity|]. split; [exact Hs0|]. simpl.
  destruct H1 as [_ Hseen].
  apply Forall_app. split; [apply Forall_app; split; [exact Hseen|]|].
  - constructor; [|constructor].
    split; [apply resetSteps_consistent, Hids|].
    split; [apply resetSteps_unfinished|]. simpl. reflexivity.
  - constructor; [exact Hs0 | constructor].
Qed.

Lemma click_keeps a : keeps (click B J personaId a).
Proof.
  intros w Hw. unfold click. apply post_bind, post_get_comp.
  destruct a.
  - destruct (_ && _); [apply startTraining_keeps, Hw | apply post_ret; auto].
  - destruct (error (comp w)); [apply tryAgain_keeps, Hw | apply post_ret; auto].
Qed.

Lemma session_keeps actions : keeps (session B J personaId actions).
Proof.
  induction actions as [|a rest IH]; intros w Hw; simpl.
  - apply post_ret. auto.
  - apply post_bind. eapply post_mono; [apply click_keeps, Hw|].
    intros r w' [-> Hw']. apply IH, Hw'.
Qed.

Lemma mounted_SInv t tr tb ps ms : SInv (mounted t tr tb ps ms).
Proof.
  assert (Sound initialState) as H.
  { split; [split; [reflexivity|]|split].
    - repeat constructor; simpl; try lia; intros; discriminate.
    - repeat constructor; simpl; intros; discriminate.
    - reflexivity. }
  split; [exact H | constructor; [exact H | constructor]].
Qed.
End SessionInvariant.

(** ** What a run leaves in the stages *)

(** The stages after the reports [l], starting from [steps]. *)
Definition apply_reports (l : list (string * Z)) (steps : list TrainingStep)
  : list TrainingStep :=
  fold_left (fun st x => reportProgress (fst x) (snd x) st) l steps.

Lemma apply_reports_app l1 l2 steps :
  apply_reports (l1 ++ l2)%list steps = apply_reports l2 (apply_reports l1 steps).
Proof. unfold apply_reports. apply fold_left_app. Qed.

Section RunOutcome.
Variable B : Backend.
Variable J : AITraining.JSON.
Variable personaId : string.

Lemma post_setTrainingSteps_frame f w (Q : Settled unit -> World State -> Prop) :
  (forall w', trainingSteps (comp w') = f (trainingSteps (comp w)) ->
              error (comp w') = error (comp w) -> Q (Fulfilled tt) w') ->
  post (setTrainingSteps B personaId f) w Q.
Proof.
  intros HQ. unfold post. destruct (setTrainingSteps_frame B personaId f w) as (Hr & Hs & He).
  rewrite Hr. apply HQ; assumption.
Qed.

Lemma post_setIsTraining_frame b w (Q : Settled unit -> World State -> Prop) :
  (forall w', trainingSteps (comp w') = trainingSteps (comp w) ->
              error (comp w') = error (comp w) -> Q (Fulfilled tt) w') ->
  post (setIsTraining B personaId b) w Q.
Proof.
  intros HQ. unfold post. destruct (setIsTraining_frame B personaId b w) as (Hr & Hs & He).
  rewrite Hr. apply HQ; assumption.
Qed.

Lemma post_setError_frame e w (Q : Settled unit -> World State -> Prop) :
  (forall w', trainingSteps (comp w') = trainingSteps (comp w) ->
              error (comp w') = e -> Q (Fulfilled tt) w') ->
  post (setError e) w Q.
Proof. intros HQ. apply HQ; reflexivity. Qed.

Lemma post_updatePersonaStatus_frame st pr w (Q : Settled unit -> World State -> Prop) :
  (forall w', comp w' = comp w -> Q (Fulfilled tt) w') ->
  post (updatePersonaStatus B personaId st pr) w Q.
Proof.
  intros HQ. unfold post. rewrite updatePersonaStatus_fulfils.
  apply HQ. apply updatePersonaStatus_same_ui.
Qed.

(** How an attempt ends: without an error and with all seven reports
    applied, or with the pipeline's error and, of the reports made before
    the failure, the stages left processing marked as errors. *)
Definition attempt_outcome (steps0 : list TrainingStep) (st : State) : Prop :=
  (error st = None /\
   trainingSteps st = apply_reports AITraining.reported_progress steps0) \/
  (error st = Some "Failed to train AI persona" /\
   exists n, (1 <= n <= 6)%nat /\
     trainingSteps st = markError (apply_reports (firstn n AITraining.reported_progress) steps0)).

Lemma trainingAttempt_outcome w :
  error (comp w) = None ->
  post (trainingAttempt B J personaId) w
       (fun r w' => r = Fulfilled tt /\ attempt_outcome (trainingSteps (comp w)) (comp w')).
Proof.
  intros He0. unfold trainingAttempt.
  apply post_try_finally, post_try_catch, post_bind.
  unfold AITraining.trainPersonaFromUploadedContent.
  eapply post_mono.
  - apply (startTraining_reports B J personaId (progressCallback B personaId)
             (fun l w' => trainingSteps (comp w') = apply_reports l (trainingSteps (comp w))
                          /\ error (comp w') = None)); [| |split; [reflexivity | exact He0]].
    + intros l w1 w2 [Hc _] [H1 H2]. rewrite Hc. auto.
    + intros l s p w0 _ [H1 H2].
      destruct (setTrainingSteps_frame B personaId (reportProgress s p) w0) as (Hr & Hs & He).
      split; [exact Hr|]. unfold progressCallback.
      split; [|congruence].
      rewrite Hs, H1, apply_reports_app. reflexivity.
  - intros [profile|e] w1 Hrun; unfold pipeline_outcome in Hrun.
    + destruct Hrun as [Hs He]. apply post_emit, post_setIsTraining_frame.
      intros w2 Hs2 He2. split; [reflexivity|]. left.
      simpl in *. split; congruence.
    + destruct Hrun as (-> & n & Hn & Hs & He).
      apply post_bind, post_setError_frame. intros w2 Hs2 He2.
      apply post_bind, post_emit.
      apply post_setTrainingSteps_frame. intros w3 Hs3 He3.
      apply post_setIsTraining_frame. intros w4 Hs4 He4.
      split; [reflexivity|]. right. simpl in *. split; [congruence|].
      exists n. split; [exact Hn|]. congruence.
Qed.

Lemma startTraining_outcome w :
  post (startTraining B J personaId) w
       (fun r w' => r = Fulfilled tt /\
                    attempt_outcome (resetSteps (trainingSteps (comp w))) (comp w')).
Proof.
  unfold startTraining.
  apply post_bind, post_setIsTraining_frame. intros w1 Hs1 _.
  apply post_bind, post_setError_frame. intros w2 Hs2 He2.
  apply post_bind, post_updatePersonaStatus_frame. intros w3 Hc3.
  apply post_bind, post_setTrainingSteps_frame. intros w4 Hs4 He4.
  eapply post_mono; [apply trainingAttempt_outcome; congruence|].
  intros r w5 [Hr Hout]. split; [exact Hr|].
  rewrite Hs4, Hc3, Hs2, Hs1 in Hout. exact Hout.
Qed.
End RunOutcome.

(** The visible part of a stage. *)
Definition shown (s : TrainingStep) : string * Status * Z := (id s, status s, progress s).

Lemma successful_stages steps :
  map id steps = map id initialSteps ->
  map shown (apply_reports AITraining.reported_progress (resetSteps steps)) =
    [ ("content-analysis", Processing, 30); ("voice-modeling", Processing, 50);
      ("personality-extraction", Processing, 70); ("conversation-training", Processing, 85);
      ("final-optimization", Completed, 100) ].
Proof.
  intros Hids.
  destruct (five_stages steps Hids) as (a & b & c & d & e & -> & Ha & Hb & Hc & Hd & He).
  destruct a, b, c, d, e. simpl in Ha, Hb, Hc, Hd, He. subst.
  vm_compute. reflexivity.
Qed.

Lemma successful_stages_mean steps :
  map id steps = map id initialSteps ->
  allCompleted (apply_reports AITraining.reported_progress (resetSteps steps)) = false /\
  (avgProgress (apply_reports AITraining.reported_progress (resetSteps steps)) == 67)%Q.
Proof.
  intros Hids.
  destruct (five_stages steps Hids) as (a & b & c & d & e & -> & Ha & Hb & Hc & Hd & He).
  destruct a, b, c, d, e. simpl in Ha, Hb, Hc, Hd, He. subst.
  split; [vm_compute; reflexivity|].
  unfold Qeq. vm_compute. reflexivity.
Qed.

(** The component just mounted, with an empty backend. *)
Definition fresh : World State := mounted 1000 [] ∅ ∅ ∅.

(** ** The claims about the stages *)

(** C8: every invocation of the progress callback with a stage
    identifier and a percentage fulfils and changes only the stage of
    that identifier: that stage keeps its identity, takes the reported
    percentage, and becomes completed when the percentage is 100 and
    processing otherwise; every other stage is left as it was, and the
    number of stages does not change. *)
Theorem progress_callback_updates_only_named_stage
        (B : Backend) (personaId stepId : string) (p : Z) (w : World State)
        (i : nat) (step : TrainingStep)
        (Hi : trainingSteps (comp w) !! i = Some step) :
  fst (progressCallback B personaId stepId p w) = Fulfilled tt /\
  length (trainingSteps (comp (snd (progressCallback B personaId stepId p w))))
    = length (trainingSteps (comp w)) /\
  exists step',
    trainingSteps (comp (snd (progressCallback B personaId stepId p w))) !! i = Some step' /\
    id step' = id step /\ name step' = name step /\ description step' = description step /\
    (id step = stepId ->
       status step' = (if p =? 100 then Completed else Processing) /\ progress step' = p) /\
    (id step <> stepId -> step' = step).
Proof.
  unfold progressCallback.
  destruct (setTrainingSteps_frame B personaId (reportProgress stepId p) w) as (Hr & Hs & _).
  split; [exact Hr|]. rewrite Hs. split.
  - unfold reportProgress. apply length_map.
  - rewrite (reportProgress_lookup stepId p _ i step Hi).
    eexists. split; [reflexivity|].
    destruct (String.eqb_spec (id step) stepId) as [E|E]; simpl;
      repeat split; auto; intros; contradiction.
Qed.

Lemma progress_callback_updates_only_named_stage_witness :
  trainingSteps (comp fresh) !! 1%nat
    = Some (mkStep "voice-modeling" "Voice Modeling"
                   "Creating voice synthesis model from audio samples" Pending 0) /\
  exists step',
    trainingSteps (comp (snd (progressCallback serving_backend a_persona
                                               "voice-modeling" 50 fresh))) !! 1%nat
      = Some step' /\
    status step' = Processing /\ progress step' = 50.
Proof.
  split; [reflexivity|].
  destruct (progress_callback_updates_only_named_stage
              serving_backend a_persona "voice-modeling" 50 fresh 1%nat
              (mkStep "voice-modeling" "Voice Modeling"
                      "Creating voice synthesis model from audio samples" Pending 0)
              eq_refl)
    as (_ & _ & step' & Hl & _ & _ & _ & Hnamed & _).
  exists step'. split; [exact Hl|]. exact (Hnamed eq_refl).
Defined.

(** C9: a reset for a retry returns every stage to pending and 0,
    whatever the stages were: the reset function does, the Try Again
    handler ends in the reset stages with an overall progress of 0, and a
    start of training enters its attempt with the reset stages.  The
    stages keep their identities. *)
Theorem reset_returns_every_stage_to_pending :
  forall (B : Backend) (J : AITraining.JSON) (personaId : string) (w : World State),
    Forall (fun s => status s = Pending /\ progress s = 0)
           (resetSteps (trainingSteps (comp w))) /\
    map id (resetSteps (trainingSteps (comp w))) = map id (trainingSteps (comp w)) /\
    fst (tryAgain B personaId w) = Fulfilled tt /\
    trainingSteps (comp (snd (tryAgain B personaId w)))
      = resetSteps (trainingSteps (comp w)) /\
    (overallProgress (comp (snd (tryAgain B personaId w))) == 0)%Q /\
    exists w1,
      startTraining B J personaId w = trainingAttempt B J personaId w1 /\
      trainingSteps (comp w1) = resetSteps (trainingSteps (comp w)).
Proof.
  intros B J personaId w.
  split; [apply resetSteps_pending|]. split; [apply ids_resetSteps|].
  assert (post (tryAgain B personaId) w
            (fun r w' => r = Fulfilled tt /\
                         trainingSteps (comp w') = resetSteps (trainingSteps (comp w)) /\
                         (overallProgress (comp w') == 0)%Q)) as Hagain.
  { unfold tryAgain.
    apply post_bind, post_setError_frame. intros w1 Hs1 _.
    apply post_bind, post_setTrainingSteps_frame. intros w2 Hs2 _.
    unfold post, setOverallProgress, bind, modify_comp, observe. simpl.
    split; [reflexivity|]. split; [congruence | reflexivity]. }
  destruct Hagain as (Hr & Hs & Ho).
  split; [exact Hr|]. split; [exact Hs|]. split; [exact Ho|].
  unfold startTraining.
  unfold bind at 1.
  destruct (setIsTraining_frame B personaId true w) as (Hr1 & Hs1 & _).
  destruct (setIsTraining B personaId true w) as [r1 w1]. simpl in Hr1, Hs1. subst r1.
  unfold bind at 1. unfold setError at 1, bind at 1, modify_comp at 1, observe at 1.
  cbn beta iota.
  unfold bind at 1.
  match goal with |- context [updatePersonaStatus B personaId "training" 0 ?w0] =>
    pose proof (updatePersonaStatus_fulfils B personaId "training" 0 w0) as Hr3;
    pose proof (updatePersonaStatus_same_ui B personaId "training" 0 w0) as [Hc3 _];
    destruct (updatePersonaStatus B personaId "training" 0 w0) as [r3 w3]
  end.
  simpl in Hr3, Hc3. subst r3.
  unfold bind at 1.
  destruct (setTrainingSteps_frame B personaId resetSteps w3) as (Hr4 & Hs4 & _).
  destruct (setTrainingSteps B personaId resetSteps w3) as [r4 w4].
  simpl in Hr4, Hs4. subst r4.
  exists w4. split; [reflexivity|].
  rewrite Hs4, Hc3. simpl. rewrite Hs1. reflexivity.
Qed.

Lemma sound_mean st :
  Sound st ->
  (overallProgress st == avgProgress (trainingSteps st))%Q /\
  ((overallProgress st == 100)%Q <-> allCompleted (trainingSteps st) = true).
Proof.
  intros (Hc & _ & Ho). split; [exact Ho|].
  rewrite Ho. apply consistent_mean_100, Hc.
Qed.

Lemma sound_below st :
  Sound st ->
  allCompleted (trainingSteps st) = false /\ (overallProgress st < 100)%Q.
Proof.
  intros (Hc & Hu & Ho). split; [apply unfinished_not_all; assumption|].
  rewrite Ho. apply unfinished_below_100; assumption.
Qed.

Lemma session_sound B J personaId actions t tr tb ps ms :
  Forall Sound (seen (snd (session B J personaId actions (mounted t tr tb ps ms)))).
Proof.
  destruct (session_keeps B J personaId actions _ (mounted_SInv t tr tb ps ms))
    as [_ [_ H]].
  exact H.
Qed.




(** The largest percentage reported for a stage. *)
Definition max_reported (stepId : string) : Z :=
  fold_left Z.max
            (map snd (List.filter (fun x => String.eqb (fst x) stepId) AITraining.reported_progress))
            0.

(** The callback that only writes down what it is told. *)
Definition note (stepId : string) (p : Z) : M (list (string * Z)) unit :=
  modify_comp (fun l => l ++ [(stepId, p)])%list.

(** C3: a run of the pipeline that completes without error has made
    exactly the seven reports of [reported_progress]; the largest
    percentages reported for content-analysis, voice-modeling,
    personality-extraction and conversation-training are 30, 50, 70 and
    85, and final-optimization is the only stage reported at 100.  So in
    no state committed in any session are the five stages all completed,
    the overall progress stays strictly below 100, and a start of
    training that ends without an error leaves the first four stages
    processing at 30, 50, 70 and 85 and the last one completed. *)
Theorem real_pipeline_never_completes_all_stages :
  (forall (B : Backend) (J : AITraining.JSON) (personaId : string)
          (w : World (list (string * Z))) (profile : AITraining.PersonaProfile),
      fst (AITraining.startTraining B J personaId note w) = Fulfilled profile ->
      comp (snd (AITraining.startTraining B J personaId note w))
        = (comp w ++ AITraining.reported_progress)%list) /\
  map max_reported
      ["content-analysis"; "voice-modeling"; "personality-extraction";
       "conversation-training"; "final-optimization"] = [30; 50; 70; 85; 100] /\
  map fst (List.filter (fun x => snd x =? 100) AITraining.reported_progress)
    = ["final-optimization"] /\
  (forall (B : Backend) (J : AITraining.JSON) (personaId : string)
          (t : Z) (tr : list Event) (tb : gmap string (list ContentRow))
          (ps : gmap string PersonaRow) (ms : gmap string (list MessageRow))
          (actions : list Action),
      Forall (fun st => allCompleted (trainingSteps st) = false /\
                        (overallProgress st < 100)%Q)
             (seen (snd (session B J personaId actions (mounted t tr tb ps ms))))) /\
  (forall (B : Backend) (J : AITraining.JSON) (personaId : string) (w : World State),
      map id (trainingSteps (comp w)) = map id initialSteps ->
      error (comp (snd (startTraining B J personaId w))) = None ->
      map shown (trainingSteps (comp (snd (startTraining B J personaId w)))) =
        [ ("content-analysis", Processing, 30); ("voice-modeling", Processing, 50);
          ("personality-extraction", Processing, 70);
          ("conversation-training", Processing, 85);
          ("final-optimization", Completed, 100) ] /\
      allCompleted (trainingSteps (comp (snd (startTraining B J personaId w)))) = false /\
      (avgProgress (trainingSteps (comp (snd (startTraining B J personaId w)))) == 67)%Q).
Proof.
  split; [|split; [reflexivity|split; [reflexivity|split]]].
  - intros B J personaId w profile Hf.
    pose proof (startTraining_reports B J personaId note
                  (fun l w' => comp w' = (comp w ++ l)%list)) as Hrun.
    unfold post in Hrun. specialize (Hrun ltac:(intros l w1 w2 [Hc _] H; congruence)).
    specialize (Hrun ltac:(intros l s p w0 _ H; split; [reflexivity|];
                           unfold note, modify_comp; simpl; rewrite H;
                           symmetry; apply app_assoc)).
    specialize (Hrun w ltac:(symmetry; apply app_nil_r)).
    rewrite Hf in Hrun. exact Hrun.
  - intros. eapply Forall_impl; [apply session_sound|]. intros st. apply sound_below.
  - intros B J personaId w Hids Herr.
    destruct (startTraining_outcome B J personaId w) as [_ [[_ Hs]|[Hbad _]]];
      [|rewrite Herr in Hbad; discriminate].
    rewrite Hs. split; [apply successful_stages, Hids|].
    apply successful_stages_mean, Hids.
Qed.

(** A world for the pipeline run on its own, nothing noted yet. *)
Definition blank : World (list (string * Z)) := mkWorld 1000 [] ∅ ∅ ∅ [] [].

Lemma real_pipeline_never_completes_all_stages_witness :
  (fst (AITraining.startTraining serving_backend lenient_json a_persona note blank)
     = Fulfilled (AITraining.mkProfile (Some "kind") None (Some ["well"]) None None None) /\
   comp (snd (AITraining.startTraining serving_backend lenient_json a_persona note blank))
     = AITraining.reported_progress) /\
  (map id (trainingSteps (comp fresh)) = map id initialSteps /\
   error (comp (snd (startTraining serving_backend lenient_json a_persona fresh))) = None /\
   allCompleted
     (trainingSteps (comp (snd (startTraining serving_backend lenient_json a_persona fresh))))
     = false).
Proof.
  assert (fst (AITraining.startTraining serving_backend lenient_json a_persona note blank)
          = Fulfilled (AITraining.mkProfile (Some "kind") None (Some ["well"]) None None None))
    as Hf by (vm_compute; reflexivity).
  assert (error (comp (snd (startTraining serving_backend lenient_json a_persona fresh)))
          = None) as He by (vm_compute; reflexivity).
  destruct real_pipeline_never_completes_all_stages as (Hlog & _ & _ & _ & Hrun).
  split.
  - split; [exact Hf|].
    exact (Hlog serving_backend lenient_json a_persona blank _ Hf).
  - split; [reflexivity|]. split; [exact He|].
    exact (proj1 (proj2 (Hrun serving_backend lenient_json a_persona fresh eq_refl He))).
Defined.

End PersonaTrainingFacts.

(** * A run in which the profile synthesis answers with malformed JSON *)

(** [calm R m]: [m] always fulfils, and keeps [R]. *)
Definition calm {C A} (R : World C -> World C -> Prop) (m : M C A) : Prop :=
  forall w, (exists a, fst (m w) = Fulfilled a) /\ R w (snd (m w)).

Section Calm.
Context {C : Type}.
Variable R : World C -> World C -> Prop.
Hypothesis R_refl : forall w, R w w.
Hypothesis R_trans : forall w1 w2 w3, R w1 w2 -> R w2 w3 -> R w1 w3.

Lemma calm_ret {A} (a : A) : calm R (ret a).
Proof. intros w. split; [exists a; reflexivity | apply R_refl]. Qed.

Lemma calm_bind {A X} (m : M C A) (k : A -> M C X) :
  calm R m -> (forall a, calm R (k a)) -> calm R (bind m k).
Proof.
  intros Hm Hk w. unfold bind. destruct (Hm w) as [[a Ha] Hw].
  destruct (m w) as [r w1]. simpl in Ha, Hw. subst r.
  destruct (Hk a w1) as [Hx Hw1]. split; [exact Hx | eapply R_trans; eauto].
Qed.

(** A handler that fulfils makes the whole block fulfil. *)
Lemma calm_try_catch {A} (body : M C A) (handler : Exn -> M C A) :
  steady R body -> (forall e, calm R (handler e)) -> calm R (try_catch body handler).
Proof.
  intros Hb Hh w. unfold try_catch. specialize (Hb w).
  destruct (body w) as [[a|e] w1]; simpl in *.
  - split; [exists a; reflexivity | exact Hb].
  - destruct (Hh e w1) as [Hx Hw1]. split; [exact Hx | eapply R_trans; eauto].
Qed.

Lemma calm_for_each {A X} (body : A -> X -> M C A) :
  (forall acc x, calm R (body acc x)) ->
  forall xs acc, calm R (for_each body xs acc).
Proof.
  intros Hb. induction xs as [|x xs IH]; intros acc; simpl.
  - apply calm_ret.
  - apply calm_bind; [apply Hb | intros acc'; apply IH].
Qed.

Lemma calm_post {A} (m : M C A) w (Q : Settled A -> World C -> Prop) :
  calm R m -> (forall a w', R w w' -> Q (Fulfilled a) w') -> post m w Q.
Proof.
  intros Hm HQ. unfold post. destruct (Hm w) as [[a Ha] Hw]. rewrite Ha. apply HQ, Hw.
Qed.
End Calm.

Section MalformedProfile.
Context {C : Type}.
Variable B : Backend.
Variable J : AITraining.JSON.
Variable personaId : string.

(** The scenario: the content can be read, the completion service
    answers every request, and what it answers to the profile synthesis
    does not parse. *)
Definition profile_synthesis_malformed : Prop :=
  (forall n table p st, answer B n (SelectContent table p st) = Accepted) /\
  (forall n req, exists c,
      chat_reply B n req = Fulfilled c /\
      (system_prompt req = Some AITraining.profile_prompt ->
       AITraining.JSON_parse_profile J (content_or_empty_object c) = None)).

Hypothesis scenario : profile_synthesis_malformed.

Lemma complete_calm req : calm (@untouched C) (AITraining.complete B req).
Proof.
  intros w. unfold AITraining.complete, ask. simpl.
  destruct (proj2 scenario (sent w) req) as (c & Hc & _).
  split; [exists c; exact Hc | apply record_untouched; exact I].
Qed.

Lemma gatherTrainingData_calm :
  calm (@untouched C) (AITraining.gatherTrainingData B personaId).
Proof.
  intros w. unfold AITraining.gatherTrainingData, bind, select_content.
  rewrite (proj1 scenario). simpl.
  split; [eexists; reflexivity | apply record_untouched; exact I].
Qed.

Lemma analyzeTextContent_calm textData :
  calm (@untouched C) (AITraining.analyzeTextContent B J textData).
Proof.
  unfold AITraining.analyzeTextContent. destruct textData.
  - apply calm_ret, untouched_refl.
  - apply (calm_bind _ (@untouched_trans _)); [apply complete_calm|].
    intros c. apply calm_ret, untouched_refl.
Qed.

Lemma transcribe_one_calm acc audioUrl :
  calm (@untouched C) (AITraining.transcribe_one B acc audioUrl).
Proof.
  unfold AITraining.transcribe_one.
  apply (calm_try_catch _ (@untouched_trans _)).
  - untouched_tac.
  - intros e. apply calm_ret, untouched_refl.
Qed.

Lemma analyzeAudioContent_calm audioUrls :
  calm (@untouched C) (AITraining.analyzeAudioContent B J audioUrls).
Proof.
  unfold AITraining.analyzeAudioContent. destruct audioUrls.
  - apply calm_ret, untouched_refl.
  - apply (calm_bind _ (@untouched_trans _)).
    + apply (calm_for_each _ (@untouched_refl _) (@untouched_trans _)).
      intros acc x. apply transcribe_one_calm.
    + intros [|t ts]; [apply calm_ret, untouched_refl|].
      apply (calm_bind _ (@untouched_trans _)); [apply complete_calm|].
      intros c. apply calm_ret, untouched_refl.
Qed.

Lemma analyze_one_calm va imageUrl :
  calm (@untouched C) (AITraining.analyze_one B va imageUrl).
Proof.
  unfold AITraining.analyze_one.
  apply (calm_try_catch _ (@untouched_trans _)).
  - unfold AITraining.complete. untouched_tac.
  - intros e. apply calm_ret, untouched_refl.
Qed.

Lemma analyzeVisualContent_calm imageUrls videoUrls :
  calm (@untouched C) (AITraining.analyzeVisualContent B imageUrls videoUrls).
Proof.
  unfold AITraining.analyzeVisualContent.
  apply (calm_for_each _ (@untouched_refl _) (@untouched_trans _)).
  intros acc x. apply analyze_one_calm.
Qed.

(** Stage five throws, and has sent nothing but its completion request. *)
Lemma createPersonaProfile_throws ta va vis (w : World C) :
  fst (AITraining.createPersonaProfile B J personaId ta va vis w)
    = Rejected (JsError "Failed to create persona profile") /\
  untouched w (snd (AITraining.createPersonaProfile B J personaId ta va vis w)).
Proof.
  unfold AITraining.createPersonaProfile, bind, AITraining.complete, ask, try_catch.
  cbn [fst snd].
  match goal with |- context [chat_reply B ?n ?req] =>
    destruct (proj2 scenario n req) as (c & Hc & Hbad); rewrite Hc end.
  rewrite (Hbad eq_refl). cbn.
  split; [reflexivity | apply record_untouched; exact I].
Qed.

(** The pipeline under the scenario, for any callback.  [K l] describes
    the world once the calls [l] of the callback have been made. *)
Variable onProgress : string -> Z -> M C unit.
Variable K : list (string * Z) -> World C -> Prop.
Hypothesis K_stable : forall l w w', untouched w w' -> K l w -> K l w'.
Hypothesis K_report :
  forall l stepId p w,
    (l ++ [(stepId, p)])%list `prefix_of` firstn 5 AITraining.reported_progress ->
    K l w ->
    fst (onProgress stepId p w) = Fulfilled tt /\
    K (l ++ [(stepId, p)])%list (snd (onProgress stepId p w)).

Lemma post_report_K {A} l stepId p (k : M C A) w Q :
  (l ++ [(stepId, p)])%list `prefix_of` firstn 5 AITraining.reported_progress ->
  K l w ->
  (forall w', K (l ++ [(stepId, p)])%list w' -> post k w' Q) ->
  post (onProgress stepId p ;;; k) w Q.
Proof.
  intros Hpre Hl Hk. apply post_bind. unfold post at 1.
  destruct (K_report l stepId p w Hpre Hl) as [Hr Hw].
  rewrite Hr. apply Hk, Hw.
Qed.

Lemma post_stage_K {A X} (stage : M C A) l (k : A -> M C X) w Q :
  calm (@untouched C) stage ->
  K l w ->
  (forall a w', K l w' -> post (k a) w' Q) ->
  post (bind stage k) w Q.
Proof.
  intros Hs Hl Hk. apply post_bind.
  eapply calm_post; [exact Hs|].
  intros a w' Hw'. apply Hk. eapply K_stable; eauto.
Qed.

Lemma startTraining_fails_at_profile w :
  K [] w ->
  post (AITraining.startTraining B J personaId onProgress) w
       (fun r w' => r = Rejected (JsError "Failed to train AI persona") /\
                    K (firstn 5 AITraining.reported_progress) w').
Proof.
  intros H0. unfold AITraining.startTraining.
  apply post_try_catch.
  apply (post_report_K []); [eexists; reflexivity | exact H0 | intros w1 H1].
  apply (post_stage_K _ [("content-analysis", 10)]);
    [apply gatherTrainingData_calm | exact H1 | intros trainingData w2 H2].
  apply (post_report_K [("content-analysis", 10)]);
    [eexists; reflexivity | exact H2 | intros w3 H3].
  apply (post_stage_K _ (firstn 2 AITraining.reported_progress));
    [apply analyzeTextContent_calm | exact H3 | intros textAnalysis w4 H4].
  apply (post_report_K (firstn 2 AITraining.reported_progress));
    [eexists; reflexivity | exact H4 | intros w5 H5].
  apply (post_stage_K _ (firstn 3 AITraining.reported_progress));
    [apply analyzeAudioContent_calm | exact H5 | intros voiceAnalysis w6 H6].
  apply (post_report_K (firstn 3 AITraining.reported_progress));
    [eexists; reflexivity | exact H6 | intros w7 H7].
  apply (post_stage_K _ (firstn 4 AITraining.reported_progress));
    [apply analyzeVisualContent_calm | exact H7 | intros visualAnalysis w8 H8].
  apply (post_report_K (firstn 4 AITraining.reported_progress));
    [exists []; reflexivity | exact H8 | intros w9 H9].
  apply post_bind. unfold post at 1.
  destruct (createPersonaProfile_throws textAnalysis voiceAnalysis visualAnalysis w9)
    as [Hr Hu].
  rewrite Hr. apply post_throw. split; [reflexivity|].
  eapply K_stable; [exact Hu | exact H9].
Qed.
End MalformedProfile.

Module TrainingFailure.
Import PersonaTraining PersonaTrainingFacts.

(** No persona row has changed and no update of one has been sent. *)
Definition quiet (w w' : World State) : Prop :=
  personas w' = personas w /\
  exists evs, trace w' = (trace w ++ evs)%list /\ Forall not_update evs.

Lemma quiet_refl w : quiet w w.
Proof. split; [reflexivity|]. exists []. split; [symmetry; apply app_nil_r | constructor]. Qed.

Lemma quiet_trans w1 w2 w3 : quiet w1 w2 -> quiet w2 w3 -> quiet w1 w3.
Proof.
  intros (P1 & evs1 & T1 & F1) (P2 & evs2 & T2 & F2).
  split; [congruence|]. exists (evs1 ++ evs2)%list. split.
  - rewrite T2, T1. symmetry. apply app_assoc.
  - apply Forall_app. split; assumption.
Qed.

Lemma untouched_quiet w w' : untouched w w' -> quiet w w'.
Proof. intros (_ & P & T). split; assumption. Qed.

(** Same remote side, whatever the component. *)
Lemma quiet_same_remote w w' :
  personas w' = personas w -> trace w' = trace w -> quiet w w'.
Proof.
  intros P T. split; [exact P|]. exists []. split; [|constructor].
  rewrite T. symmetry. apply app_nil_r.
Qed.

Lemma failed_stages steps :
  map id steps = map id initialSteps ->
  map shown (markError (apply_reports (firstn 5 AITraining.reported_progress)
                                      (resetSteps steps))) =
    [ ("content-analysis", Error, 30); ("voice-modeling", Error, 50);
      ("personality-extraction", Error, 70); ("conversation-training", Error, 85);
      ("final-optimization", Pending, 0) ].
Proof.
  intros Hids.
  destruct (five_stages steps Hids) as (a & b & c & d & e & -> & Ha & Hb & Hc & Hd & He).
  destruct a, b, c, d, e. simpl in Ha, Hb, Hc, Hd, He. subst.
  vm_compute. reflexivity.
Qed.

Section Run.
Variable B : Backend.
Variable J : AITraining.JSON.
Variable personaId : string.

(** The setters, in a sound world: they fulfil, keep the world sound and
    do not reach the backend. *)
Definition local_step (f : list TrainingStep -> list TrainingStep)
           (g : option string -> option string) (m : M State unit) : Prop :=
  forall w, SInv w ->
    Consistent (f (trainingSteps (comp w))) -> Unfinished (f (trainingSteps (comp w))) ->
    fst (m w) = Fulfilled tt /\ SInv (snd (m w)) /\
    trainingSteps (comp (snd (m w))) = f (trainingSteps (comp w)) /\
    error (comp (snd (m w))) = g (error (comp w)) /\
    personas (snd (m w)) = personas w /\ trace (snd (m w)) = trace w /\
    now (snd (m w)) = now w.

Lemma setTrainingSteps_local f :
  local_step f (fun e => e) (setTrainingSteps B personaId f).
Proof.
  intros w Hw Hc Hu.
  destruct (setTrainingSteps_SInv B personaId f w Hw Hc Hu) as [Hr Hs].
  split; [exact Hr|]. split; [exact Hs|].
  rewrite setTrainingSteps_eq by (rewrite (unfinished_not_all _ Hc Hu); reflexivity).
  simpl. auto 10.
Qed.

Lemma setIsTraining_local b :
  local_step (fun s => s) (fun e => e) (setIsTraining B personaId b).
Proof.
  intros w Hw Hc Hu.
  destruct (setIsTraining_SInv B personaId b w Hw) as [Hr Hs].
  split; [exact Hr|]. split; [exact Hs|].
  rewrite setIsTraining_eq by (apply unfinished_not_all; assumption).
  simpl. destruct (Bool.eqb _ _); simpl; auto 10.
Qed.

Lemma setError_local e :
  local_step (fun s => s) (fun _ => e) (setError e).
Proof.
  intros w Hw Hc Hu. split; [reflexivity|].
  split; [apply setError_SInv, Hw|]. simpl. auto 10.
Qed.

Lemma sound_stages w : SInv w ->
  Consistent (trainingSteps (comp w)) /\ Unfinished (trainingSteps (comp w)).
Proof. intros [(Hc & Hu & _) _]. auto. Qed.

(** The status update sent when training starts. *)
Definition training_update (w : World State) : Request :=
  UpdatePersona "personas" personaId (PatchStatus "training" 0 (now w)).

Lemma updatePersonaStatus_training w :
  let w' := snd (updatePersonaStatus B personaId "training" 0 w) in
  comp w' = comp w /\ seen w' = seen w /\
  trace w' = (trace w ++ [Net (training_update w)])%list /\
  personas w' =
    match answer B (sent w) (training_update w) with
    | Accepted =>
        alter (apply_patch (PatchStatus "training" 0 (now w))) personaId (personas w)
    | _ => personas w
    end.
Proof.
  unfold updatePersonaStatus, training_update, try_catch, bind, date_now, call, ret.
  cbn [fst snd].
  destruct (answer B (sent w) _); cbn; auto.
Qed.

Lemma post_local f g m w (Q : Settled unit -> World State -> Prop) :
  local_step f g m -> SInv w ->
  Consistent (f (trainingSteps (comp w))) -> Unfinished (f (trainingSteps (comp w))) ->
  (forall w', SInv w' ->
              trainingSteps (comp w') = f (trainingSteps (comp w)) ->
              error (comp w') = g (error (comp w)) ->
              personas w' = personas w -> trace w' = trace w -> now w' = now w ->
              Q (Fulfilled tt) w') ->
  post m w Q.
Proof.
  intros Hm Hw Hc Hu HQ. unfold post.
  destruct (Hm w Hw Hc Hu) as (Hr & Hs & H1 & H2 & H3 & H4 & H5).
  rewrite Hr. apply HQ; assumption.
Qed.

(** How a run ends when the profile synthesis answers with text that
    does not parse, seen from the world [w] in which it started. *)
Definition failed_run (w w' : World State) : Prop :=
  error (comp w') = Some "Failed to train AI persona" /\
  trainingSteps (comp w') =
    markError (apply_reports (firstn 5 AITraining.reported_progress)
                             (resetSteps (trainingSteps (comp w)))) /\
  personas w' =
    match answer B (sent w) (training_update w) with
    | Accepted =>
        alter (apply_patch (PatchStatus "training" 0 (now w))) personaId (personas w)
    | _ => personas w
    end /\
  exists evs, trace w' = (trace w ++ Net (training_update w) :: evs)%list /\
              Forall not_update evs.

Hypothesis scenario : profile_synthesis_malformed B J.

Lemma startTraining_malformed w :
  SInv w ->
  post (startTraining B J personaId) w (fun r w' => r = Fulfilled tt /\ failed_run w w').
Proof.
  intros Hw. destruct (sound_stages w Hw) as [Hc Hu]. pose proof Hc as [Hids _].
  unfold startTraining.
  apply post_bind, (post_local _ _ _ _ _ (setIsTraining_local true)); try assumption.
  intros w1 Hw1 Hs1 _ Hp1 Ht1 Hn1.
  destruct (sound_stages w1 Hw1) as [Hc1 Hu1].
  apply post_bind, (post_local _ _ _ _ _ (setError_local None)); try assumption.
  intros w2 Hw2 Hs2 He2 Hp2 Ht2 Hn2.
  apply post_bind. unfold post at 1.
  rewrite updatePersonaStatus_fulfils.
  destruct (updatePersonaStatus_training w2) as (Hc3 & Hseen3 & Ht3 & Hp3).
  set (w3 := snd (updatePersonaStatus B personaId "training" 0 w2)) in *.
  assert (SInv w3) as Hw3 by (eapply SInv_same_ui; [split; eassumption | exact Hw2]).
  assert (training_update w2 = training_update w) as Hreq
      by (unfold training_update; congruence).
  assert (sent w2 = sent w) as Hsent by (unfold sent; congruence).
  rewrite Hreq, Ht2, Ht1 in Ht3. rewrite Hreq, Hsent, Hn2, Hn1, Hp2, Hp1 in Hp3.
  assert (map id (trainingSteps (comp w3)) = map id initialSteps) as Hids3
      by (rewrite Hc3, Hs2, Hs1; exact Hids).
  apply post_bind, (post_local _ _ _ _ _ (setTrainingSteps_local resetSteps));
    [exact Hw3 | apply resetSteps_consistent, Hids3 | apply resetSteps_unfinished |].
  intros w4 Hw4 Hs4 He4 Hp4 Ht4 Hn4.
  assert (error (comp w4) = None) as Herr4 by (rewrite He4, Hc3; exact He2).
  unfold trainingAttempt.
  apply post_try_finally, post_try_catch, post_bind.
  unfold AITraining.trainPersonaFromUploadedContent.
  eapply post_mono.
  - apply (startTraining_fails_at_profile B J personaId scenario
             (progressCallback B personaId)
             (fun l w' => SInv w' /\
                          trainingSteps (comp w') = apply_reports l (trainingSteps (comp w4)) /\
                          error (comp w') = None /\ quiet w4 w')).
    + intros l wa wb Hun (Ha & Hb & Hc' & Hd). pose proof Hun as [[Hcomp _] _].
      split; [eapply SInv_same_ui; [apply untouched_same_ui, Hun | exact Ha]|].
      rewrite Hcomp. split; [exact Hb|]. split; [exact Hc'|].
      eapply quiet_trans; [exact Hd | apply untouched_quiet, Hun].
    + intros l s p wa [k Hk] (Ha & Hb & Hc' & Hd).
      assert (In (s, p) AITraining.reported_progress) as Hin.
      { assert (In (s, p) (firstn 5 AITraining.reported_progress)) as H5.
        { rewrite Hk. apply in_or_app. left. apply in_or_app. right. left. reflexivity. }
        unfold AITraining.reported_progress in *. simpl in H5 |- *. tauto. }
      destruct (reported_values _ _ Hin) as [Hle Hfin].
      destruct (sound_stages wa Ha) as [Hca Hua].
      destruct (setTrainingSteps_local (reportProgress s p) wa Ha
                  (reportProgress_consistent s p _ Hle Hca)
                  (reportProgress_unfinished s p _ Hfin Hua))
        as (Hr & Hs & H1 & H2 & H3 & H4 & _).
      unfold progressCallback. split; [exact Hr|]. split; [exact Hs|].
      split; [rewrite H1, Hb, apply_reports_app; reflexivity|].
      split; [congruence|].
      eapply quiet_trans; [exact Hd | apply quiet_same_remote; assumption].
    + split; [exact Hw4|]. split; [reflexivity|]. split; [exact Herr4 | apply quiet_refl].
  - intros r w5 [-> (Hw5 & Hs5 & _ & Hq5)]. cbn beta iota.
    destruct (sound_stages w5 Hw5) as [Hc5 Hu5].
    apply post_bind,
      (post_local _ _ _ _ _
         (setError_local (Some (message_or "Training failed"
                                           (JsError "Failed to train AI persona")))));
      try assumption.
    intros w6 Hw6 Hs6 He6 Hp6 Ht6 _.
    apply post_bind, post_emit.
    pose proof (emit_SInv (ToastError "Training failed. Please try again.") w6 Hw6) as Hw7.
    destruct (sound_stages w6 Hw6) as [Hc6 Hu6].
    apply (post_local _ _ _ _ _ (setTrainingSteps_local markError));
      [exact Hw7 | apply markError_consistent, Hc6 | apply markError_unfinished, Hu6 |].
    intros w8 Hw8 Hs8 He8 Hp8 Ht8 _.
    destruct (sound_stages w8 Hw8) as [Hc8 Hu8].
    apply (post_local _ _ _ _ _ (setIsTraining_local false)); try assumption.
    intros w9 Hw9 Hs9 He9 Hp9 Ht9 _.
    split; [reflexivity|].
    destruct Hq5 as (Hp5 & evs & Ht5 & Hev).
    split; [rewrite He9, He8; simpl; rewrite He6; reflexivity|].
    split; [rewrite Hs9, Hs8; simpl; rewrite Hs6, Hs5, Hs4, Hc3, Hs2, Hs1; reflexivity|].
    split; [rewrite Hp9, Hp8; simpl; rewrite Hp6, Hp5, Hp4; exact Hp3|].
    exists (evs ++ [ToastError "Training failed. Please try again."])%list.
    split.
    + rewrite Ht9, Ht8. simpl. rewrite Ht6, Ht5, Ht4, Ht3.
      rewrite <- !app_assoc. reflexivity.
    + apply Forall_app. split; [exact Hev | constructor; [exact I | constructor]].
Qed.
End Run.

(** C6: when the completion call of the profile synthesis returns text
    that does not parse (the content can be read and the completion
    service answers), the pipeline throws its error, whatever the
    callback; a start of training, at any point of a session, then
    records that error, marks as errored every stage that was in status
    processing (the four stages reported before the failure, with the
    percentages they had) and leaves the last stage pending; the only
    update of the persona sent in the run is the one that sets the status
    to training, so the update to active is not performed, and where the
    backend serves that update the remote status of the persona is
    training when the run ends. *)
Theorem malformed_profile_json_fails_training
        (B : Backend) (J : AITraining.JSON) (personaId : string)
        (t : Z) (tr : list Event) (tb : gmap string (list ContentRow))
        (ps : gmap string PersonaRow) (ms : gmap string (list MessageRow))
        (actions : list Action)
        (scenario : profile_synthesis_malformed B J) :
  let w := snd (session B J personaId actions (mounted t tr tb ps ms)) in
  let w' := snd (startTraining B J personaId w) in
  let update := UpdatePersona "personas" personaId (PatchStatus "training" 0 (now w)) in
  (forall w0 : World (list (string * Z)),
      fst (AITraining.startTraining B J personaId note w0)
        = Rejected (JsError "Failed to train AI persona")) /\
  error (comp w') = Some "Failed to train AI persona" /\
  map shown (trainingSteps (comp w')) =
    [ ("content-analysis", Error, 30); ("voice-modeling", Error, 50);
      ("personality-extraction", Error, 70); ("conversation-training", Error, 85);
      ("final-optimization", Pending, 0) ] /\
  (exists evs, trace w' = (trace w ++ Net update :: evs)%list /\ Forall not_update evs) /\
  (answer B (sent w) update = Accepted ->
   forall row, personas w !! personaId = Some row ->
               p_status <$> (personas w' !! personaId) = Some "training").
Proof.
  intros w w' update.
  assert (SInv w) as Hw.
  { destruct (session_keeps B J personaId actions _ (mounted_SInv t tr tb ps ms))
      as [_ H]. exact H. }
  split.
  { intros w0.
    destruct (startTraining_fails_at_profile B J personaId scenario note
                (fun _ _ => True) (fun _ _ _ _ _ => Logic.I)
                (fun _ _ _ _ _ _ => conj eq_refl Logic.I) w0 Logic.I) as [H _].
    exact H. }
  destruct (startTraining_malformed B J personaId scenario w Hw)
    as (_ & Herr & Hsteps & Hpers & Htrace).
  fold w' in Herr, Hsteps, Hpers, Htrace.
  split; [exact Herr|]. split.
  { rewrite Hsteps. apply failed_stages. destruct Hw as [([Hids _] & _) _]. exact Hids. }
  split; [exact Htrace|].
  intros Hacc row Hrow. rewrite Hpers. unfold training_update. fold update.
  rewrite Hacc, lookup_alter_eq, Hrow. reflexivity.
Qed.

(** A persona row as it is before any training. *)
Definition a_row : PersonaRow := mkPersonaRow "draft" 0 None [] None.

Lemma malformed_profile_json_fails_training_witness :
  profile_synthesis_malformed apologising_backend strict_json /\
  error (comp (snd (startTraining apologising_backend strict_json a_persona
                      (mounted 1000 [] ∅ {[ a_persona := a_row ]} ∅))))
    = Some "Failed to train AI persona" /\
  p_status <$> (personas (snd (startTraining apologising_backend strict_json a_persona
                                 (mounted 1000 [] ∅ {[ a_persona := a_row ]} ∅)))
                  !! a_persona)
    = Some "training".
Proof.
  assert (profile_synthesis_malformed apologising_backend strict_json) as Hsc.
  { split; [reflexivity|]. intros n req. simpl.
    destruct (system_prompt req) as [p|] eqn:Hp.
    - destruct (String.eqb_spec p AITraining.profile_prompt) as [->|Hne].
      + eexists. split; [reflexivity|]. intros _. reflexivity.
      + eexists. split; [reflexivity|]. intros H. congruence.
    - eexists. split; [reflexivity|]. discriminate. }
  split; [exact Hsc|].
  destruct (malformed_profile_json_fails_training
              apologising_backend strict_json a_persona 1000 [] ∅
              {[ a_persona := a_row ]} ∅ [] Hsc) as (_ & Herr & _ & _ & Hst).
  split; [exact Herr|].
  exact (Hst eq_refl a_row eq_refl).
Defined.
End TrainingFailure.

(** * The upload component *)

Module FileUploadFacts.
Import FileUpload.

Definition is_indicator (e : Event) : bool :=
  match e with
  | SetIsUploading _ => true
  | _ => false
  end.

(** What an upload may do: add events other than changes of the
    indicator, and leave alone the indicator and the table that training
    reads. *)
Definition upload_frame (w w' : World State) : Prop :=
  (exists evs, trace w' = (trace w ++ evs)%list /\
               Forall (fun e => is_indicator e = false) evs) /\
  isUploading (comp w') = isUploading (comp w) /\
  tables w' !! AITraining.gathered_table = tables w !! AITraining.gathered_table.

Lemma upload_frame_refl w : upload_frame w w.
Proof.
  split; [exists []; split; [symmetry; apply app_nil_r | constructor]|].
  split; reflexivity.
Qed.

Lemma upload_frame_trans w1 w2 w3 :
  upload_frame w1 w2 -> upload_frame w2 w3 -> upload_frame w1 w3.
Proof.
  intros ((e1 & T1 & F1) & U1 & G1) ((e2 & T2 & F2) & U2 & G2).
  split; [|split; congruence].
  exists (e1 ++ e2)%list. split.
  - rewrite T2, T1. symmetry. apply app_assoc.
  - apply Forall_app. split; assumption.
Qed.

(** The number of probes does not change. *)
Definition no_probe (w w' : World State) : Prop :=
  probes (trace w') = probes (trace w).

Lemma no_probe_refl w : no_probe w w.
Proof. reflexivity. Qed.

Lemma no_probe_trans w1 w2 w3 : no_probe w1 w2 -> no_probe w2 w3 -> no_probe w1 w3.
Proof. unfold no_probe. congruence. Qed.

Lemma probes_app tr evs : probes (tr ++ evs)%list = (probes tr + probes evs)%nat.
Proof. unfold probes. rewrite List.filter_app, length_app. reflexivity. Qed.

Lemma probes_snoc tr e :
  probes (tr ++ [e])%list = (probes tr + if is_probe e then 1 else 0)%nat.
Proof. rewrite probes_app. unfold probes. simpl. destruct (is_probe e); reflexivity. Qed.

Section Frames.
Variable B : Backend.
Variable personaId : string.
Variable onUploadComplete : bool.

Lemma modify_comp_frame f :
  (forall st, isUploading (f st) = isUploading st) ->
  steady upload_frame (modify_comp f).
Proof.
  intros Hf w. unfold modify_comp. simpl.
  split; [exists []; split; [symmetry; apply app_nil_r | constructor]|].
  split; [apply Hf | reflexivity].
Qed.

Lemma emit_frame e : is_indicator e = false -> steady upload_frame (emit e).
Proof.
  intros He w. unfold emit, log. simpl.
  split; [exists [e]; split; [reflexivity | constructor; [exact He | constructor]]|].
  split; reflexivity.
Qed.

(** A request that is not an insert into the table training reads. *)
Definition spares_gathered (r : Request) : Prop :=
  match r with
  | InsertContent table _ => table <> AITraining.gathered_table
  | _ => True
  end.

Lemma tables_serve r (w : World State) :
  spares_gathered r ->
  tables (serve r w) !! AITraining.gathered_table = tables w !! AITraining.gathered_table.
Proof.
  destruct r; simpl; try reflexivity.
  - intros Hne. apply lookup_insert_ne. exact Hne.
  - intros _. destruct (String.eqb _ _); reflexivity.
Qed.

Lemma call_frame r : spares_gathered r -> steady upload_frame (call B r).
Proof.
  intros Hr w. unfold call.
  assert (upload_frame w (record B r w)) as Hrec.
  { split; [exists [Net r]; split; [reflexivity | constructor; [reflexivity | constructor]]|].
    split; reflexivity. }
  destruct (answer B (sent w) r); simpl; try exact Hrec.
  destruct Hrec as (He & Hu & Hg).
  split; [rewrite trace_serve; exact He|].
  split; [rewrite comp_serve; exact Hu|].
  rewrite tables_serve by exact Hr. exact Hg.
Qed.

Lemma modify_comp_no_probe f : steady no_probe (modify_comp (C:=State) f).
Proof. intros w. reflexivity. Qed.

Lemma emit_no_probe e : is_probe e = false -> steady no_probe (emit (C:=State) e).
Proof.
  intros He w. unfold no_probe, emit, log. simpl. rewrite probes_snoc, He. lia.
Qed.

Lemma call_no_probe r : is_probe (Net r) = false -> steady no_probe (call (C:=State) B r).
Proof.
  intros Hr w. unfold no_probe, call.
  destruct (answer B (sent w) r); simpl; rewrite ?trace_serve; simpl;
    rewrite probes_snoc, Hr; lia.
Qed.
End Frames.

Ltac frame_tac :=
  repeat (first [ match goal with |- forall _, _ => intro end
                | steady_structure_at upload_frame_refl upload_frame_trans
                | apply modify_comp_frame; intros []; reflexivity
                | apply emit_frame; reflexivity
                | apply call_frame; simpl; try exact I; discriminate ]).

Ltac no_probe_tac :=
  repeat (first [ match goal with |- forall _, _ => intro end
                | steady_structure_at no_probe_refl no_probe_trans
                | apply modify_comp_no_probe
                | apply emit_no_probe; reflexivity
                | apply call_no_probe; reflexivity ]).

(** Counting the probes of a trace written out as appended events. *)
Ltac count_probes :=
  repeat match goal with
         | |- context [length (List.filter is_probe ?x)] =>
             change (length (List.filter is_probe x)) with (probes x)
         end;
  rewrite ?probes_snoc; cbn [is_probe probeBody]; lia.

Section Uploads.
Variable B : Backend.
Variable personaId : string.
Variable onUploadComplete : bool.

Lemma checkAndCreateBucket_frame : steady upload_frame (checkAndCreateBucket B).
Proof.
  unfold checkAndCreateBucket, setBucketChecked, setBucketError. frame_tac.
Qed.

Lemma uploadFile_at_frame t file : steady upload_frame (uploadFile_at B personaId t file).
Proof.
  unfold uploadFile_at, upload_failed, setTimeout.
  repeat first [ apply checkAndCreateBucket_frame | progress frame_tac ].
Qed.

(** *** The probe *)

(** The probe always answers, has written once to the destination, and
    leaves its result recorded. *)
Lemma checkAndCreateBucket_spec w :
  (exists ready, fst (checkAndCreateBucket B w) = Fulfilled ready) /\
  probes (trace (snd (checkAndCreateBucket B w))) = S (probes (trace w)) /\
  bucketChecked (comp (snd (checkAndCreateBucket B w))) = true.
Proof.
  unfold checkAndCreateBucket, try_catch, bind, setBucketChecked, setBucketError,
    modify_comp, date_now, call, ret.
  cbn [fst snd].
  destruct (answer B _ (StorageUpload _ _ _)); cbn [fst snd serve record trace comp now].
  - destruct (answer B _ (StorageRemove _ _)); cbn;
      (split; [eexists; reflexivity|]); (split; [|reflexivity]); count_probes.
  - cbn. split; [eexists; reflexivity|]. split; [|reflexivity]. count_probes.
  - cbn. split; [eexists; reflexivity|]. split; [|reflexivity]. count_probes.
Qed.

(** *** One upload *)

Lemma upload_failed_fulfils uploadedFile e w :
  exists r, fst (upload_failed uploadedFile e w) = Fulfilled r /\ status r = Error.
Proof. unfold upload_failed, bind, emit, ret. simpl. eexists. split; reflexivity. Qed.

Lemma upload_failed_no_probe uploadedFile e : steady no_probe (upload_failed uploadedFile e).
Proof. unfold upload_failed. no_probe_tac. Qed.

(** An upload never rejects: it resolves to a record, which is in
    status processing when everything went well and in status error
    otherwise. *)
Lemma uploadFile_at_fulfils t file w :
  exists r, fst (uploadFile_at B personaId t file w) = Fulfilled r /\
            (status r = Processing \/ status r = Error).
Proof.
  change (post (uploadFile_at B personaId t file) w
               (fun s _ => exists r, s = Fulfilled r /\
                                     (status r = Processing \/ status r = Error))).
  assert (Hfail : forall u e w' (Q : Settled UploadedFile -> World State -> Prop),
             (forall r w'', status r = Error -> Q (Fulfilled r) w'') ->
             post (upload_failed u e) w' Q).
  { intros u e w' Q HQ. unfold post.
    destruct (upload_failed_fulfils u e w') as (r & Hr & Hs). rewrite Hr. apply HQ, Hs. }
  assert (Hend : forall (r : UploadedFile) (w'' : World State),
             status r = Error ->
             exists r0, Fulfilled r = Fulfilled r0 /\
                        (status r0 = Processing \/ status r0 = Error)).
  { intros r _ Hs. exists r. auto. }
  unfold uploadFile_at. apply post_try_catch.
  destruct (tooLarge file); [apply post_throw, Hfail, Hend|].
  destruct (_ || _); [apply post_throw, Hfail, Hend|].
  apply post_bind. unfold post at 1.
  destruct (checkAndCreateBucket B w) as [[ready|e] w1]; cbn [fst snd];
    [|apply Hfail, Hend].
  destruct (negb ready); [apply post_throw, Hfail, Hend|].
  apply post_bind. unfold post at 1, call.
  destruct (answer B (sent w1) _) as [|err|x]; cbn [fst snd];
    [|solve [apply Hfail, Hend | apply post_throw, Hfail, Hend] ..].
  apply post_try_catch, post_bind, post_date_now, post_bind.
  unfold post at 1, call.
  destruct (answer B _ (InsertContent _ _)) as [|err|x]; cbn [fst snd];
    [|solve [apply Hfail, Hend | apply post_throw, Hfail, Hend] ..].
  apply post_bind. unfold post at 1, setTimeout, bind, date_now, modify_comp. cbn.
  eexists. split; [reflexivity | left; reflexivity].
Qed.

Lemma probes_try_catch_bind {A X} (m : M State A) (k : A -> M State X)
      (h : Exn -> M State X) w :
  (forall a, steady no_probe (k a)) -> (forall e, steady no_probe (h e)) ->
  probes (trace (snd (try_catch (bind m k) h w))) = probes (trace (snd (m w))).
Proof.
  intros Hk Hh. unfold try_catch, bind.
  destruct (m w) as [[a|e] w1]; cbn [fst snd]; [|apply Hh].
  specialize (Hk a w1). destruct (k a w1) as [[x|e] w2]; cbn [fst snd] in *; [exact Hk|].
  rewrite <- Hk. apply Hh.
Qed.

Lemma valid_persona_guard :
  isPersonaIdValid personaId = true ->
  negb (truthy personaId) || negb (isValidUUID personaId) = false.
Proof.
  unfold isPersonaIdValid. intros H. apply andb_true_iff in H as [H1 H2].
  rewrite H1, H2. reflexivity.
Qed.

(** An upload probes once, unless the file is turned away for its size. *)
Lemma uploadFile_at_probes t file w :
  isPersonaIdValid personaId = true ->
  probes (trace (snd (uploadFile_at B personaId t file w)))
    = (probes (trace w) + if tooLarge file then 0 else 1)%nat.
Proof.
  intros Hvalid. unfold uploadFile_at.
  destruct (tooLarge file).
  - unfold try_catch, throw. cbn [fst snd].
    rewrite (upload_failed_no_probe _ _ w). lia.
  - rewrite (valid_persona_guard Hvalid).
    rewrite probes_try_catch_bind.
    + destruct (checkAndCreateBucket_spec w) as (_ & Hp & _). rewrite Hp. lia.
    + intros ready. unfold upload_failed, setTimeout. no_probe_tac.
    + intros e. apply upload_failed_no_probe.
Qed.


(** *** The size filter *)

Definition acceptable (file : File) : bool := negb (tooLarge file).

Definition too_large_toast (file : File) : Event :=
  ToastError ("File " ++ file_name file ++ " is too large. Maximum size is 50MB.").

(** The world after the warnings for the oversized files of a drop. *)
Definition warned (files : list File) (w : World State) : World State :=
  fold_left (fun w' file => log (too_large_toast file) w') (List.filter tooLarge files) w.

Lemma keep_valid_filter files acc w :
  for_each keep_valid files acc w =
    (Fulfilled (acc ++ List.filter acceptable files)%list, warned files w).
Proof.
  revert acc w. induction files as [|f files IH]; intros acc w; simpl.
  - unfold ret, warned. simpl. rewrite app_nil_r. reflexivity.
  - unfold bind, keep_valid, acceptable, warned. simpl.
    destruct (tooLarge f); simpl.
    + rewrite IH. reflexivity.
    + rewrite IH, <- app_assoc. reflexivity.
Qed.

Lemma trace_warned files w :
  trace (warned files w) = (trace w ++ map too_large_toast (List.filter tooLarge files))%list.
Proof.
  unfold warned. generalize (List.filter tooLarge files). intros l. revert w.
  induction l as [|f l IH]; intros w; simpl.
  - symmetry. apply app_nil_r.
  - rewrite IH. simpl. rewrite <- app_assoc. reflexivity.
Qed.


(** *** The drop *)

(** The world in which the drop turns to its files: after the probe,
    if no result of a probe was recorded. *)
Definition probed_first (w : World State) : World State :=
  if bucketChecked (comp w) then w else snd (checkAndCreateBucket B w).

Lemma onDrop_eq files w :
  isPersonaIdValid personaId = true ->
  onDrop B personaId onUploadComplete files w =
    uploadBatch B personaId onUploadComplete (List.filter acceptable files)
                (warned files (snd (setIsUploading true (probed_first w)))).
Proof.
  intros Hvalid. unfold onDrop. rewrite Hvalid. cbn [negb].
  unfold bind at 1. unfold get_comp at 1. cbn [fst snd].
  unfold probed_first. unfold bind at 1.
  destruct (bucketChecked (comp w)); cbn [negb].
  - unfold ret at 1. unfold bind at 1.
    unfold setIsUploading at 1. unfold bind at 1, modify_comp at 1, emit at 1.
    unfold bind at 1. rewrite keep_valid_filter. reflexivity.
  - unfold bind at 1.
    destruct (checkAndCreateBucket_spec w) as ([ready Hr] & _ & _).
    destruct (checkAndCreateBucket B w) as [r w1]. cbn [fst snd] in *. subst r.
    unfold ret at 1. unfold bind at 1.
    unfold setIsUploading at 1. unfold bind at 1, modify_comp at 1, emit at 1.
    unfold bind at 1. rewrite keep_valid_filter. reflexivity.
Qed.

(** *** The join *)

(** The tasks settle one after the other, each one fulfilled. *)
Inductive settles {A} : list (M State A) -> World State -> list A -> World State -> Prop :=
| settles_nil w : settles [] w [] w
| settles_cons m rest w a w1 results w2 :
    m w = (Fulfilled a, w1) -> settles rest w1 results w2 ->
    settles (m :: rest) w (a :: results) w2.

(** When no task rejects, the code that awaits the join runs after the
    last task has settled, with all the results. *)
Lemma promise_all_then_settles {A X} (tasks : list (M State A)) acc
      (k : Settled (list A) -> M State X) w :
  (forall m, In m tasks -> forall w0, exists a, fst (m w0) = Fulfilled a) ->
  exists results w_out,
    settles tasks w results w_out /\
    promise_all_then tasks acc k w = k (Fulfilled (acc ++ results)%list) w_out.
Proof.
  revert acc w. induction tasks as [|m rest IH]; intros acc w Hall.
  - exists [], w. split; [constructor|]. simpl. rewrite app_nil_r. reflexivity.
  - destruct (Hall m (or_introl eq_refl) w) as [a Ha].
    destruct (m w) as [r w1] eqn:Hm. cbn [fst] in Ha. subst r.
    destruct (IH (acc ++ [a])%list w1 (fun m' Hin => Hall m' (or_intror Hin)))
      as (results & w_out & Hs & Heq).
    exists (a :: results), w_out. split; [econstructor; eassumption|].
    simpl. rewrite Hm, Heq, <- app_assoc. reflexivity.
Qed.


Lemma settles_steady {A} (R : World State -> World State -> Prop)
      (tasks : list (M State A)) w results w' :
  (forall w0, R w0 w0) -> (forall w1 w2 w3, R w1 w2 -> R w2 w3 -> R w1 w3) ->
  (forall m, In m tasks -> steady R m) ->
  settles tasks w results w' -> R w w'.
Proof.
  intros Hrefl Htrans Hall Hs. induction Hs as [|m rest w a w1 results w2 Hm Hs IH].
  - apply Hrefl.
  - eapply Htrans.
    + pose proof (Hall m (or_introl eq_refl) w) as H. rewrite Hm in H. exact H.
    + apply IH. intros m' Hin. apply Hall. right. exact Hin.
Qed.

Lemma settles_uploads_probes t files w results w' :
  isPersonaIdValid personaId = true ->
  Forall (fun f => tooLarge f = false) files ->
  settles (map (uploadFile_at B personaId t) files) w results w' ->
  probes (trace w') = (probes (trace w) + length files)%nat.
Proof.
  intros Hvalid Hok. revert w results w'.
  induction Hok as [|f files Hf Hok IH]; intros w results w' Hs; simpl in Hs.
  - inversion Hs; subst. simpl. lia.
  - inversion Hs as [|m rest w0 a w1 results' w2 Hm Hs']; subst.
    rewrite (IH _ _ _ Hs').
    pose proof (uploadFile_at_probes t f w Hvalid) as Hp.
    rewrite Hm, Hf in Hp. cbn [snd] in Hp. rewrite Hp. simpl. lia.
Qed.

(** *** The batch *)

(** An event of the page itself: neither a request nor a change of the
    indicator. *)
Definition is_local (e : Event) : bool := negb (is_net e) && negb (is_indicator e).

Lemma local_not_probe e : is_local e = true -> is_probe e = false.
Proof. destruct e as [[]| | | | |]; simpl; intros H; try reflexivity; discriminate. Qed.

Lemma local_not_indicator e : is_local e = true -> is_indicator e = false.
Proof. destruct e as [[]| | | | |]; simpl; intros H; try reflexivity; discriminate. Qed.

(** A batch: the uploads of its files settle one after the other, from
    a world [w_in] that differs from [w] in the list of files only; then
    the results are merged, the page is told, and the indicator is
    cleared. *)
Lemma uploadBatch_spec validFiles w :
  exists w_in results w_out tail,
    trace w_in = trace w /\ isUploading (comp w_in) = isUploading (comp w) /\
    tables w_in = tables w /\
    settles (map (uploadFile_at B personaId (now w)) validFiles) w_in results w_out /\
    fst (uploadBatch B personaId onUploadComplete validFiles w) = Fulfilled tt /\
    trace (snd (uploadBatch B personaId onUploadComplete validFiles w))
      = (trace w_out ++ tail ++ [SetIsUploading false])%list /\
    Forall (fun e => is_local e = true) tail /\
    isUploading (comp (snd (uploadBatch B personaId onUploadComplete validFiles w))) = false /\
    tables (snd (uploadBatch B personaId onUploadComplete validFiles w)) = tables w_out.
Proof.
  destruct validFiles as [|f rest].
  - exists w, [], w, []. repeat split; try reflexivity; constructor.
  - destruct (uploadBatch B personaId onUploadComplete (f :: rest) w) as [r wf] eqn:Hrun.
    unfold uploadBatch in Hrun. cbv iota in Hrun.
    unfold bind at 1 in Hrun. unfold date_now at 1 in Hrun. cbn [fst snd] in Hrun.
    unfold bind at 1 in Hrun. unfold setUploadedFiles at 1, modify_comp at 1 in Hrun.
    cbn [fst snd] in Hrun.
    match type of Hrun with promise_all_then ?tasks [] ?k ?w0 = _ =>
      destruct (promise_all_then_settles tasks [] k w0) as (results & w_out & Hs & Heq);
      [| exists w0, results, w_out ]
    end.
    { intros m Hin w0. apply in_map_iff in Hin as (file & <- & _).
      destruct (uploadFile_at_fulfils (now w) file w0) as (r0 & Hr & _). eauto. }
    rewrite Heq in Hrun.
    unfold try_finally, try_catch, bind, setUploadedFiles, setIsUploading, modify_comp,
      emit, ret in Hrun.
    exists (if onUploadComplete
            then [OnUploadComplete
                    (map id (List.filter (fun r => Status_eqb (status r) Completed)
                                         results))]
            else []).
    split; [reflexivity|]. split; [reflexivity|]. split; [reflexivity|].
    split; [exact Hs|].
    destruct onUploadComplete; cbn in Hrun; injection Hrun as <- <-; cbn.
    + repeat split; try reflexivity.
      * rewrite <- app_assoc. reflexivity.
      * constructor; [reflexivity | constructor].
    + repeat split; try reflexivity. constructor.
Qed.

Lemma tables_warned files w : tables (warned files w) = tables w.
Proof.
  unfold warned. generalize (List.filter tooLarge files). intros l. revert w.
  induction l as [|f l IH]; intros w; simpl; [reflexivity|]. rewrite IH. reflexivity.
Qed.

Lemma probed_first_frame w : upload_frame w (probed_first w).
Proof.
  unfold probed_first. destruct (bucketChecked (comp w)).
  - apply upload_frame_refl.
  - apply checkAndCreateBucket_frame.
Qed.

Lemma probed_first_probes w :
  probes (trace (probed_first w))
    = (probes (trace w) + if bucketChecked (comp w) then 0 else 1)%nat.
Proof.
  unfold probed_first. destruct (bucketChecked (comp w)); [lia|].
  destruct (checkAndCreateBucket_spec w) as (_ & Hp & _). rewrite Hp. lia.
Qed.

Lemma probes_local evs : Forall (fun e => is_local e = true) evs -> probes evs = 0%nat.
Proof.
  induction 1 as [|e evs He _ IH]; [reflexivity|].
  change (e :: evs) with ([e] ++ evs)%list. rewrite probes_app, IH.
  unfold probes. simpl. rewrite (local_not_probe e He). reflexivity.
Qed.

Lemma toasts_local files : Forall (fun e => is_local e = true) (map too_large_toast files).
Proof. apply Forall_map, Forall_forall. intros; reflexivity. Qed.

Lemma acceptable_not_too_large files :
  Forall (fun f => tooLarge f = false) (List.filter acceptable files).
Proof.
  apply List.Forall_forall. intros f Hin. apply List.filter_In in Hin as [_ H].
  unfold acceptable in H. destruct (tooLarge f); [discriminate | reflexivity].
Qed.

(** The world in which the batch of a drop starts. *)
Definition batch_start (files : list File) (w : World State) : World State :=
  warned files (snd (setIsUploading true (probed_first w))).

Lemma trace_batch_start files w :
  trace (batch_start files w)
    = (trace (probed_first w)
       ++ SetIsUploading true :: map too_large_toast (List.filter tooLarge files))%list.
Proof.
  unfold batch_start. rewrite trace_warned.
  unfold setIsUploading, bind, modify_comp, emit, log. cbn [fst snd trace].
  rewrite <- app_assoc. reflexivity.
Qed.


Lemma uploads_frame t files w results w' :
  settles (map (uploadFile_at B personaId t) files) w results w' -> upload_frame w w'.
Proof.
  apply settles_steady; [apply upload_frame_refl | apply upload_frame_trans |].
  intros m Hin. apply in_map_iff in Hin as (file & <- & _). apply uploadFile_at_frame.
Qed.
End Uploads.

(** A memo of 2 MiB and a film of 60 MiB. *)
Definition small : File := mkFile "voice memo.mp3" (2 * 1024 * 1024) "audio/mpeg".
Definition big : File := mkFile "holiday.mp4" (60 * 1024 * 1024) "video/mp4".

(** The component as first rendered, while the probe started by its
    mount has not been answered and no result is recorded, and once that
    probe has been answered. *)
Definition unmounted : World State := mkWorld 1000 [] ∅ ∅ ∅ initialState [].
Definition checked : World State :=
  snd (mount serving_backend unmounted).

(** ** The claims about the uploads *)



(** C4, as the code has it: the result of a probe is recorded (the
    probe always ends with [bucketChecked] set), and a drop runs a probe
    of its own only when no result is recorded; but every accepted file
    of a drop runs the probe once more before its transfer.  With a
    valid persona, a drop therefore adds to the probes made so far one
    probe per accepted file, and one more when no result was recorded;
    each run of the probe, the manual retry included, writes once to the
    destination. *)
Theorem probe_runs_again_for_every_accepted_file
        (B : Backend) (personaId : string) (onUploadComplete : bool)
        (files : list File) (w : World State)
        (Hvalid : isPersonaIdValid personaId = true) :
  probes (trace (snd (onDrop B personaId onUploadComplete files w)))
    = (probes (trace w) + (if bucketChecked (comp w) then 0 else 1)
       + length (List.filter acceptable files))%nat /\
  bucketChecked (comp (snd (checkAndCreateBucket B w))) = true /\
  probes (trace (snd (checkAndCreateBucket B w))) = S (probes (trace w)).
Proof.
  destruct (checkAndCreateBucket_spec B w) as (_ & Hp & Hc).
  split; [|split; assumption].
  rewrite (onDrop_eq B personaId onUploadComplete files w Hvalid).
  fold (batch_start B files w).
  destruct (uploadBatch_spec B personaId onUploadComplete
              (List.filter acceptable files) (batch_start B files w))
    as (w_in & results & w_out & tail & Ht & _ & _ & Hs & _ & Htr & Htail & _).
  rewrite Htr, !probes_app, (probes_local tail Htail).
  rewrite (settles_uploads_probes B personaId _ _ _ _ _ Hvalid
             (acceptable_not_too_large files) Hs).
  rewrite Ht, trace_batch_start.
  change (SetIsUploading true :: map too_large_toast (List.filter tooLarge files))
    with ([SetIsUploading true] ++ map too_large_toast (List.filter tooLarge files))%list.
  rewrite !probes_app, (probes_local _ (toasts_local (List.filter tooLarge files))).
  rewrite probed_first_probes. unfold probes at 2 3. simpl. lia.
Qed.

Lemma probe_runs_again_for_every_accepted_file_witness :
  isPersonaIdValid a_persona = true /\
  probes (trace (snd (onDrop serving_backend a_persona true
                             [small; big; small] checked)))
    = (probes (trace checked) + 0 + 2)%nat.
Proof.
  assert (isPersonaIdValid a_persona = true) as Hv by (vm_compute; reflexivity).
  split; [exact Hv|].
  exact (proj1 (probe_runs_again_for_every_accepted_file
                  serving_backend a_persona true
                  [small; big; small] checked Hv)).
Defined.

(** C4 as stated fails: with the result of the mount's probe recorded,
    the upload of one small file runs the probe a second time. *)
Lemma probe_is_not_cached_counterexample :
  bucketChecked (comp checked) = true /\
  bucketError (comp checked) = None /\
  probes (trace checked) = 1%nat /\
  probes (trace (snd (onDrop serving_backend a_persona true
                             [small] checked))) = 2%nat.
Proof. vm_compute. repeat split; reflexivity. Qed.




(** ** The hand-off to training *)

Lemma onDrop_keeps_gathered B personaId onUploadComplete files w :
  tables (snd (onDrop B personaId onUploadComplete files w)) !! AITraining.gathered_table
    = tables w !! AITraining.gathered_table.
Proof.
  destruct (isPersonaIdValid personaId) eqn:Hvalid.
  - rewrite (onDrop_eq B personaId onUploadComplete files w Hvalid).
    fold (batch_start B files w).
    destruct (uploadBatch_spec B personaId onUploadComplete
                (List.filter acceptable files) (batch_start B files w))
      as (w_in & results & w_out & tail & _ & _ & Htb & Hs & _ & _ & _ & _ & Hout).
    rewrite Hout.
    destruct (uploads_frame B personaId _ _ _ _ _ Hs) as (_ & _ & Hg). rewrite Hg, Htb.
    unfold batch_start. rewrite tables_warned.
    unfold setIsUploading, bind, modify_comp, emit, log. cbn [fst snd tables].
    apply probed_first_frame.
  - unfold onDrop. rewrite Hvalid. reflexivity.
Qed.

(** The rows of a table, all marked as completed. *)
Definition mark_completed (table : string) (w : World State) : World State :=
  mkWorld (now w) (trace w)
          (alter (map (fun row =>
                         mkContentRow (persona_id row) (content_type row) (file_url row)
                                      (row_file_name row) (row_file_size row)
                                      (content_text row) (metadata row) "completed"))
                 table (tables w))
          (personas w) (message_tables w) (comp w) (seen w).

(** The world after the upload of one small audio file, served by the
    backend at every step. *)
Definition after_upload : World State :=
  snd (onDrop serving_backend a_persona true [small] checked).

(** C1, on the code: the upload inserts its record into the table
    named persona-content, and the pipeline selects from the table named
    persona_content.  No upload and no drop ever changes the table the
    pipeline reads; after a served upload the record is in the other
    table, and the pipeline gathers nothing, also once that record is
    marked completed. *)
Theorem upload_record_is_not_in_the_table_training_reads :
  inserted_table <> AITraining.gathered_table /\
  (forall B personaId t file (w : World State),
      tables (snd (uploadFile_at B personaId t file w)) !! AITraining.gathered_table
        = tables w !! AITraining.gathered_table) /\
  (forall B personaId onUploadComplete files (w : World State),
      tables (snd (onDrop B personaId onUploadComplete files w)) !! AITraining.gathered_table
        = tables w !! AITraining.gathered_table) /\
  (map (fun row => (persona_id row, content_type row, processing_status row))
     <$> (tables after_upload !! inserted_table))
    = Some [(a_persona, "audio", "processing")] /\
  tables after_upload !! AITraining.gathered_table = None /\
  fst (AITraining.gatherTrainingData serving_backend a_persona
                                     (mark_completed inserted_table after_upload))
    = Fulfilled (AITraining.mkTrainingData [] [] [] []).
Proof.
  split; [discriminate|].
  split; [intros; apply uploadFile_at_frame|].
  split; [intros; apply onDrop_keeps_gathered|].
  vm_compute. repeat split; reflexivity.
Qed.
End FileUploadFacts.

(** * The chat component *)

Module ConversationFacts.
Import Conversation.






End ConversationFacts.

(** * Further properties of the upload component *)

Module UploadExtras.
Import FileUpload FileUploadFacts.

(** ** Identifiers and names *)

Lemma matches_length classes s :
  matches classes s = true -> String.length s = length classes.
Proof.
  revert s. induction classes as [|cl classes IH]; intros [|c s] H; simpl in *;
    try discriminate; [reflexivity|].
  apply andb_true_iff in H as [_ H]. rewrite (IH s H). reflexivity.
Qed.

Lemma matches_get classes s i cl c :
  matches classes s = true ->
  nth_error classes i = Some cl -> String.get i s = Some c -> cl c = true.
Proof.
  revert s i. induction classes as [|cl0 classes IH]; intros [|c0 s] i H Hcl Hc;
    simpl in *; try discriminate.
  apply andb_true_iff in H as [H0 H].
  destruct i as [|i]; simpl in *.
  - injection Hcl as <-. injection Hc as <-. exact H0.
  - eapply IH; eassumption.
Qed.

Lemma get_in_range s i : (i < String.length s)%nat -> exists c, String.get i s = Some c.
Proof.
  revert i. induction s as [|c s IH]; intros i Hi; simpl in *; [lia|].
  destruct i as [|i]; [eauto|]. apply IH. lia.
Qed.

Lemma is_dash_eq c : is_dash c = true -> c = "-"%char.
Proof.
  unfold is_dash. intros H. apply Nat.eqb_eq in H.
  rewrite <- (ascii_nat_embedding c), H. reflexivity.
Qed.

(** X1: an identifier the component accepts has 36 characters, dashes at
    positions 8, 13, 18 and 23, a version digit from 1 to 5 at position
    14 and one of 8, 9, a, b at position 19; being non-empty, it also
    passes the truthiness test made next to the pattern test. *)
Theorem valid_uuid_shape (id : string) (Hvalid : isValidUUID id = true) :
  String.length id = 36%nat /\
  String.get 8 id = Some "-"%char /\ String.get 13 id = Some "-"%char /\
  String.get 18 id = Some "-"%char /\ String.get 23 id = Some "-"%char /\
  (exists c, String.get 14 id = Some c /\ is_1_5 c = true) /\
  (exists c, String.get 19 id = Some c /\ is_89ab c = true) /\
  isPersonaIdValid id = true.
Proof.
  unfold isValidUUID in Hvalid.
  pose proof (matches_length _ _ Hvalid) as Hlen. change (length uuidRegex) with 36%nat in Hlen.
  assert (Hdash : forall i, (i < 36)%nat -> nth_error uuidRegex i = Some is_dash ->
                            String.get i id = Some "-"%char).
  { intros i Hi Hcl. destruct (get_in_range id i) as [c Hc]; [lia|].
    rewrite Hc. f_equal. apply is_dash_eq. exact (matches_get _ _ _ _ _ Hvalid Hcl Hc). }
  assert (Hclass : forall i cl, (i < 36)%nat -> nth_error uuidRegex i = Some cl ->
                                exists c, String.get i id = Some c /\ cl c = true).
  { intros i cl Hi Hcl. destruct (get_in_range id i) as [c Hc]; [lia|].
    exists c. split; [exact Hc|]. exact (matches_get _ _ _ _ _ Hvalid Hcl Hc). }
  split; [exact Hlen|].
  split; [apply Hdash; [lia | reflexivity]|].
  split; [apply Hdash; [lia | reflexivity]|].
  split; [apply Hdash; [lia | reflexivity]|].
  split; [apply Hdash; [lia | reflexivity]|].
  split; [apply (Hclass 14%nat); [lia | reflexivity]|].
  split; [apply (Hclass 19%nat); [lia | reflexivity]|].
  unfold isPersonaIdValid, isValidUUID. rewrite Hvalid.
  destruct id; [discriminate Hlen | reflexivity].
Qed.

Lemma valid_uuid_shape_witness :
  isValidUUID a_persona = true /\ String.length a_persona = 36%nat.
Proof.
  assert (isValidUUID a_persona = true) as H by (vm_compute; reflexivity).
  split; [exact H|]. exact (proj1 (valid_uuid_shape a_persona H)).
Defined.

(** A character that may stay in an object path. *)
Definition safe_char (c : ascii) : bool :=
  is_lower c || is_upper c || is_digit c || (nat_of_ascii c =? 46)%nat || is_dash c
  || (nat_of_ascii c =? 95)%nat.

(** X2: the sanitised name has the length of the name, holds only
    letters, digits, dots, dashes and underscores, and is left alone by
    a second pass. *)
Theorem sanitize_safe_and_idempotent :
  forall s : string,
    String.length (sanitize s) = String.length s /\
    forallb safe_char (list_ascii_of_string (sanitize s)) = true /\
    sanitize (sanitize s) = sanitize s.
Proof.
  induction s as [|c s (IH1 & IH2 & IH3)]; [repeat split|].
  simpl.
  destruct (is_lower c || is_upper c || is_digit c || (nat_of_ascii c =? 46)%nat
            || is_dash c) eqn:Hc.
  - split; [rewrite IH1; reflexivity|]. split.
    + simpl. rewrite IH2. unfold safe_char. rewrite Hc. reflexivity.
    + rewrite Hc, IH3. reflexivity.
  - split; [rewrite IH1; reflexivity|]. split.
    + simpl. rewrite IH2. reflexivity.
    + rewrite IH3. reflexivity.
Qed.

(** ** The probe *)

Lemma sent_record {C} B r (w : World C) : sent (record B r w) = S (sent w).
Proof.
  unfold sent, record. simpl. rewrite List.filter_app, length_app. simpl. lia.
Qed.

Lemma sent_serve {C} r (w : World C) : sent (serve r w) = sent w.
Proof. unfold sent. rewrite trace_serve. reflexivity. Qed.

(** The two requests of a probe started in [w]. *)
Definition probe_path (w : World State) : string := "test-" ++ pretty (now w) ++ ".txt".
Definition probe_write (w : World State) : Request :=
  StorageUpload bucket (probe_path w) probeBody.
Definition probe_delete (w : World State) : Request :=
  StorageRemove bucket [probe_path w].

(** X3: the probe never throws and reports the destination as ready
    exactly when its write is served and its delete does not throw (an
    error object answered to the delete is not looked at); the stored
    error message is empty exactly when it reports ready; it makes one
    request when the write fails and two otherwise, and it touches
    neither the file list, nor the indicator, nor the remote tables. *)
Theorem probe_outcome :
  forall (B : Backend) (w : World State),
    let w' := snd (checkAndCreateBucket B w) in
    exists ready,
      fst (checkAndCreateBucket B w) = Fulfilled ready /\
      (ready = true <-> bucketError (comp w') = None) /\
      (ready = true <->
       answer B (sent w) (probe_write w) = Accepted /\
       forall x, answer B (S (sent w)) (probe_delete w) <> Raised x) /\
      trace w' = (trace w ++ Net (probe_write w)
                  :: match answer B (sent w) (probe_write w) with
                     | Accepted => [Net (probe_delete w)]
                     | _ => []
                     end)%list /\
      uploadedFiles (comp w') = uploadedFiles (comp w) /\
      isUploading (comp w') = isUploading (comp w) /\
      tables w' = tables w.
Proof.
  intros B w w'. subst w'.
  destruct (checkAndCreateBucket B w) as [r wf] eqn:Hrun. cbn [fst snd].
  unfold checkAndCreateBucket, try_catch, bind, setBucketChecked, setBucketError,
    modify_comp, date_now, call, ret in Hrun.
  cbn [fst snd now trace comp] in Hrun.
  set (w0 := mkWorld (now w) (trace w) (tables w) (personas w) (message_tables w)
                      (with_bucketChecked false (comp w)) (seen w)) in Hrun.
  change (sent w0) with (sent w) in Hrun.
  fold (probe_path w) in Hrun. fold (probe_write w) in Hrun.
  destruct (answer B (sent w) (probe_write w)) as [|e|x] eqn:H1; cbn [fst snd] in Hrun.
  - unfold probe_write at 1 in Hrun. cbn [serve] in Hrun.
    rewrite !sent_record in Hrun. change (sent w0) with (sent w) in Hrun.
    fold (probe_delete w) in Hrun.
    destruct (answer B (S (sent w)) (probe_delete w)) as [|e|x] eqn:H2;
      cbn in Hrun; inversion Hrun; subst r wf; clear Hrun; cbn.
    + exists true. repeat split; try reflexivity; try discriminate; try (intros; discriminate);
        try (rewrite <- app_assoc; reflexivity).
    + exists true. repeat split; try reflexivity; try discriminate; try (intros; discriminate);
        try (rewrite <- app_assoc; reflexivity).
    + exists false. repeat split; try reflexivity; try discriminate; try (intros; discriminate);
        try (rewrite <- app_assoc; reflexivity).
      intros [_ Hn]. exfalso. exact (Hn x eq_refl).
  - cbn in Hrun; inversion Hrun; subst r wf; clear Hrun; cbn.
    exists false. repeat split; try reflexivity; try discriminate; try (intros; discriminate).
    + intros [H _]. discriminate.
  - cbn in Hrun; inversion Hrun; subst r wf; clear Hrun; cbn.
    exists false. repeat split; try reflexivity; try discriminate; try (intros; discriminate).
    intros [H _]. discriminate.
Qed.
End UploadExtras.

(** * What a computation adds to the trace *)

Section Adds.
Context {C : Type}.
Variable P : Event -> Prop.

(** [adds P w w']: the trace of [w'] is the trace of [w] followed by
    events that all satisfy [P]. *)
Definition adds (w w' : World C) : Prop :=
  exists evs, trace w' = (trace w ++ evs)%list /\ Forall P evs.

Lemma adds_refl w : adds w w.
Proof. exists []. split; [symmetry; apply app_nil_r | constructor]. Qed.

Lemma adds_trans w1 w2 w3 : adds w1 w2 -> adds w2 w3 -> adds w1 w3.
Proof.
  intros (e1 & T1 & F1) (e2 & T2 & F2). exists (e1 ++ e2)%list. split.
  - rewrite T2, T1. symmetry. apply app_assoc.
  - apply Forall_app. split; assumption.
Qed.

Lemma modify_comp_adds f : steady adds (modify_comp (C:=C) f).
Proof. intros w. apply (adds_refl w). Qed.

Lemma observe_adds : steady adds (observe (C:=C)).
Proof. intros w. apply (adds_refl w). Qed.

Lemma emit_adds e : P e -> steady adds (emit (C:=C) e).
Proof.
  intros He w. exists [e]. split; [reflexivity | constructor; [exact He | constructor]].
Qed.

Lemma record_adds B r w : P (Net r) -> adds w (record B r w).
Proof.
  intros Hr. exists [Net r]. split; [reflexivity | constructor; [exact Hr | constructor]].
Qed.

Lemma call_adds B r : P (Net r) -> steady adds (call (C:=C) B r).
Proof.
  intros Hr w. unfold call.
  destruct (answer B (sent w) r); simpl; try apply record_adds; try exact Hr.
  destruct (record_adds B r w Hr) as (evs & T & F).
  exists evs. rewrite trace_serve. split; assumption.
Qed.

Lemma ask_adds {A} B r (reply : nat -> Settled A) :
  P (Net r) -> steady adds (ask (C:=C) B r reply).
Proof. intros Hr w. apply record_adds, Hr. Qed.

Lemma select_adds B table p st :
  P (Net (SelectContent table p st)) -> steady adds (select_content (C:=C) B table p st).
Proof.
  intros Hr w. unfold select_content.
  destruct (answer B (sent w) _); simpl; apply record_adds, Hr.
Qed.
End Adds.

Lemma adds_weaken {C} (P Q : Event -> Prop) (w w' : World C) :
  (forall e, P e -> Q e) -> adds P w w' -> adds Q w w'.
Proof.
  intros HPQ (evs & T & F). exists evs. split; [exact T|].
  eapply List.Forall_impl; [exact HPQ | exact F].
Qed.

(** The requests among the events. *)
Definition requests (tr : list Event) : list Event := List.filter is_net tr.

Lemma sent_requests {C} (w : World C) : sent w = length (requests (trace w)).
Proof. reflexivity. Qed.

Lemma prefix_app p s : String.prefix p (p ++ s) = true.
Proof.
  induction p as [|a p IH]; simpl.
  - destruct s; reflexivity.
  - destruct (ascii_dec a a); congruence.
Qed.

Module UploadEvents.
Import FileUpload FileUploadFacts.

Section OneUpload.
Variable B : Backend.
Variable personaId : string.
Variable t : Z.
Variable file : File.

(** What the upload of [file], started at [t], may add to the trace:
    the two requests of a probe, the transfer of the file under its own
    path, the insert of its record, and error toasts. *)
Definition upload_event (e : Event) : Prop :=
  match e with
  | Net (StorageUpload b path (BlobOf parts)) =>
      b = bucket /\ parts = ["test"] /\ startsWith "test-" path = true
  | Net (StorageUpload b path (FileOf f)) =>
      b = bucket /\ f = file /\ path = fileId_of t file
  | Net (StorageRemove b paths) =>
      b = bucket /\ exists p, paths = [p] /\ startsWith "test-" p = true
  | Net (InsertContent table row) =>
      table = inserted_table /\
      persona_id row = personaId /\
      processing_status row = "processing" /\
      content_text row = None /\
      In (content_type row) ["video"; "audio"; "image"; "text"] /\
      file_url row = public_url B bucket (fileId_of t file) /\
      row_file_name row = file_name file /\
      row_file_size row = file_size file
  | ToastError _ => True
  | _ => False
  end.

Lemma getContentType_kinds mimeType :
  In (getContentType mimeType) ["video"; "audio"; "image"; "text"].
Proof.
  unfold getContentType.
  destruct (startsWith "video/" mimeType); [simpl; tauto|].
  destruct (startsWith "audio/" mimeType); [simpl; tauto|].
  destruct (startsWith "image/" mimeType); [simpl; tauto|].
  destruct (_ || _); simpl; tauto.
Qed.

Ltac upload_events_tac :=
  repeat (first [ match goal with |- forall _, _ => intro end
                | steady_structure_at (adds_refl (C:=State) upload_event)
                                      (adds_trans (C:=State) upload_event)
                | apply modify_comp_adds
                | apply emit_adds; exact I
                | apply call_adds ]).

Lemma checkAndCreateBucket_events : steady (adds upload_event) (checkAndCreateBucket B).
Proof.
  unfold checkAndCreateBucket, setBucketChecked, setBucketError.
  upload_events_tac.
  - unfold upload_event, probeBody, startsWith.
    split; [reflexivity|]. split; [reflexivity | apply prefix_app].
  - unfold upload_event, startsWith. split; [reflexivity|].
    eexists. split; [reflexivity | apply prefix_app].
Qed.

(** X4: whatever the backend answers, one upload adds to the trace
    nothing but: writes of the probe's test object and deletes of a path
    that starts with the probe's prefix, the transfer of the file itself
    under its identifier, inserts into the hyphenated table of a record
    that carries the persona, the status processing, no text, one of the
    four categories and the file's name, size and public address, and
    error toasts.  In particular it reads no table, updates no persona and
    announces no success. *)
Theorem upload_adds_only_its_own_requests :
  forall w : World State,
    adds upload_event w (snd (uploadFile_at B personaId t file w)).
Proof.
  change (steady (adds upload_event) (uploadFile_at B personaId t file)).
  unfold uploadFile_at, upload_failed, setTimeout.
  repeat (first [ match goal with |- forall _, _ => intro end
                | apply checkAndCreateBucket_events
                | steady_structure_at (adds_refl (C:=State) upload_event)
                                      (adds_trans (C:=State) upload_event)
                | apply modify_comp_adds
                | apply emit_adds; exact I
                | apply call_adds ]).
  - repeat split.
  - cbn. repeat split. apply getContentType_kinds.
Qed.

(** What the steps of an upload leave alone: the list of files, the
    indicator and the timers; and time does not go back. *)
Definition upload_keeps (w w' : World State) : Prop :=
  uploadedFiles (comp w') = uploadedFiles (comp w) /\
  isUploading (comp w') = isUploading (comp w) /\
  timers (comp w') = timers (comp w) /\
  now w <= now w'.

Lemma upload_keeps_refl w : upload_keeps w w.
Proof. unfold upload_keeps. repeat split; reflexivity. Qed.

Lemma upload_keeps_trans w1 w2 w3 :
  upload_keeps w1 w2 -> upload_keeps w2 w3 -> upload_keeps w1 w3.
Proof.
  unfold upload_keeps. intros (A1 & A2 & A3 & A4) (B1 & B2 & B3 & B4).
  repeat split; try congruence. lia.
Qed.

Lemma now_serve {C} r (w : World C) : now (serve r w) = now w.
Proof. destruct r; simpl; try reflexivity. destruct (String.eqb _ _); reflexivity. Qed.

Lemma call_upload_keeps r : steady upload_keeps (call B r).
Proof.
  intros w. unfold call, upload_keeps.
  destruct (answer B (sent w) r); cbn [fst snd];
    rewrite ?comp_serve, ?now_serve; cbn; repeat split; lia.
Qed.

Lemma emit_upload_keeps e : steady upload_keeps (emit e).
Proof. intros w. unfold upload_keeps. cbn. repeat split; lia. Qed.

Lemma checkAndCreateBucket_keeps : steady upload_keeps (checkAndCreateBucket B).
Proof.
  unfold checkAndCreateBucket, setBucketChecked, setBucketError.
  repeat (first [ match goal with |- forall _, _ => intro end
                | steady_structure_at upload_keeps_refl upload_keeps_trans
                | apply call_upload_keeps
                | (intros w; unfold upload_keeps; cbn; repeat split; lia) ]).
Qed.

(** How the upload of [file], started at [t] in [w], has settled. *)
Definition upload_settled (w : World State) (u : UploadedFile) (w' : World State) : Prop :=
  id u = fileId_of t file /\ name u = file_name file /\
  size u = file_size file /\ type u = file_type file /\
  uploadedFiles (comp w') = uploadedFiles (comp w) /\
  isUploading (comp w') = isUploading (comp w) /\
  ((status u = Processing /\ progress u = 50 /\ error u = None /\
    url u = public_url B bucket (fileId_of t file) /\
    exists d, now w + 2000 <= d /\
              timers (comp w') = (timers (comp w) ++ [mkTimer d u])%list)
   \/
   (status u = Error /\ progress u = 0 /\
    timers (comp w') = timers (comp w) /\
    exists msg tr, error u = Some msg /\
                   trace w' = (tr ++ [ToastError ("Upload failed: " ++ msg)])%list)).

Lemma upload_failed_settled u e w w' :
  id u = fileId_of t file -> name u = file_name file ->
  size u = file_size file -> type u = file_type file ->
  upload_keeps w w' ->
  post (upload_failed u e) w'
       (fun s w'' => exists r, s = Fulfilled r /\ upload_settled w r w'').
Proof.
  intros H1 H2 H3 H4 (K1 & K2 & K3 & K4).
  unfold post, upload_failed, bind, emit, ret. cbn.
  eexists. split; [reflexivity|]. unfold upload_settled. cbn.
  repeat (split; [assumption|]). right.
  repeat (split; [first [reflexivity | assumption]|]).
  eexists. exists (trace w'). split; reflexivity.
Qed.

(** X5: an upload never rejects.  It resolves to a record that carries
    the file's identifier, name, size and type, and has changed neither
    the list of files nor the indicator; either the record is in status
    processing at 50 percent with the public address of the file and no
    error, and exactly one timer, for that record and due no earlier than
    two seconds after the start, has been registered; or the record is in
    status error at 0 percent with a message, no timer has been
    registered, and the last event is the toast that shows that
    message. *)
Theorem upload_settles_as_processing_or_error :
  forall w : World State,
    exists u,
      fst (uploadFile_at B personaId t file w) = Fulfilled u /\
      upload_settled w u (snd (uploadFile_at B personaId t file w)).
Proof.
  intros w.
  change (post (uploadFile_at B personaId t file) w
               (fun s w' => exists u, s = Fulfilled u /\ upload_settled w u w')).
  assert (Hfail0 : forall e w', upload_keeps w w' ->
             post (upload_failed
                     (mkUploaded (fileId_of t file) (file_name file) (file_size file)
                                 (file_type file) EmptyString Uploading 0 None) e) w'
                  (fun s w'' => exists r, s = Fulfilled r /\ upload_settled w r w'')).
  { intros e w' K. apply upload_failed_settled; trivial. }
  assert (Hfail1 : forall e w', upload_keeps w w' ->
             post (upload_failed
                     (mkUploaded (fileId_of t file) (file_name file) (file_size file)
                                 (file_type file) (public_url B bucket (fileId_of t file))
                                 Processing 50 None) e) w'
                  (fun s w'' => exists r, s = Fulfilled r /\ upload_settled w r w'')).
  { intros e w' K. apply upload_failed_settled; trivial. }
  unfold uploadFile_at. apply post_try_catch.
  destruct (tooLarge file); [apply post_throw, Hfail0, upload_keeps_refl|].
  destruct (_ || _); [apply post_throw, Hfail0, upload_keeps_refl|].
  apply post_bind. unfold post at 1.
  pose proof (checkAndCreateBucket_keeps w) as K1.
  destruct (checkAndCreateBucket B w) as [[ready|e] w1]; cbn [fst snd] in *;
    [|apply Hfail0, K1].
  destruct (negb ready); [apply post_throw, Hfail0, K1|].
  apply post_bind. unfold post at 1.
  pose proof (call_upload_keeps
                (StorageUpload bucket (fileId_of t file) (FileOf file)) w1) as K2.
  pose proof (upload_keeps_trans _ _ _ K1 K2) as K12. clear K1 K2.
  destruct (call B (StorageUpload bucket (fileId_of t file) (FileOf file)) w1)
    as [[[err|]|x] w2]; cbn [fst snd] in *;
    [apply post_throw, Hfail0, K12 | | apply Hfail0, K12].
  apply post_try_catch, post_bind, post_date_now, post_bind.
  unfold post at 1.
  match goal with
  | |- context [call B ?r w2] =>
      pose proof (call_upload_keeps r w2) as K3;
      pose proof (upload_keeps_trans _ _ _ K12 K3) as K;
      destruct (call B r w2) as [[[err|]|x] w3]
  end; cbn [fst snd] in *; clear K3 K12;
    [apply post_throw, Hfail1, K | | apply Hfail1, K].
  destruct K as (K1 & K2 & K3 & K4).
  apply post_bind. unfold post, setTimeout, bind, date_now, modify_comp, ret. cbn.
  eexists. split; [reflexivity|]. unfold upload_settled. cbn.
  repeat (split; [first [reflexivity | assumption]|]). left.
  repeat (split; [reflexivity|]).
  exists (now w3 + 2000). split; [lia|]. rewrite K3. reflexivity.
Qed.
End OneUpload.
End UploadEvents.

Module UploadList.
Import FileUpload.

Lemma map_other_ids (fid : string) (u : UploadedFile) (l : list UploadedFile) :
  Forall (fun g => String.eqb (id g) fid = false) l ->
  map (fun g => if String.eqb (id g) fid then u else g) l = l.
Proof.
  induction 1 as [|g l Hg _ IH]; simpl; [reflexivity|]. rewrite Hg, IH. reflexivity.
Qed.

Lemma filter_other_ids (fid : string) (l : list UploadedFile) :
  Forall (fun g => String.eqb (id g) fid = false)
         (List.filter (fun f => negb (String.eqb (id f) fid)) l).
Proof.
  apply List.Forall_forall. intros g Hin. apply List.filter_In in Hin as [_ H].
  destruct (String.eqb (id g) fid); [discriminate | reflexivity].
Qed.

(** X6: removing a file takes every entry with that identifier out of
    the list and keeps the others in their order; when the timer of an
    upload of that file fires afterwards, the list stays as it is (the
    entry does not come back), and the success toast for the file is
    shown all the same. *)
Theorem removed_file_stays_removed
        (fid : string) (tm : Timer) (w : World State)
        (Htarget : id (target tm) = fid) :
  let w1 := snd (removeFile fid w) in
  let w2 := snd (fireTimer tm w1) in
  uploadedFiles (comp w1)
    = List.filter (fun f => negb (String.eqb (id f) fid)) (uploadedFiles (comp w)) /\
  (forall f, In f (uploadedFiles (comp w1)) <->
             In f (uploadedFiles (comp w)) /\ id f <> fid) /\
  uploadedFiles (comp w2) = uploadedFiles (comp w1) /\
  trace w2 = (trace w ++ [ToastSuccess ("File " ++ dq ++ name (target tm) ++ dq ++
                                        " uploaded successfully!")])%list.
Proof.
  intros w1 w2. subst w1 w2.
  unfold removeFile, fireTimer, setUploadedFiles, bind, modify_comp, emit, log.
  cbn [fst snd comp trace uploadedFiles with_files].
  split; [reflexivity|]. split.
  - intros f. rewrite List.filter_In. split; intros [H1 H2]; (split; [exact H1|]).
    + intros Heq. rewrite Heq, String.eqb_refl in H2. discriminate.
    + destruct (String.eqb_spec (id f) fid); [contradiction | reflexivity].
  - split; [|reflexivity]. rewrite Htarget. apply map_other_ids, filter_other_ids.
Qed.

Lemma removed_file_stays_removed_witness :
  let f := mkUploaded "7-a.txt" "a.txt" 3 "text/plain" EmptyString Processing 50 None in
  let g := mkUploaded "7-b.txt" "b.txt" 4 "text/plain" EmptyString Processing 50 None in
  let w := mkWorld 0 [] ∅ ∅ ∅ (mkState [f; g; f] false None true []) [] in
  uploadedFiles (comp (snd (fireTimer (mkTimer 2000 f) (snd (removeFile "7-a.txt" w))))) = [g].
Proof.
  intros f g w.
  destruct (removed_file_stays_removed "7-a.txt" (mkTimer 2000 f) w eq_refl)
    as (H1 & _ & H3 & _).
  rewrite H3, H1. reflexivity.
Defined.
End UploadList.

Module UploadGuards.
Import FileUpload.

Lemma sent_log {C} e (w : World C) : is_net e = false -> sent (log e w) = sent w.
Proof.
  intros He. unfold sent, log. simpl. rewrite List.filter_app. simpl. rewrite He.
  rewrite app_nil_r. reflexivity.
Qed.

(** X7: without a valid persona nothing is sent.  A drop of any files
    only shows the toast that asks for a persona: no probe, no change of
    the indicator, no file handled.  An upload started directly resolves
    to a record in status error, with a toast, without a request and
    without touching the component. *)
Theorem no_request_without_valid_persona
        (B : Backend) (personaId : string) (onUploadComplete : bool)
        (files : list File) (t : Z) (file : File) (w : World State)
        (Hinvalid : isPersonaIdValid personaId = false) :
  onDrop B personaId onUploadComplete files w
    = (Fulfilled tt, log (ToastError "Please select a persona before uploading files") w) /\
  (exists u, fst (uploadFile_at B personaId t file w) = Fulfilled u /\
             status u = Error /\ url u = EmptyString) /\
  sent (snd (uploadFile_at B personaId t file w)) = sent w /\
  comp (snd (uploadFile_at B personaId t file w)) = comp w.
Proof.
  assert (negb (truthy personaId) || negb (isValidUUID personaId) = true) as Hguard.
  { unfold isPersonaIdValid in Hinvalid.
    destruct (truthy personaId), (isValidUUID personaId); try reflexivity; discriminate. }
  split.
  - unfold onDrop. rewrite Hinvalid. reflexivity.
  - unfold uploadFile_at. rewrite Hguard.
    destruct (tooLarge file);
      unfold try_catch, throw, upload_failed, bind, emit, ret; cbn [fst snd];
      (split; [eexists; split; [reflexivity | split; reflexivity]|]);
      (split; [apply sent_log; reflexivity | reflexivity]).
Qed.

Lemma no_request_without_valid_persona_witness :
  sent (snd (uploadFile_at serving_backend EmptyString 5 FileUploadFacts.small
                           FileUploadFacts.unmounted)) = 0%nat.
Proof.
  exact (proj1 (proj2 (proj2
           (no_request_without_valid_persona serving_backend EmptyString true
              [FileUploadFacts.small] 5 FileUploadFacts.small FileUploadFacts.unmounted
              eq_refl)))).
Defined.
End UploadGuards.

Module GatherFacts.
Import AITraining.

(** What one selected row contributes to each list. *)
Definition text_of (item : ContentRow) : list string :=
  if String.eqb (content_type item) "text"
  then match content_text item with
       | Some t => if truthy t then [t] else []
       | None => []
       end
  else [].

Definition url_of (kind : string) (item : ContentRow) : list string :=
  if String.eqb (content_type item) kind && truthy (file_url item)
  then [file_url item] else [].

Lemma bucket_item_lists td item :
  text (bucket_item td item) = (text td ++ text_of item)%list /\
  audio (bucket_item td item) = (audio td ++ url_of "audio" item)%list /\
  video (bucket_item td item) = (video td ++ url_of "video" item)%list /\
  images (bucket_item td item) = (images td ++ url_of "image" item)%list.
Proof.
  unfold bucket_item, text_of, url_of.
  destruct (String.eqb_spec (content_type item) "text") as [E|_].
  { try rewrite E. cbn [String.eqb Ascii.eqb Bool.eqb andb].
    destruct (content_text item) as [t|]; [destruct (truthy t)|];
      cbn; rewrite ?app_nil_r; auto. }
  destruct (String.eqb_spec (content_type item) "audio") as [E|_].
  { try rewrite E. cbn [String.eqb Ascii.eqb Bool.eqb andb].
    destruct (truthy (file_url item)); cbn; rewrite ?app_nil_r; auto. }
  destruct (String.eqb_spec (content_type item) "video") as [E|_].
  { try rewrite E. cbn [String.eqb Ascii.eqb Bool.eqb andb].
    destruct (truthy (file_url item)); cbn; rewrite ?app_nil_r; auto. }
  destruct (String.eqb_spec (content_type item) "image") as [E|_].
  { try rewrite E. cbn [String.eqb Ascii.eqb Bool.eqb andb].
    destruct (truthy (file_url item)); cbn; rewrite ?app_nil_r; auto. }
  cbn. rewrite ?app_nil_r. auto.
Qed.

Lemma fold_bucket_item_lists rows : forall td,
  text (fold_left bucket_item rows td) = (text td ++ flat_map text_of rows)%list /\
  audio (fold_left bucket_item rows td) = (audio td ++ flat_map (url_of "audio") rows)%list /\
  video (fold_left bucket_item rows td) = (video td ++ flat_map (url_of "video") rows)%list /\
  images (fold_left bucket_item rows td) = (images td ++ flat_map (url_of "image") rows)%list.
Proof.
  induction rows as [|item rows IH]; intros td; simpl.
  - rewrite !app_nil_r. auto.
  - destruct (IH (bucket_item td item)) as (H1 & H2 & H3 & H4).
    destruct (bucket_item_lists td item) as (E1 & E2 & E3 & E4).
    rewrite H1, H2, H3, H4, E1, E2, E3, E4, <- !app_assoc. auto.
Qed.

Lemma one_kind item :
  (length (text_of item) + length (url_of "audio" item)
   + length (url_of "video" item) + length (url_of "image" item) <= 1)%nat.
Proof.
  unfold text_of, url_of.
  destruct (String.eqb_spec (content_type item) "text") as [E|_];
    [rewrite E; cbn [String.eqb Ascii.eqb Bool.eqb andb];
     destruct (content_text item) as [t|]; [destruct (truthy t)|]; simpl; lia|].
  destruct (String.eqb_spec (content_type item) "audio") as [E|_];
    [rewrite E; cbn [String.eqb Ascii.eqb Bool.eqb andb];
     destruct (truthy (file_url item)); simpl; lia|].
  destruct (String.eqb_spec (content_type item) "video") as [E|_];
    [rewrite E; cbn [String.eqb Ascii.eqb Bool.eqb andb];
     destruct (truthy (file_url item)); simpl; lia|].
  destruct (String.eqb (content_type item) "image" && _); simpl; lia.
Qed.

Lemma at_most_one_each rows :
  (length (flat_map text_of rows) + length (flat_map (url_of "audio") rows)
   + length (flat_map (url_of "video") rows) + length (flat_map (url_of "image") rows)
   <= length rows)%nat.
Proof.
  induction rows as [|item rows IH]; cbn [flat_map length]; [lia|].
  rewrite !length_app. pose proof (one_kind item). lia.
Qed.

Lemma no_text_without_content rows :
  Forall (fun row => content_text row = None) rows -> flat_map text_of rows = [].
Proof.
  induction 1 as [|item rows Hitem _ IH]; cbn [flat_map]; [reflexivity|].
  rewrite IH, app_nil_r. unfold text_of. rewrite Hitem.
  destruct (String.eqb _ _); reflexivity.
Qed.

Section Gather.
Context {C : Type}.
Variable B : Backend.
Variable personaId : string.

(** The rows the selection of [gatherTrainingData] returns in [w]. *)
Definition selected (w : World C) : list ContentRow :=
  List.filter (fun row => String.eqb (persona_id row) personaId
                          && String.eqb (processing_status row) "completed")
              (default [] (tables w !! gathered_table)).

(** X8: the data-gathering step sends one request, the selection from
    the underscored table, and changes nothing else.  It rejects exactly
    when the client throws or answers an error object.  Otherwise it
    fulfils with four lists that are, in the order of the selected rows,
    the non-empty texts of the rows of type text and the non-empty
    addresses of the rows of type audio, video and image; a row adds to
    at most one list, and a row without text adds nothing to the texts. *)
Theorem gathered_lists_follow_the_selected_rows :
  forall w : World C,
    let run := gatherTrainingData B personaId w in
    trace (snd run)
      = (trace w ++ [Net (SelectContent gathered_table personaId "completed")])%list /\
    comp (snd run) = comp w /\ tables (snd run) = tables w /\
    personas (snd run) = personas w /\
    match answer B (sent w) (SelectContent gathered_table personaId "completed") with
    | Accepted =>
        exists td,
          fst run = Fulfilled td /\
          text td = flat_map text_of (selected w) /\
          audio td = flat_map (url_of "audio") (selected w) /\
          video td = flat_map (url_of "video") (selected w) /\
          images td = flat_map (url_of "image") (selected w) /\
          (length (text td) + length (audio td) + length (video td)
           + length (images td) <= length (selected w))%nat /\
          (Forall (fun row => content_text row = None) (selected w) -> text td = [])
    | _ => exists e, fst run = Rejected e
    end.
Proof.
  intros w run. subst run.
  unfold gatherTrainingData, bind, select_content, throw, ret.
  destruct (answer B (sent w) (SelectContent gathered_table personaId "completed"));
    cbn [fst snd]; repeat (split; [reflexivity|]); try (eexists; reflexivity).
  fold (selected w).
  destruct (fold_bucket_item_lists (selected w) (mkTrainingData [] [] [] []))
    as (H1 & H2 & H3 & H4).
  cbn [text audio video images app] in H1, H2, H3, H4.
  eexists. split; [reflexivity|]. cbn [default]. unfold Datatypes.id.
  rewrite H1, H2, H3, H4. repeat (split; [reflexivity|]). split.
  - apply at_most_one_each.
  - apply no_text_without_content.
Qed.
End Gather.
End GatherFacts.

Module AnalysisFacts.
Import AITraining.

Section Analyses.
Context {C : Type}.
Variable B : Backend.
Variable J : JSON.

(** The request made for one image. *)
Definition vision_request (imageUrl : string) : Request :=
  ChatCompletion (mkChatRequest "gpt-4-vision-preview" None vision_prompt
                                (Some imageUrl) 300 None).

Lemma analyze_one_run va imageUrl (w : World C) :
  exists va',
    analyze_one B va imageUrl w = (Fulfilled va', record B (vision_request imageUrl) w) /\
    settings va' = settings va /\ activities va' = activities va /\
    relationships va' = relationships va /\
    (length (expressions va') <= S (length (expressions va)))%nat.
Proof.
  unfold analyze_one, try_catch, bind, complete, ask, ret. cbn [fst snd].
  fold (vision_request imageUrl).
  destruct (chat_reply B (sent w) _) as [[analysis|]|e]; cbn [fst snd];
    [destruct (truthy analysis)| |]; cbn [fst snd];
    eexists; (split; [reflexivity|]); cbn; rewrite ?length_app; cbn;
    repeat split; lia.
Qed.

Lemma analyze_all_run imageUrls : forall va (w : World C),
  exists va',
    fst (for_each (analyze_one B) imageUrls va w) = Fulfilled va' /\
    settings va' = settings va /\ activities va' = activities va /\
    relationships va' = relationships va /\
    (length (expressions va') <= length (expressions va) + length imageUrls)%nat /\
    trace (snd (for_each (analyze_one B) imageUrls va w))
      = (trace w ++ map (fun url => Net (vision_request url)) imageUrls)%list /\
    comp (snd (for_each (analyze_one B) imageUrls va w)) = comp w /\
    tables (snd (for_each (analyze_one B) imageUrls va w)) = tables w /\
    personas (snd (for_each (analyze_one B) imageUrls va w)) = personas w.
Proof.
  induction imageUrls as [|url urls IH]; intros va w; cbn [for_each].
  - exists va. unfold ret. cbn. rewrite app_nil_r. repeat split. lia.
  - unfold bind. destruct (analyze_one_run va url w) as (va1 & Hrun & S1 & A1 & R1 & L1).
    rewrite Hrun. cbn [fst snd].
    destruct (IH va1 (record B (vision_request url) w))
      as (va' & Hf & S2 & A2 & R2 & L2 & T & Cm & Tb & Ps).
    exists va'. rewrite Hf, T, Cm, Tb, Ps. cbn [trace record comp tables personas map length].
    rewrite <- app_assoc. repeat split; try congruence. lia.
Qed.

(** X9: the visual analysis never fails, whatever the completions
    answer: it sends one vision request for each of the first ten
    images, in order, and nothing else; a request that throws or answers
    nothing is skipped.  It fulfils with an analysis in which settings,
    activities and relationships are empty and the expressions are at
    most one per request.  The videos are not looked at. *)
Theorem visual_analysis_never_fails :
  forall (imageUrls videoUrls : list string) (w : World C),
    let run := analyzeVisualContent B imageUrls videoUrls w in
    (exists va,
        fst run = Fulfilled va /\
        settings va = [] /\ activities va = [] /\ relationships va = [] /\
        (length (expressions va) <= Nat.min 10 (length imageUrls))%nat) /\
    trace (snd run)
      = (trace w ++ map (fun url => Net (vision_request url)) (firstn 10 imageUrls))%list /\
    comp (snd run) = comp w /\ tables (snd run) = tables w /\
    personas (snd run) = personas w /\
    run = analyzeVisualContent B imageUrls [] w.
Proof.
  intros imageUrls videoUrls w run. subst run. unfold analyzeVisualContent.
  destruct (analyze_all_run (firstn 10 imageUrls) (mkVisual [] [] [] []) w)
    as (va & Hf & S & A & R & L & T & Cm & Tb & Ps).
  split; [exists va; rewrite length_firstn in L; cbn in L; auto|].
  auto.
Qed.

(** The request of the text analysis. *)
Definition text_request (textData : list string) : Request :=
  ChatCompletion (mkChatRequest "gpt-4" (Some text_prompt) (join (nl ++ nl) textData)
                                None 1500 (Some (3 # 10)%Q)).

(** X10: the text analysis sends nothing and answers null for no
    texts; otherwise it sends exactly one completion request, on the
    texts joined by blank lines.  It rejects only when that request
    throws: a reply that does not parse gives the error object, and a
    missing or empty reply is read as the empty object. *)
Theorem text_analysis_tolerates_malformed_reply :
  forall (textData : list string) (w : World C),
    let run := analyzeTextContent B J textData w in
    comp (snd run) = comp w /\ personas (snd run) = personas w /\
    match textData with
    | [] => run = (Fulfilled None, w)
    | _ :: _ =>
        trace (snd run) = (trace w ++ [Net (text_request textData)])%list /\
        match chat_reply B (sent w)
                (mkChatRequest "gpt-4" (Some text_prompt) (join (nl ++ nl) textData)
                               None 1500 (Some (3 # 10)%Q)) with
        | Rejected e => fst run = Rejected e
        | Fulfilled c =>
            exists j,
              fst run = Fulfilled (Some j) /\
              (forall j', JSON_parse J (content_or_empty_object c) = Some j' -> j = j') /\
              (JSON_parse J (content_or_empty_object c) = None ->
               j = error_object J "Failed to parse text analysis") /\
              ((c = None \/ c = Some EmptyString) -> content_or_empty_object c = "{}")
        end
    end.
Proof.
  intros textData w run. subst run.
  destruct textData as [|x rest]; [repeat split|].
  unfold analyzeTextContent, bind, complete, ask, ret. cbn [fst snd].
  fold (text_request (x :: rest)).
  destruct (chat_reply B (sent w) _) as [c|e]; cbn [fst snd];
    repeat (split; [reflexivity|]); [|reflexivity].
  eexists. split; [reflexivity|]. unfold parse_or_error.
  destruct (JSON_parse J (content_or_empty_object c)) as [j|].
  - split; [intros j' Hj; congruence|]. split; [discriminate|].
    intros [-> | ->]; reflexivity.
  - split; [discriminate|]. split; [reflexivity|].
    intros [-> | ->]; reflexivity.
Qed.

(** The requests of the audio analysis. *)
Definition audio_request (transcriptions : list string) : Request :=
  ChatCompletion (mkChatRequest "gpt-4" (Some audio_prompt)
                                (join (nl ++ nl) transcriptions) None 1000 (Some (3 # 10)%Q)).

Definition is_download_of (urls : list string) (e : Event) : Prop :=
  exists u, In u urls /\ (e = Net (Fetch u) \/ e = Net (Transcribe u)).

Lemma is_download_of_more urls url e : is_download_of urls e -> is_download_of (url :: urls) e.
Proof. intros (u & Hin & He). exists u. split; [right; exact Hin | exact He]. Qed.

Lemma transcribe_one_run acc url (w : World C) :
  exists acc' evs,
    fst (transcribe_one B acc url w) = Fulfilled acc' /\
    trace (snd (transcribe_one B acc url w)) = (trace w ++ evs)%list /\
    comp (snd (transcribe_one B acc url w)) = comp w /\
    personas (snd (transcribe_one B acc url w)) = personas w /\
    Forall (is_download_of [url]) evs /\
    (length evs <= 2)%nat /\
    (acc' = acc \/ exists t, acc' = (acc ++ [t])%list /\ length evs = 2%nat) /\
    ((forall n, exists e, fetched B n url = Rejected e) -> acc' = acc /\ evs = [Net (Fetch url)]).
Proof.
  assert (is_download_of [url] (Net (Fetch url))) as HF.
  { exists url. split; [left; reflexivity | left; reflexivity]. }
  assert (is_download_of [url] (Net (Transcribe url))) as HT.
  { exists url. split; [left; reflexivity | right; reflexivity]. }
  unfold transcribe_one, try_catch, bind, ask, ret. cbn [fst snd].
  destruct (fetched B (sent w) url) as [blob|e] eqn:Hfetch; cbn [fst snd].
  - destruct (transcript B _ url) as [t|e]; cbn [fst snd].
    + exists (acc ++ [t])%list, [Net (Fetch url); Net (Transcribe url)].
      cbn. rewrite <- app_assoc. repeat split; auto.
      * right. exists t. auto.
      * destruct (H (sent w)) as [e He]. congruence.
      * destruct (H (sent w)) as [e He]. congruence.
    + exists acc, [Net (Fetch url); Net (Transcribe url)].
      cbn. rewrite <- app_assoc. repeat split; auto.
      destruct (H (sent w)) as [e' He]. congruence.
  - exists acc, [Net (Fetch url)]. cbn. repeat split; auto.
Qed.

Lemma transcribe_all_run urls : forall acc (w : World C),
  exists acc' evs,
    fst (for_each (transcribe_one B) urls acc w) = Fulfilled acc' /\
    trace (snd (for_each (transcribe_one B) urls acc w)) = (trace w ++ evs)%list /\
    comp (snd (for_each (transcribe_one B) urls acc w)) = comp w /\
    personas (snd (for_each (transcribe_one B) urls acc w)) = personas w /\
    Forall (is_download_of urls) evs /\
    (length evs <= 2 * length urls)%nat /\
    (length acc' <= length acc + length urls)%nat /\
    ((forall n url, exists e, fetched B n url = Rejected e) ->
     acc' = acc /\ evs = map (fun u => Net (Fetch u)) urls).
Proof.
  induction urls as [|url urls IH]; intros acc w; cbn [for_each].
  - exists acc, []. unfold ret. cbn. rewrite app_nil_r. repeat split; auto. lia.
  - unfold bind.
    destruct (transcribe_one_run acc url w) as (acc1 & evs1 & Hf & T1 & C1 & P1 & F1 & L1 & A1 & N1).
    destruct (transcribe_one B acc url w) as [r w1]. cbn [fst snd] in *. subst r.
    destruct (IH acc1 w1) as (acc' & evs2 & Hf2 & T2 & C2 & P2 & F2 & L2 & A2 & N2).
    exists acc', (evs1 ++ evs2)%list.
    split; [exact Hf2|]. split; [rewrite T2, T1, app_assoc; reflexivity|].
    split; [congruence|]. split; [congruence|]. split.
    { apply Forall_app. split.
      - eapply List.Forall_impl; [|exact F1].
        intros e (u & [Hu|[]] & He). exists u. split; [left; exact Hu | exact He].
      - eapply List.Forall_impl; [|exact F2]. intros e. apply is_download_of_more. }
    split; [rewrite length_app; cbn [length]; lia|].
    split.
    { destruct A1 as [->|(t & -> & _)]; [cbn [length]; lia|].
      rewrite length_app in A2. cbn [length] in *. lia. }
    intros Hall. destruct (N1 (fun n => Hall n url)) as [-> ->].
    destruct (N2 Hall) as [-> ->]. split; reflexivity.
Qed.

Lemma sent_app_requests (tr evs : list Event) :
  Forall (fun e => is_net e = true) evs ->
  length (List.filter is_net (tr ++ evs)%list)
    = (length (List.filter is_net tr) + length evs)%nat.
Proof.
  intros H. rewrite List.filter_app, length_app. f_equal.
  induction H as [|e evs He _ IH]; [reflexivity|]. simpl. rewrite He. simpl. congruence.
Qed.

(** X11: the audio analysis sends nothing and answers null for no
    recordings.  Otherwise it downloads and transcribes at most the
    first five recordings, a recording whose download or transcription
    throws being skipped without failing the analysis, and then sends at
    most one completion request: the requests are at most two per
    recording and one more.  It leaves the component and the personas
    alone.  When every download fails it has only tried the downloads,
    one per recording, and answers null. *)
Theorem audio_analysis_skips_failed_recordings :
  forall (audioUrls : list string) (w : World C),
    let run := analyzeAudioContent B J audioUrls w in
    (audioUrls = [] -> run = (Fulfilled None, w)) /\
    comp (snd run) = comp w /\ personas (snd run) = personas w /\
    (exists evs final,
        trace (snd run) = (trace w ++ evs ++ final)%list /\
        Forall (is_download_of (firstn 5 audioUrls)) evs /\
        (length evs <= 2 * Nat.min 5 (length audioUrls))%nat /\
        (final = [] \/ exists transcriptions,
                         transcriptions <> [] /\
                         (length transcriptions <= Nat.min 5 (length audioUrls))%nat /\
                         final = [Net (audio_request transcriptions)]) /\
        (final = [] -> fst run = Fulfilled None) /\
        ((forall n url, exists e, fetched B n url = Rejected e) ->
         final = [] /\ evs = map (fun u => Net (Fetch u)) (firstn 5 audioUrls))) /\
    (sent (snd run) <= sent w + 2 * Nat.min 5 (length audioUrls) + 1)%nat.
Proof.
  intros audioUrls w run. subst run.
  destruct audioUrls as [|x rest].
  { split; [reflexivity|]. split; [reflexivity|]. split; [reflexivity|]. split.
    - exists [], []. cbn. rewrite app_nil_r. repeat split; auto.
    - cbn. lia. }
  split; [discriminate|].
  unfold analyzeAudioContent.
  destruct (transcribe_all_run (firstn 5 (x :: rest)) [] w)
    as (acc & evs & Hf & T & Cm & Ps & F & L & A & N).
  rewrite length_firstn in L, A.
  unfold bind.
  destruct (for_each (transcribe_one B) (firstn 5 (x :: rest)) [] w) as [r w1].
  cbn [fst snd] in *. subst r.
  assert (Forall (fun e => is_net e = true) evs) as Hnet.
  { eapply List.Forall_impl; [|exact F]. intros e (u & _ & [-> | ->]); reflexivity. }
  destruct acc as [|t0 ts].
  - unfold ret. cbn [fst snd]. split; [exact Cm|]. split; [exact Ps|]. split.
    + exists evs, []. rewrite app_nil_r.
      split; [exact T|]. split; [exact F|]. split; [exact L|].
      split; [left; reflexivity|]. split; [reflexivity|].
      intros Hall. split; [reflexivity | apply N, Hall].
    + unfold sent. rewrite T, sent_app_requests by exact Hnet. lia.
  - unfold complete, ask, ret. cbn [fst snd].
    fold (audio_request (t0 :: ts)).
    destruct (chat_reply B (sent w1) _) as [c|e]; cbn [fst snd trace comp personas record];
      (split; [exact Cm|]); (split; [exact Ps|]).
    all: split;
      [ exists evs, [Net (audio_request (t0 :: ts))];
        rewrite T, <- app_assoc;
        split; [reflexivity|]; split; [exact F|]; split; [exact L|];
        split; [right; exists (t0 :: ts); split; [discriminate|]; split; [exact A | reflexivity]|];
        split; [discriminate|];
        intros Hall; destruct (N Hall) as [Hacc _]; discriminate
      | unfold sent; cbn [trace record]; rewrite T, <- app_assoc;
        rewrite sent_app_requests
          by (apply Forall_app; split;
              [exact Hnet | apply Forall_cons; split; [reflexivity | apply Forall_nil; exact I]]);
        rewrite length_app; cbn [length] in *; lia ].
Qed.
End Analyses.
End AnalysisFacts.


Module ProfileFacts.
Import AITraining.

Section Stages.
Context {C : Type}.
Variable B : Backend.
Variable J : JSON.
Variable personaId : string.



End Stages.

End ProfileFacts.

Module PipelineEvents.
Import AITraining.

Section Run.
Context {C : Type}.
Variable B : Backend.
Variable J : JSON.
Variable personaId : string.
Variable onProgress : string -> Z -> M C unit.

(** The requests of a training run. *)
Definition pipeline_event (e : Event) : Prop :=
  match e with
  | Net (SelectContent table p st) =>
      table = gathered_table /\ p = personaId /\ st = "completed"
  | Net (ChatCompletion _) | Net (Fetch _) | Net (Transcribe _) => True
  | Net (UpdatePersona table id (PatchProfile _ _ st pr _)) =>
      table = "personas" /\ id = personaId /\ st = "active" /\ pr = 100
  | Net (UpdatePersona table id (PatchMetadata _ _ _)) =>
      table = "personas" /\ id = personaId
  | _ => False
  end.

(** X13: a training run started through the exported helper, with a
    callback that sends nothing, adds to the trace nothing but: the
    selection of the persona's completed rows from the underscored
    table, completion requests, downloads and transcriptions, and
    updates of the row of this persona in the personas table that either
    store the profile with status active and progress 100 or store the
    prompt.  It inserts and deletes nothing, opens no conversation and
    touches no other persona. *)
Theorem training_run_sends_only_its_own_requests
        (Hquiet : forall stepId p w, trace (snd (onProgress stepId p w)) = trace w) :
  forall w : World C,
    adds pipeline_event w
         (snd (trainPersonaFromUploadedContent B J personaId onProgress w)).
Proof.
  assert (forall stepId p, steady (adds pipeline_event) (onProgress stepId p)) as Hcb.
  { intros stepId p w. exists []. rewrite app_nil_r. split; [apply Hquiet | constructor]. }
  change (steady (adds pipeline_event)
                 (trainPersonaFromUploadedContent B J personaId onProgress)).
  unfold trainPersonaFromUploadedContent, startTraining, gatherTrainingData,
    analyzeTextContent, analyzeAudioContent, transcribe_one, analyzeVisualContent,
    analyze_one, createPersonaProfile, optimizeConversationModel, complete.
  repeat (first [ match goal with |- forall _, _ => intro end
                | apply Hcb
                | steady_structure_at (adds_refl (C:=C) pipeline_event)
                                      (adds_trans (C:=C) pipeline_event)
                | apply ask_adds; exact I
                | apply select_adds; repeat split
                | apply call_adds; repeat split ]).
Qed.
End Run.

Lemma training_run_sends_only_its_own_requests_witness :
  let w : World unit := mkWorld 0 [] ∅ ∅ ∅ tt [] in
  adds (pipeline_event a_persona) w
       (snd (trainPersonaFromUploadedContent serving_backend lenient_json a_persona
               (fun _ _ => ret tt) w)).
Proof.
  intros w.
  exact (training_run_sends_only_its_own_requests serving_backend lenient_json a_persona
           (fun _ _ => ret tt) (fun _ _ _ => eq_refl) w).
Defined.
End PipelineEvents.

Module TrainingExtras.
Import PersonaTraining PersonaTrainingFacts.

(** ** The updater functions *)

Lemma totalProgress_from (steps : list TrainingStep) : forall z,
  fold_left (fun sum step => sum + progress step) steps z
    = z + fold_left (fun sum step => sum + progress step) steps 0.
Proof.
  induction steps as [|s steps IH]; intros z; simpl; [lia|].
  rewrite (IH (z + progress s)), (IH (0 + progress s)). lia.
Qed.

Lemma totalProgress_cons s steps :
  totalProgress (s :: steps) = progress s + totalProgress steps.
Proof. unfold totalProgress. simpl. rewrite totalProgress_from. lia. Qed.

(** X14: marking the failure turns every stage in status processing
    into status error and changes nothing else: identifiers, names and
    percentages stay, a stage in another status is left as it is, no
    stage is left processing, and marking twice is marking once.  The
    percentages being kept, the sum and the mean that the progress bar
    shows are those reached before the failure. *)
Theorem markError_keeps_the_progress_reached :
  forall steps : list TrainingStep,
    Forall (fun s => status s <> Processing) (markError steps) /\
    Forall2 (fun s s' =>
               id s' = id s /\ name s' = name s /\ description s' = description s /\
               progress s' = progress s /\
               status s' = (if Status_eqb (status s) Processing then Error else status s))
            steps (markError steps) /\
    markError (markError steps) = markError steps /\
    totalProgress (markError steps) = totalProgress steps /\
    avgProgress (markError steps) = avgProgress steps /\
    resetSteps (markError steps) = resetSteps steps.
Proof.
  intros steps.
  assert (totalProgress (markError steps) = totalProgress steps) as Htotal.
  { induction steps as [|s steps IH]; [reflexivity|].
    change (markError (s :: steps))
      with ((if Status_eqb (status s) Processing
             then mkStep (id s) (name s) (description s) Error (progress s)
             else s) :: markError steps).
    rewrite !totalProgress_cons, IH. destruct (Status_eqb _ _); reflexivity. }
  split; [|split; [|split; [|split; [exact Htotal|split]]]].
  - unfold markError. apply Forall_map, List.Forall_forall. intros s _.
    destruct (status s) eqn:E; simpl; rewrite ?E; discriminate.
  - clear Htotal. induction steps as [|s steps IH]; [constructor|].
    constructor; [|exact IH].
    destruct (status s) eqn:E; simpl; rewrite ?E; auto.
  - unfold markError. rewrite map_map. apply map_ext. intros s.
    destruct (status s) eqn:E; simpl; rewrite ?E; reflexivity.
  - unfold avgProgress. rewrite Htotal. unfold markError. rewrite length_map. reflexivity.
  - unfold resetSteps, markError. rewrite map_map. apply map_ext. intros s.
    destruct (Status_eqb _ _); reflexivity.
Qed.

(** X15: a report overwrites: the stage takes the percentage given,
    whatever it had, so a later report for the same stage replaces an
    earlier one, also with a smaller percentage, reports for different
    stages can be exchanged, and a report for an identifier that no stage
    has changes nothing. *)
Theorem report_overwrites_without_a_guard
        (s1 s2 : string) (p1 p2 : Z) (steps : list TrainingStep)
        (Hdistinct : s1 <> s2) :
  reportProgress s1 p2 (reportProgress s1 p1 steps) = reportProgress s1 p2 steps /\
  reportProgress s1 p1 (reportProgress s2 p2 steps)
    = reportProgress s2 p2 (reportProgress s1 p1 steps) /\
  (~ In s1 (map id steps) -> reportProgress s1 p1 steps = steps) /\
  Forall (fun s => id s = s1 -> progress s = p1 /\ status s <> Pending /\ status s <> Error)
         (reportProgress s1 p1 steps).
Proof.
  unfold reportProgress. split; [|split; [|split]].
  - rewrite map_map. apply map_ext. intros s.
    destruct (String.eqb (id s) s1) eqn:E; simpl; rewrite E; reflexivity.
  - rewrite !map_map. apply map_ext. intros s.
    destruct (String.eqb_spec (id s) s1) as [E1|N1];
      destruct (String.eqb_spec (id s) s2) as [E2|N2]; simpl.
    + congruence.
    + destruct (String.eqb_spec (id s) s1); [|contradiction].
      destruct (String.eqb_spec (id s) s2); [contradiction | reflexivity].
    + destruct (String.eqb_spec (id s) s1); [contradiction|].
      destruct (String.eqb_spec (id s) s2); [reflexivity | contradiction].
    + destruct (String.eqb_spec (id s) s1); [contradiction|].
      destruct (String.eqb_spec (id s) s2); [contradiction | reflexivity].
  - intros Hnot. induction steps as [|s steps IH]; [reflexivity|]. simpl.
    destruct (String.eqb_spec (id s) s1) as [E|_].
    + exfalso. apply Hnot. left. exact E.
    + rewrite IH; [reflexivity|]. intros Hin. apply Hnot. right. exact Hin.
  - apply Forall_map, List.Forall_forall. intros s _.
    destruct (String.eqb_spec (id s) s1) as [E|N]; simpl.
    + intros _. split; [reflexivity|]. destruct (p1 =? 100); split; discriminate.
    + intros E. contradiction.
Qed.

Lemma report_overwrites_without_a_guard_witness :
  reportProgress "voice-modeling" 20 (reportProgress "voice-modeling" 50 initialSteps)
    = reportProgress "voice-modeling" 20 initialSteps.
Proof.
  refine (proj1 (report_overwrites_without_a_guard "voice-modeling" "final-optimization"
                   50 20 initialSteps _)).
  discriminate.
Defined.

(** ** The buttons after a run *)

Section Buttons.
Variable B : Backend.
Variable J : AITraining.JSON.
Variable personaId : string.

Lemma setIsTraining_false_clears w :
  isTraining (comp (snd (setIsTraining B personaId false w))) = false.
Proof.
  unfold setIsTraining, bind, get_comp, modify_comp, observe.
  cbn [fst snd comp].
  destruct (isTraining (comp w)) eqn:E; cbn [Bool.eqb]; [|exact E].
  rewrite progressEffect_eq by apply andb_false_r. reflexivity.
Qed.

Lemma trainingAttempt_clears w :
  isTraining (comp (snd (trainingAttempt B J personaId w))) = false.
Proof.
  unfold trainingAttempt, try_finally.
  match goal with |- context [try_catch ?b ?h w] => destruct (try_catch b h w) as [r w1] end.
  pose proof (setIsTraining_false_clears w1) as H.
  destruct (setIsTraining B personaId false w1) as [[u|e] w2]; exact H.
Qed.

Lemma startTraining_clears w :
  isTraining (comp (snd (startTraining B J personaId w))) = false.
Proof.
  change (post (startTraining B J personaId) w
               (fun _ w' => isTraining (comp w') = false)).
  unfold startTraining.
  apply post_bind, post_setIsTraining_frame. intros w1 _ _.
  apply post_bind, post_setError_frame. intros w2 _ _.
  apply post_bind, post_updatePersonaStatus_frame. intros w3 _.
  apply post_bind, post_setTrainingSteps_frame. intros w4 _ _.
  apply trainingAttempt_clears.
Qed.

(** A failed run has reported at least its first percentage, and the
    failure keeps the percentages: the mean is positive. *)
Lemma failed_mean_positive steps n :
  map id steps = map id initialSteps -> (1 <= n <= 6)%nat ->
  (0 < avgProgress (markError (apply_reports (firstn n AITraining.reported_progress)
                                             (resetSteps steps))))%Q.
Proof.
  intros Hids Hn.
  destruct (five_stages steps Hids) as (a & b & c & d & e & -> & Ha & Hb & Hc & Hd & He).
  destruct a, b, c, d, e. simpl in Ha, Hb, Hc, Hd, He. subst.
  assert (n = 1 \/ n = 2 \/ n = 3 \/ n = 4 \/ n = 5 \/ n = 6)%nat
    as [-> | [-> | [-> | [-> | [-> | ->]]]]] by lia;
    unfold Qlt; vm_compute; reflexivity.
Qed.

Lemma not_zero_hides_start (st : State) :
  (0 < overallProgress st)%Q -> Q_is (overallProgress st) 0 = false.
Proof.
  intros Hpos. unfold Q_is.
  destruct (Qeq_bool (overallProgress st) (inject_Z 0)) eqn:E; [|reflexivity].
  apply Qeq_bool_eq in E. rewrite E in Hpos. exfalso. exact (Qlt_irrefl _ Hpos).
Qed.

(** X16: after a run started in a sound state, however it went, the
    training flag is cleared, the run has fulfilled, and the overall
    progress is above 0 and below 100; so a click on Start does nothing
    (the button is rendered only at progress 0), and the banner of
    completion, rendered only at progress 100, is not shown.  After a run
    without error a click on Try Again does nothing either: no action is
    left.  After a run with an error, Try Again clears the error and
    brings the overall progress back to 0 with the flag cleared, the
    state in which Start is offered. *)
Theorem after_a_run_start_is_not_offered
        (w : World State) (Hsound : SInv w) :
  let w' := snd (startTraining B J personaId w) in
  fst (startTraining B J personaId w) = Fulfilled tt /\
  isTraining (comp w') = false /\
  (0 < overallProgress (comp w') < 100)%Q /\
  click B J personaId ClickStart w' = (Fulfilled tt, w') /\
  (error (comp w') = None ->
   forall a, click B J personaId a w' = (Fulfilled tt, w')) /\
  (error (comp w') <> None ->
   let w'' := snd (click B J personaId ClickTryAgain w') in
   error (comp w'') = None /\ isTraining (comp w'') = false /\
   negb (isTraining (comp w'')) && Q_is (overallProgress (comp w'')) 0 = true).
Proof.
  intros w'. subst w'.
  pose proof Hsound as [([Hids _] & _ & _) _].
  destruct (startTraining_keeps B J personaId w Hsound) as [Hr [Hs' _]].
  destruct (startTraining_outcome B J personaId w) as [_ Hout].
  pose proof (startTraining_clears w) as Hflag.
  destruct (startTraining B J personaId w) as [r w']. cbn [fst snd] in *. subst r.
  destruct (sound_mean _ Hs') as [Hmean _].
  destruct (sound_below _ Hs') as [_ Hbelow].
  assert (0 < overallProgress (comp w'))%Q as Hpos.
  { rewrite Hmean. destruct Hout as [[_ Hst] | (_ & n & Hn & Hst)]; rewrite Hst.
    - destruct (successful_stages_mean _ Hids) as [_ H67]. rewrite H67. reflexivity.
    - apply failed_mean_positive; assumption. }
  assert (click B J personaId ClickStart w' = (Fulfilled tt, w')) as Hstart.
  { unfold click, bind, get_comp. cbn [fst snd].
    rewrite (not_zero_hides_start _ Hpos), andb_false_r. reflexivity. }
  split; [reflexivity|]. split; [exact Hflag|]. split; [split; assumption|].
  split; [exact Hstart|]. split.
  - intros Hnone [|]; [exact Hstart|].
    unfold click, bind, get_comp. cbn [fst snd]. rewrite Hnone. reflexivity.
  - intros Herr. cbv zeta.
    unfold click, bind, get_comp. cbn [fst snd].
    destruct (error (comp w')) as [msg|] eqn:E; [|contradiction].
    unfold tryAgain, setError, setOverallProgress, bind, modify_comp, observe.
    cbn [fst snd].
    match goal with |- context [setTrainingSteps B personaId resetSteps ?w0] =>
      rewrite (setTrainingSteps_eq B personaId resetSteps w0)
        by (cbn [comp trainingSteps with_error isTraining]; rewrite Hflag;
            apply andb_false_r)
    end.
    cbn. rewrite Hflag. repeat split.
Qed.
End Buttons.

Lemma after_a_run_start_is_not_offered_witness :
  isTraining (comp (snd (startTraining serving_backend lenient_json a_persona fresh))) = false.
Proof.
  exact (proj1 (proj2 (after_a_run_start_is_not_offered serving_backend lenient_json
                         a_persona fresh (mounted_SInv 1000 [] ∅ ∅ ∅)))).
Defined.
End TrainingExtras.

Module CompletionFacts.
Import PersonaTraining PersonaTrainingFacts.

Section Stages.
Context {C : Type}.
Variable B : Backend.
Variable J : AITraining.JSON.
Variable personaId : string.

Ltac stage_events_tac :=
  repeat (first [ match goal with |- forall _, _ => intro end
                | steady_structure_at
                    (adds_refl (C:=C) (PipelineEvents.pipeline_event personaId))
                    (adds_trans (C:=C) (PipelineEvents.pipeline_event personaId))
                | apply ask_adds; exact I
                | apply select_adds; repeat split
                | apply call_adds; repeat split ]).

Lemma gatherTrainingData_events :
  steady (adds (C:=C) (PipelineEvents.pipeline_event personaId))
         (AITraining.gatherTrainingData B personaId).
Proof. unfold AITraining.gatherTrainingData. stage_events_tac. Qed.

Lemma analyzeTextContent_events textData :
  steady (adds (C:=C) (PipelineEvents.pipeline_event personaId))
         (AITraining.analyzeTextContent B J textData).
Proof. unfold AITraining.analyzeTextContent, AITraining.complete. stage_events_tac. Qed.

Lemma analyzeAudioContent_events audioUrls :
  steady (adds (C:=C) (PipelineEvents.pipeline_event personaId))
         (AITraining.analyzeAudioContent B J audioUrls).
Proof.
  unfold AITraining.analyzeAudioContent, AITraining.transcribe_one, AITraining.complete.
  stage_events_tac.
Qed.

Lemma analyzeVisualContent_events imageUrls videoUrls :
  steady (adds (C:=C) (PipelineEvents.pipeline_event personaId))
         (AITraining.analyzeVisualContent B imageUrls videoUrls).
Proof.
  unfold AITraining.analyzeVisualContent, AITraining.analyze_one, AITraining.complete.
  stage_events_tac.
Qed.

Lemma createPersonaProfile_events ta va vis :
  steady (adds (C:=C) (PipelineEvents.pipeline_event personaId))
         (AITraining.createPersonaProfile B J personaId ta va vis).
Proof. unfold AITraining.createPersonaProfile, AITraining.complete. stage_events_tac. Qed.

Lemma optimizeConversationModel_events profile :
  steady (adds (C:=C) (PipelineEvents.pipeline_event personaId))
         (AITraining.optimizeConversationModel B personaId profile).
Proof. unfold AITraining.optimizeConversationModel. stage_events_tac. Qed.
End Stages.

Section Session.
Variable B : Backend.
Variable J : AITraining.JSON.
Variable personaId : string.

(** What the training component may add to the trace. *)
Definition component_event (e : Event) : Prop :=
  match e with
  | Net (UpdatePersona table id (PatchStatus st pr _)) =>
      table = "personas" /\ id = personaId /\ st = "training" /\ pr = 0
  | Net _ => PipelineEvents.pipeline_event personaId e
  | ToastSuccess m => m = "AI persona training completed successfully!"
  | ToastError m => m = "Training failed. Please try again."
  | _ => False
  end.

Lemma pipeline_event_component e :
  PipelineEvents.pipeline_event personaId e -> component_event e.
Proof.
  destruct e as [r| | | | |]; try contradiction.
  destruct r; try contradiction; try exact (fun H => H).
  destruct patch; [contradiction | exact (fun H => H) ..].
Qed.

(** From a sound world, to a sound world, adding only such events. *)
Definition carries (w w' : World State) : Prop :=
  SInv w -> SInv w' /\ adds component_event w w'.

Lemma carries_refl w : carries w w.
Proof. intros H. split; [exact H | apply adds_refl]. Qed.

Lemma carries_trans w1 w2 w3 : carries w1 w2 -> carries w2 w3 -> carries w1 w3.
Proof.
  intros H12 H23 H1. destruct (H12 H1) as [H2 A12]. destruct (H23 H2) as [H3 A23].
  split; [exact H3 | eapply adds_trans; eassumption].
Qed.

Lemma stage_carries {A} (m : M State A) :
  steady (@same_ui State) m ->
  steady (adds (PipelineEvents.pipeline_event personaId)) m ->
  steady carries m.
Proof.
  intros Hui Hev w Hw. split; [eapply SInv_same_ui; [apply Hui | exact Hw]|].
  eapply adds_weaken; [apply pipeline_event_component | apply Hev].
Qed.

Lemma same_trace_adds (w w' : World State) :
  trace w' = trace w -> adds component_event w w'.
Proof. intros H. exists []. rewrite app_nil_r. split; [exact H | constructor]. Qed.

Lemma setTrainingSteps_carries f :
  (forall steps, Consistent steps -> Consistent (f steps)) ->
  (forall steps, Consistent steps -> Unfinished steps -> Unfinished (f steps)) ->
  steady carries (setTrainingSteps B personaId f).
Proof.
  intros Hc Hu w Hw. pose proof Hw as [(Hc0 & Hu0 & _) _].
  split; [apply setTrainingSteps_SInv; auto|].
  rewrite setTrainingSteps_eq
    by (rewrite (unfinished_not_all _ (Hc _ Hc0) (Hu _ Hc0 Hu0)); reflexivity).
  apply same_trace_adds. reflexivity.
Qed.

Lemma progressCallback_carries stepId p :
  In (stepId, p) AITraining.reported_progress ->
  steady carries (progressCallback B personaId stepId p).
Proof.
  intros Hin. destruct (reported_values _ _ Hin) as [Hle Hfin].
  apply setTrainingSteps_carries.
  - intros steps. apply reportProgress_consistent, Hle.
  - intros steps _. apply reportProgress_unfinished, Hfin.
Qed.

Lemma setIsTraining_carries b : steady carries (setIsTraining B personaId b).
Proof.
  intros w Hw. pose proof Hw as [(Hc0 & Hu0 & _) _].
  split; [apply setIsTraining_SInv, Hw|].
  rewrite setIsTraining_eq by (apply unfinished_not_all; assumption).
  apply same_trace_adds. cbn [snd]. destruct (Bool.eqb _ _); reflexivity.
Qed.

Lemma setError_carries e : steady carries (setError e).
Proof.
  intros w Hw. split; [apply setError_SInv, Hw|]. apply same_trace_adds. reflexivity.
Qed.

Lemma emit_carries e : component_event e -> steady carries (emit e).
Proof.
  intros He w Hw. split; [apply emit_SInv, Hw | apply emit_adds, He].
Qed.

Lemma updatePersonaStatus_training_carries :
  steady carries (updatePersonaStatus B personaId "training" 0).
Proof.
  intros w Hw.
  split; [eapply SInv_same_ui; [apply updatePersonaStatus_same_ui | exact Hw]|].
  revert w Hw. 
  assert (steady (adds component_event) (updatePersonaStatus B personaId "training" 0))
    as H; [|intros w _; apply H].
  unfold updatePersonaStatus.
  repeat (first [ match goal with |- forall _, _ => intro end
                | steady_structure_at (adds_refl (C:=State) component_event)
                                      (adds_trans (C:=State) component_event)
                | apply call_adds; repeat split ]).
Qed.

Lemma pipeline_carries :
  steady carries
         (AITraining.trainPersonaFromUploadedContent B J personaId
            (progressCallback B personaId)).
Proof.
  unfold AITraining.trainPersonaFromUploadedContent, AITraining.startTraining.
  repeat (first
    [ match goal with |- forall _, _ => intro end
    | apply progressCallback_carries; simpl; tauto
    | apply stage_carries;
        [ first [ apply untouched_steady_same_ui, gatherTrainingData_untouched
                | apply untouched_steady_same_ui, analyzeTextContent_untouched
                | apply untouched_steady_same_ui, analyzeAudioContent_untouched
                | apply untouched_steady_same_ui, analyzeVisualContent_untouched
                | apply createPersonaProfile_same_ui
                | apply optimizeConversationModel_same_ui ]
        | first [ apply gatherTrainingData_events
                | apply analyzeTextContent_events
                | apply analyzeAudioContent_events
                | apply analyzeVisualContent_events
                | apply createPersonaProfile_events
                | apply optimizeConversationModel_events ] ]
    | steady_structure_at carries_refl carries_trans ]).
Qed.

Lemma startTraining_carries : steady carries (startTraining B J personaId).
Proof.
  unfold startTraining, trainingAttempt.
  repeat (first
    [ match goal with |- forall _, _ => intro end
    | apply pipeline_carries
    | apply setIsTraining_carries
    | apply setError_carries
    | apply updatePersonaStatus_training_carries
    | apply emit_carries; reflexivity
    | apply setTrainingSteps_carries;
        [ intros steps [Hids _]; apply resetSteps_consistent, Hids
        | intros steps _ _; apply resetSteps_unfinished ]
    | apply setTrainingSteps_carries;
        [ apply markError_consistent | intros steps _; apply markError_unfinished ]
    | steady_structure_at carries_refl carries_trans ]).
Qed.

Lemma tryAgain_carries : steady carries (tryAgain B personaId).
Proof.
  intros w Hw. split.
  - destruct (tryAgain_keeps B personaId w Hw) as [_ H]. exact H.
  - pose proof Hw as [([Hids _] & _ & _) _].
    unfold tryAgain, setError, setOverallProgress, bind, modify_comp, observe.
    cbn [fst snd].
    match goal with |- context [setTrainingSteps B personaId resetSteps ?w0] =>
      rewrite (setTrainingSteps_eq B personaId resetSteps w0)
        by (cbn [comp trainingSteps with_error];
            rewrite (unfinished_not_all _ (resetSteps_consistent _ Hids)
                       (resetSteps_unfinished _)); reflexivity)
    end.
    apply same_trace_adds. reflexivity.
Qed.

Lemma session_carries actions : steady carries (session B J personaId actions).
Proof.
  induction actions as [|a rest IH]; simpl.
  - apply steady_ret, carries_refl.
  - apply steady_bind; [apply carries_trans | | intros _; exact IH].
    unfold click. apply steady_bind; [apply carries_trans | apply steady_get_comp, carries_refl|].
    intros st. destruct a.
    + destruct (_ && _); [apply startTraining_carries | apply steady_ret, carries_refl].
    + destruct (error st); [apply tryAgain_carries | apply steady_ret, carries_refl].
Qed.

(** X17: in every session of the training component, started from its
    mount and run against any backend, the events added are only: the
    update of the persona to status training with progress 0, the
    requests of the pipeline, the toast of success and the toast of
    failure.  The completion callback of the page is never invoked, and
    the component itself never writes the status active: the branch of
    the progress effect that does both needs all stages completed. *)
Theorem completion_is_never_announced :
  forall (actions : list Action) (t : Z) (tr : list Event)
         (tb : gmap string (list ContentRow)) (ps : gmap string PersonaRow)
         (ms : gmap string (list MessageRow)),
    exists evs,
      trace (snd (session B J personaId actions (mounted t tr tb ps ms)))
        = (tr ++ evs)%list /\
      Forall component_event evs /\
      ~ In OnTrainingComplete evs /\
      (forall table id pr u,
          ~ In (Net (UpdatePersona table id (PatchStatus "active" pr u))) evs).
Proof.
  intros actions t tr tb ps ms.
  destruct (session_carries actions (mounted t tr tb ps ms) (mounted_SInv t tr tb ps ms))
    as [_ (evs & T & F)].
  exists evs. split; [exact T|]. split; [exact F|].
  rewrite List.Forall_forall in F. split.
  - intros Hin. exact (F _ Hin).
  - intros table id pr u Hin. destruct (F _ Hin) as (_ & _ & Hst & _). discriminate.
Qed.
End Session.
End CompletionFacts.

Module ConversationExtras.
Import Conversation ConversationFacts.

Section Chat.
Variable B : Backend.
Variable personaId : string.
Variable personaName : string.
Variable conversationType : string.




(** The request that opens a conversation in [w]. *)
Definition open_request (w : World State) : Request :=
  InsertConversation "conversations" (mkConversationRow personaId conversationType (now w)).

(** X19: opening the conversation never fails and sends one request,
    the insert into the conversations table.  The conversation
    identifier is set exactly when that insert is served; when it is
    refused or throws, the component is left as it was, so that, if no
    conversation was open, none is, and every later attempt to send a
    message does nothing. *)
Theorem conversation_opens_only_when_insert_is_served :
  forall w : World State,
    let w' := snd (initializeConversation B personaId conversationType w) in
    fst (initializeConversation B personaId conversationType w) = Fulfilled tt /\
    trace w' = (trace w ++ [Net (open_request w)])%list /\
    messages (comp w') = messages (comp w) /\
    match answer B (sent w) (open_request w) with
    | Accepted => conversationId (comp w') = Some (new_row_id B (sent w))
    | _ =>
        comp w' = comp w /\
        (conversationId (comp w) = None ->
         forall w2 : World State,
           comp w2 = comp w' -> sendMessage B w2 = (Fulfilled tt, w2))
    end.
Proof.
  intros w w'. subst w'.
  destruct (initializeConversation B personaId conversationType w) as [r wf] eqn:Hrun.
  cbn [fst snd].
  unfold initializeConversation, try_catch, bind, date_now, call, throw, ret,
    setConversationId, modify_comp in Hrun.
  cbn [fst snd] in Hrun. fold (open_request w) in Hrun.
  assert (forall w2 : World State,
             conversationId (comp w2) = None -> sendMessage B w2 = (Fulfilled tt, w2))
    as Hidle.
  { intros w2 H2. unfold sendMessage, bind, get_comp. cbn [fst snd]. rewrite H2. reflexivity. }
  destruct (answer B (sent w) (open_request w)) as [|e|x];
    cbn in Hrun; inversion Hrun; subst; clear Hrun; cbn;
    repeat (split; [reflexivity|]); try reflexivity;
    intros Hnone w2 H2; apply Hidle; rewrite H2; exact Hnone.
Qed.

(** The request that loads the engine, and the first request to it. *)
Definition greeting_input : string := "Hello, it's so good to see you!".

(** X20: loading the engine never fails.  It either leaves the
    transcript as it is (the load throws, or the greeting of a loaded
    engine throws) or replaces the whole transcript, whatever it held, by
    one message of the persona with identifier 1: the greeting the engine
    answered, or, when no trained engine exists, the fixed sentence that
    names the persona.  The engine is stored as soon as it is loaded, also
    when its greeting fails, and is not stored otherwise. *)
Theorem engine_load_replaces_the_transcript :
  forall w : World State,
    let w' := snd (loadAIEngine B personaId personaName w) in
    fst (loadAIEngine B personaId personaName w) = Fulfilled tt /\
    conversationId (comp w') = conversationId (comp w) /\
    (messages (comp w') = messages (comp w) \/
     exists m, messages (comp w') = [m] /\ id m = "1" /\ sender_type m = Persona) /\
    match engine_loaded B (sent w) personaId with
    | Rejected _ => comp w' = comp w /\ trace w' = (trace w ++ [Net (EngineLoad personaId)])%list
    | Fulfilled false =>
        aiEngine (comp w') = aiEngine (comp w) /\
        trace w' = (trace w ++ [Net (EngineLoad personaId)])%list /\
        exists t, messages (comp w') =
                    [mkMessage "1" Persona
                       ("Hello! I'm still learning about " ++ personaName ++
                        ". Please complete the AI training first for more personalized conversations.")
                       t "text"]
    | Fulfilled true =>
        aiEngine (comp w') = Some (TrainedEngine personaId) /\
        trace w' = (trace w ++ [Net (EngineLoad personaId);
                                Net (EngineReply greeting_input)])%list /\
        match engine_reply B (S (sent w)) greeting_input with
        | Fulfilled greeting =>
            exists t, messages (comp w') = [mkMessage "1" Persona greeting t "text"]
        | Rejected _ => messages (comp w') = messages (comp w)
        end
    end.
Proof.
  intros w w'. subst w'.
  destruct (loadAIEngine B personaId personaName w) as [r wf] eqn:Hrun.
  cbn [fst snd].
  unfold loadAIEngine, generateResponse, try_catch, bind, ask, date_now, ret,
    setAiEngine, setMessages, modify_comp in Hrun.
  cbn [fst snd] in Hrun. fold greeting_input in Hrun.
  destruct (engine_loaded B (sent w) personaId) as [[|]|x]; cbn [fst snd] in Hrun.
  - match type of Hrun with
    | context [engine_reply B (sent ?w0) greeting_input] =>
        change (sent w0) with (sent (record B (EngineLoad personaId) w)) in Hrun
    end.
    rewrite UploadExtras.sent_record in Hrun.
    destruct (engine_reply B (S (sent w)) greeting_input) as [greeting|x];
      cbn in Hrun; inversion Hrun; subst; clear Hrun; cbn;
      (split; [reflexivity|]); (split; [reflexivity|]).
    + split; [right; eexists; repeat split|].
      split; [reflexivity|]. split; [rewrite <- app_assoc; reflexivity|].
      eexists. reflexivity.
    + split; [left; reflexivity|].
      split; [reflexivity|]. split; [rewrite <- app_assoc; reflexivity | reflexivity].
  - cbn in Hrun; inversion Hrun; subst; clear Hrun; cbn.
    split; [reflexivity|]. split; [reflexivity|].
    split; [right; eexists; repeat split|].
    split; [reflexivity|]. split; [reflexivity|]. eexists. reflexivity.
  - cbn in Hrun; inversion Hrun; subst; clear Hrun; cbn.
    split; [reflexivity|]. split; [reflexivity|].
    split; [left; reflexivity|]. split; reflexivity.
Qed.
End Chat.
End ConversationExtras.

(** A backend whose object store works and whose tables refuse every
    insert of a content record. *)
Definition insert_refusing_backend : Backend :=
  mkBackend (fun _ r =>
               match r with
               | InsertContent _ _ =>
                   Refused (mkRemoteError "new row violates row-level security policy"
                                          EmptyString EmptyString "42501")
               | _ => Accepted
               end)
            (fun _ _ => 1)
            (fun b p => "https://store/" ++ b ++ "/" ++ p)
            (fun n => "row-" ++ pretty (Z.of_nat n))
            (fun _ _ => Fulfilled (Some "{}"))
            (fun _ _ => Fulfilled "hello")
            (fun _ _ => Fulfilled tt)
            (fun _ _ => Fulfilled false)
            (fun _ _ => Fulfilled "hi").

Module OrphanedUpload.
Import FileUpload FileUploadFacts.

Lemma errorMessage_prefix dbError :
  startsWith "Database save failed: " (errorMessage dbError) = true.
Proof.
  unfold startsWith, errorMessage.
  destruct (truthy (err_message dbError));
    [|destruct (truthy (err_details dbError));
      [|destruct (truthy (err_hint dbError))]];
    match goal with
    | |- String.prefix _ ((_ ++ ?a ++ ?b) ++ ?c) = true =>
        change (String.prefix "Database save failed: "
                  ("Database save failed: " ++ (b ++ c)) = true)
    | |- String.prefix _ ((_ ++ ?a) ++ ?c) = true => idtac
    end; try apply prefix_app.
  change (String.prefix "Database save failed: "
            ("Database save failed: " ++
             ("Unknown database error" ++
              (if String.eqb (err_code dbError) "PGRST116"
               then " (No rows returned - check RLS policies)"
               else if String.eqb (err_code dbError) "23503"
               then " (Foreign key violation - persona not found)"
               else if String.eqb (err_code dbError) "42501"
               then " (Permission denied - check RLS policies)"
               else EmptyString))) = true).
  apply prefix_app.
Qed.

(** X21: when the object store serves its requests and the insert of
    the record is refused, the upload of a file of acceptable size for a
    valid persona resolves to a record in status error that still carries
    the public address of the stored object, with a message that starts
    with the words of a failed save; the requests made are the two of the
    probe, the transfer and the insert, followed by the toast with that
    message.  Nothing is sent after the refused insert: the object just
    stored is not deleted, and no timer is registered. *)
Theorem refused_insert_leaves_the_object_stored
        (B : Backend) (personaId : string) (t : Z) (file : File) (w : World State)
        (e : RemoteError)
        (Hsize : tooLarge file = false)
        (Hvalid : isPersonaIdValid personaId = true)
        (Hstore : forall n b path body, answer B n (StorageUpload b path body) = Accepted)
        (Hremove : forall n b paths, answer B n (StorageRemove b paths) = Accepted)
        (Hinsert : forall n table row, answer B n (InsertContent table row) = Refused e) :
  let run := uploadFile_at B personaId t file w in
  fst run = Fulfilled (mkUploaded (fileId_of t file) (file_name file) (file_size file)
                                  (file_type file)
                                  (public_url B bucket (fileId_of t file))
                                  Error 0 (Some (errorMessage e))) /\
  startsWith "Database save failed: " (errorMessage e) = true /\
  (exists row,
      file_url row = public_url B bucket (fileId_of t file) /\
      trace (snd run)
        = (trace w ++ [Net (UploadExtras.probe_write w);
                       Net (UploadExtras.probe_delete w);
                       Net (StorageUpload bucket (fileId_of t file) (FileOf file));
                       Net (InsertContent inserted_table row);
                       ToastError ("Upload failed: " ++ errorMessage e)])%list) /\
  timers (comp (snd run)) = timers (comp w) /\
  tables (snd run) = tables w.
Proof.
  intros run. subst run.
  destruct (uploadFile_at B personaId t file w) as [r wf] eqn:Hrun. cbn [fst snd].
  unfold uploadFile_at in Hrun.
  rewrite Hsize, (valid_persona_guard personaId Hvalid) in Hrun.
  unfold checkAndCreateBucket, upload_failed, setTimeout, setBucketChecked, setBucketError,
    try_catch, bind, throw, emit, modify_comp, date_now, call, ret in Hrun.
  cbn [fst snd] in Hrun.
  repeat (first [rewrite Hstore in Hrun | rewrite Hremove in Hrun | rewrite Hinsert in Hrun];
          cbn [fst snd serve negb] in Hrun).
  inversion Hrun; subst; clear Hrun.
  split; [reflexivity|]. split; [apply errorMessage_prefix|].
  split; [|split; reflexivity].
  eexists. split; [|cbn [trace log record]; rewrite <- !app_assoc; reflexivity].
  reflexivity.
Qed.

Lemma refused_insert_leaves_the_object_stored_witness :
  exists u,
    fst (uploadFile_at insert_refusing_backend a_persona 5 small checked) = Fulfilled u /\
    status u = Error /\
    url u = "https://store/persona-content/5-voice_memo.mp3".
Proof.
  eexists. split; [|split].
  - exact (proj1 (refused_insert_leaves_the_object_stored
                    insert_refusing_backend a_persona 5 small checked
                    (mkRemoteError "new row violates row-level security policy"
                                   EmptyString EmptyString "42501")
                    eq_refl eq_refl (fun _ _ _ _ => eq_refl) (fun _ _ _ => eq_refl)
                    (fun _ _ _ => eq_refl))).
  - reflexivity.
  - vm_compute. reflexivity.
Defined.
End OrphanedUpload.
